(** * Scoring and leaderboard core of the hackathon / game-jam platform

    A shallow embedding of the server code that scores submissions and
    ranks them per event:

    - [server/models/Submission.js]: the schema, the [pre('save')] hook
      and the [autoJudge] method;
    - [server/models/Event.js]: the embedded leaderboard;
    - the submissions router: [POST /], [POST /:id/vote],
      [POST /:id/judge], [POST /:id/feedback], the tallies of
      [GET /:id/analytics], [DELETE /:id] and the helper
      [updateEventLeaderboard];
    - [server/routes/events.js]: [GET /:id/leaderboard],
      [POST /:id/update-leaderboard] and the phase routes
      [POST /:id/start], [/:id/end] and [/:id/complete];
    - [server/server.js]: the socket handler [requestLeaderboard];
    - the Team model and the teams router: the [pre('save')] hook,
      [POST /:id/tasks] and [PUT /:id/tasks/:taskId].

    Modelling conventions.
    - A JavaScript [Number] is an exact rational ([Q]); rounding, [NaN]
      and infinities are outside the model.  Arithmetic identities are
      therefore stated with [==] ([Qeq]) where two different expressions
      are compared.
    - A Mongo [ObjectId] is a [positive]; a [Date] is a number of
      milliseconds ([Z]).  The clock is an oracle that is read once per
      [Date.now()] or [new Date()].
    - The database is a record of finite maps.  Handlers run one at a
      time in a state monad over the database and the clock, with
      JavaScript exceptions as the error component; a [try { } catch]
      block keeps whatever was written before the exception.
    - A document is reduced to the paths that the scoring core reads or
      writes.  A [save()] runs the [pre('save')] hook of the schema and
      then writes; failures of the store are not modelled.  The hook
      of the Event schema only fills [stats], which is not modelled; it
      goes through on a document that was loaded whole and throws on
      one loaded without the arrays it reads, and is written out where
      a route saves such a document.  A nested path of a schema reads
      as an object, and an array path as an array, also when nothing is
      stored under it.  Schema validation is modelled where a route stores a value
      of the request under an enum or a range of the schema (the
      feedback route, [POST /] and the task routes), and nowhere else.
    - [Array.prototype.sort] is the stable sort that ECMAScript requires,
      realised as an insertion sort.
*)

From stdpp Require Import base option list gmap strings.
From Stdlib Require Import ZArith QArith Qminmax Qround Lia Lqa.
From Stdlib Require Import Sorting.Sorted Sorting.Permutation.

Local Open Scope Q_scope.

(* ===================================================================== *)
(** ** Data model *)
(* ===================================================================== *)

Definition ObjectId := positive.
Definition Date := Z.

Bind Scope positive_scope with ObjectId.
Bind Scope Z_scope with Date.

Inductive SubmissionStatus :=
  | draft | submitted | under_review | approved | rejected.

Inductive JudgingStatus := pending | judging | judged.

Inductive EventStatus := upcoming | active | ev_judging | completed.

Definition SubmissionStatus_eqb (a b : SubmissionStatus) : bool :=
  match a, b with
  | draft, draft | submitted, submitted | under_review, under_review
  | approved, approved | rejected, rejected => true
  | _, _ => false
  end.

Definition JudgingStatus_eqb (a b : JudgingStatus) : bool :=
  match a, b with
  | pending, pending | judging, judging | judged, judged => true
  | _, _ => false
  end.

Definition EventStatus_eqb (a b : EventStatus) : bool :=
  match a, b with
  | upcoming, upcoming | active, active | ev_judging, ev_judging
  | completed, completed => true
  | _, _ => false
  end.

(** [metadata] of the Submission schema; every path is optional. *)
Record Metadata := mkMetadata {
  md_linesOfCode : option Q;
  md_technologies : option (list string);
  md_innovation : option Q;
  md_completeness : option Q;
  md_documentation : option Q;
  md_presentation : option Q
}.

(** One element of [judging.scores].  [autoJudge] builds records without a
    [judge] and without [feedback]. *)
Record ScoreRecord := mkScore {
  sc_criterion : string;
  sc_score : Q;
  sc_maxScore : Q;
  sc_judge : option ObjectId;
  sc_feedback : option string;
  sc_timestamp : Date
}.

(** One element of [voting.votes]. *)
Record Vote := mkVote {
  v_user : ObjectId;
  v_score : Q;
  v_timestamp : Date
}.

(** One element of the top-level [feedback] array. *)
Record Feedback := mkFeedback {
  fb_from : ObjectId;
  fb_message : string;
  fb_type : string;
  fb_timestamp : Date
}.

Record Submission := mkSubmission {
  sub_id : ObjectId;
  sub_event : ObjectId;
  sub_team : ObjectId;
  sub_metadata : option Metadata;
  sub_scores : list ScoreRecord;        (* judging.scores *)
  sub_totalScore : Q;                   (* judging.totalScore *)
  sub_averageScore : Q;                 (* judging.averageScore *)
  sub_judging_status : JudgingStatus;   (* judging.status *)
  sub_publicVotes : Q;                  (* voting.publicVotes *)
  sub_votes : list Vote;                (* voting.votes *)
  sub_status : SubmissionStatus;
  sub_feedback : list Feedback
}.

(** One element of [event.leaderboard]. *)
Record LeaderboardEntry := mkEntry {
  le_team : ObjectId;
  le_submission : ObjectId;
  le_totalScore : Q;
  le_scores : list ScoreRecord;
  le_rank : nat;
  le_updatedAt : Date
}.

Record Event := mkEvent {
  ev_id : ObjectId;
  ev_organizer : ObjectId;
  ev_status : EventStatus;
  ev_isAutomated : bool;                (* judging.isAutomated *)
  ev_judges : list ObjectId;            (* judging.judges *)
  ev_submissions : list ObjectId;
  ev_leaderboard : list LeaderboardEntry
}.

Record Team := mkTeam {
  tm_id : ObjectId;
  tm_leader : ObjectId;
  tm_submission : option ObjectId
}.

(** *** Field updates (assignments to one path of a document) *)

Definition set_scores (l : list ScoreRecord) (s : Submission) : Submission :=
  mkSubmission (sub_id s) (sub_event s) (sub_team s) (sub_metadata s)
    l (sub_totalScore s) (sub_averageScore s) (sub_judging_status s)
    (sub_publicVotes s) (sub_votes s) (sub_status s) (sub_feedback s).

Definition set_totalScore (q : Q) (s : Submission) : Submission :=
  mkSubmission (sub_id s) (sub_event s) (sub_team s) (sub_metadata s)
    (sub_scores s) q (sub_averageScore s) (sub_judging_status s)
    (sub_publicVotes s) (sub_votes s) (sub_status s) (sub_feedback s).

Definition set_averageScore (q : Q) (s : Submission) : Submission :=
  mkSubmission (sub_id s) (sub_event s) (sub_team s) (sub_metadata s)
    (sub_scores s) (sub_totalScore s) q (sub_judging_status s)
    (sub_publicVotes s) (sub_votes s) (sub_status s) (sub_feedback s).

Definition set_judging_status (j : JudgingStatus) (s : Submission) : Submission :=
  mkSubmission (sub_id s) (sub_event s) (sub_team s) (sub_metadata s)
    (sub_scores s) (sub_totalScore s) (sub_averageScore s) j
    (sub_publicVotes s) (sub_votes s) (sub_status s) (sub_feedback s).

Definition set_publicVotes (q : Q) (s : Submission) : Submission :=
  mkSubmission (sub_id s) (sub_event s) (sub_team s) (sub_metadata s)
    (sub_scores s) (sub_totalScore s) (sub_averageScore s)
    (sub_judging_status s) q (sub_votes s) (sub_status s) (sub_feedback s).

Definition set_votes (l : list Vote) (s : Submission) : Submission :=
  mkSubmission (sub_id s) (sub_event s) (sub_team s) (sub_metadata s)
    (sub_scores s) (sub_totalScore s) (sub_averageScore s)
    (sub_judging_status s) (sub_publicVotes s) l (sub_status s)
    (sub_feedback s).

Definition set_feedback (l : list Feedback) (s : Submission) : Submission :=
  mkSubmission (sub_id s) (sub_event s) (sub_team s) (sub_metadata s)
    (sub_scores s) (sub_totalScore s) (sub_averageScore s)
    (sub_judging_status s) (sub_publicVotes s) (sub_votes s) (sub_status s) l.

Definition set_leaderboard (lb : list LeaderboardEntry) (e : Event) : Event :=
  mkEvent (ev_id e) (ev_organizer e) (ev_status e) (ev_isAutomated e)
    (ev_judges e) (ev_submissions e) lb.

Definition set_submissions (l : list ObjectId) (e : Event) : Event :=
  mkEvent (ev_id e) (ev_organizer e) (ev_status e) (ev_isAutomated e)
    (ev_judges e) l (ev_leaderboard e).

Definition set_team_submission (x : option ObjectId) (t : Team) : Team :=
  mkTeam (tm_id t) (tm_leader t) x.

Definition set_rank (r : nat) (e : LeaderboardEntry) : LeaderboardEntry :=
  mkEntry (le_team e) (le_submission e) (le_totalScore e) (le_scores e)
    r (le_updatedAt e).

Definition set_vote_score (q : Q) (v : Vote) : Vote :=
  mkVote (v_user v) q (v_timestamp v).

Definition set_vote_timestamp (t : Date) (v : Vote) : Vote :=
  mkVote (v_user v) (v_score v) t.

(* ===================================================================== *)
(** ** The store, the clock and the handler monad *)
(* ===================================================================== *)

Record Db := mkDb {
  db_events : gmap ObjectId Event;
  db_submissions : gmap ObjectId Submission;
  db_teams : gmap ObjectId Team
}.

(** The clock is an oracle: [w_clock k] is what the [k]-th reading of the
    time ([Date.now()] or [new Date()]) returns. *)
Record World := mkWorld {
  w_db : Db;
  w_clock : nat -> Date;
  w_reads : nat
}.

Inductive JsError := TypeError.

(** A computation may write to the world and then throw; the world it
    leaves behind is kept in both cases. *)
Definition M (A : Type) : Type := World -> World * (JsError + A).

Definition ret {A} (a : A) : M A := fun w => (w, inr a).

Definition bind {A B} (m : M A) (k : A -> M B) : M B :=
  fun w =>
    match m w with
    | (w', inr a) => k a w'
    | (w', inl e) => (w', inl e)
    end.

Definition throw {A} (e : JsError) : M A := fun w => (w, inl e).

Definition try_catch {A} (body : M A) (handler : JsError -> M A) : M A :=
  fun w =>
    match body w with
    | (w', inr a) => (w', inr a)
    | (w', inl e) => handler e w'
    end.

Declare Scope js_scope.
Delimit Scope js_scope with js.
Notation "'let*' x := m 'in' k" := (bind m (fun x => k))
  (at level 10, x name, m at level 100, k at level 200) : js_scope.
Notation "m ;; k" := (bind m (fun _ => k))
  (at level 100, k at level 200, right associativity) : js_scope.

Local Open Scope js_scope.

Definition Date_now : M Date :=
  fun w => (mkWorld (w_db w) (w_clock w) (S (w_reads w)),
            inr (w_clock w (w_reads w))).

Definition get_db : M Db := fun w => (w, inr (w_db w)).

Definition put_db (d : Db) : M unit :=
  fun w => (mkWorld d (w_clock w) (w_reads w), inr tt).

(** *** Mongoose queries *)

Definition Submission_findById (id : ObjectId) : M (option Submission) :=
  let* d := get_db in ret (db_submissions d !! id).

Definition Event_findById (id : ObjectId) : M (option Event) :=
  let* d := get_db in ret (db_events d !! id).

(** [.populate('submissions')]: the documents of the referenced ids, in the
    order of the array; ids without a document are dropped. *)
Definition populate_submissions (event : Event) : M (list Submission) :=
  let* d := get_db in
  ret (omap (fun id => db_submissions d !! id) (ev_submissions event)).

(** [await submission.populate('team')] followed by [submission.team._id]:
    a missing team populates to [null], and reading [_id] of it throws. *)
Definition populated_team_id (s : Submission) : M ObjectId :=
  let* d := get_db in
  match db_teams d !! sub_team s with
  | Some t => ret (tm_id t)
  | None => throw TypeError
  end.

(** The write of [await event.save()], after the hook of the schema has
    gone through. *)
Definition Event_save (event : Event) : M unit :=
  let* d := get_db in
  put_db (mkDb (<[ev_id event := event]> (db_events d))
               (db_submissions d) (db_teams d)).

Definition Team_save (team : Team) : M unit :=
  let* d := get_db in
  put_db (mkDb (db_events d) (db_submissions d)
               (<[tm_id team := team]> (db_teams d))).

(** [Event.findByIdAndUpdate(eventId, { $pull: { submissions: id } })] *)
Definition Event_pull_submission (eventId id : ObjectId) : M unit :=
  let* d := get_db in
  match db_events d !! eventId with
  | Some event =>
      put_db (mkDb (<[eventId :=
                        set_submissions
                          (List.filter (fun x => negb (Pos.eqb x id))
                                       (ev_submissions event)) event]>
                      (db_events d))
                   (db_submissions d) (db_teams d))
  | None => ret tt
  end.

Definition Submission_findByIdAndDelete (id : ObjectId) : M unit :=
  let* d := get_db in
  put_db (mkDb (db_events d) (delete id (db_submissions d)) (db_teams d)).

(* ===================================================================== *)
(** ** [server/models/Submission.js] *)
(* ===================================================================== *)

(** [SubmissionSchema.pre('save')].  Both blocks are guarded by
    [length > 0]; with an empty array the stored scalar is not touched. *)
Definition Submission_pre_save (this : Submission) : Submission :=
  let this :=
    if (0 <? length (sub_scores this))%nat then
      let this :=
        set_totalScore
          (fold_left (fun sum score => sum + sc_score score)
                     (sub_scores this) 0) this in
      set_averageScore
        (sub_totalScore this / inject_Z (Z.of_nat (length (sub_scores this))))
        this
    else this in
  if (0 <? length (sub_votes this))%nat then
    set_publicVotes
      (fold_left (fun sum vote => sum + v_score vote) (sub_votes this) 0
       / inject_Z (Z.of_nat (length (sub_votes this))))
      this
  else this.

(** [await submission.save()]: run the hook, write the document, and leave
    the caller with the document as the hook left it. *)
Definition Submission_save (this : Submission) : M Submission :=
  let this := Submission_pre_save this in
  let* d := get_db in
  put_db (mkDb (db_events d)
               (<[sub_id this := this]> (db_submissions d))
               (db_teams d)) ;;
  ret this.

(** The comparison [a < b] on numbers, as a boolean. *)
Definition Qltb (a b : Q) : bool :=
  match a ?= b with
  | Lt => true
  | _ => false
  end.

(** JavaScript truthiness of an optional number: [undefined] and [0] are
    falsy. *)
Definition truthy (x : option Q) : bool :=
  match x with
  | Some q => negb (Qeq_bool q 0)
  | None => false
  end.

(** The value read from an optional numeric path that tested truthy. *)
Definition num (x : option Q) : Q := default 0 x.

Definition array_length {A} (l : list A) : Q := inject_Z (Z.of_nat (length l)).

(** JavaScript truthiness of an array or of an object: every one is
    truthy, the empty array included. *)
Definition array_truthy {A} (l : list A) : bool := true.

Definition object_truthy {A} (o : A) : bool := true.

(** [scores.push({ criterion, score, maxScore: 100, timestamp: Date.now() })] *)
Definition push_auto (scores : list ScoreRecord) (criterion : string)
    (score : Q) : M (list ScoreRecord) :=
  let* now := Date_now in
  ret (scores ++ [mkScore criterion score 100 None None now]).

(** The body of [autoJudge] between the guard and the assignment to
    [this.judging.scores].  [metadata.technologies] is an array path of
    the schema: on a document it reads as the empty array when nothing
    was stored under it. *)
Definition autoJudge_scores (metadata : Metadata) : M (list ScoreRecord) :=
  let scores := [] in
  let* scores :=
    if truthy (md_innovation metadata)
    then push_auto scores "Innovation" (num (md_innovation metadata) * 10)
    else ret scores in
  let* scores :=
    let technologies := default [] (md_technologies metadata) in
    if array_truthy technologies && truthy (md_linesOfCode metadata) then
      let techScore := Qmin (array_length technologies * 10) 50 in
      let codeScore := Qmin (num (md_linesOfCode metadata) / 100) 50 in
      push_auto scores "Technical Complexity" (techScore + codeScore)
    else ret scores in
  let* scores :=
    if truthy (md_completeness metadata)
    then push_auto scores "Completeness" (num (md_completeness metadata) * 10)
    else ret scores in
  let* scores :=
    if truthy (md_documentation metadata)
    then push_auto scores "Documentation" (num (md_documentation metadata) * 10)
    else ret scores in
  let* scores :=
    if truthy (md_presentation metadata)
    then push_auto scores "Presentation" (num (md_presentation metadata) * 10)
    else ret scores in
  ret scores.

(** What a call of [autoJudge] hands back: [undefined] from the guard, or
    the promise of [this.save()], which resolves to the saved document. *)
Inductive AutoJudgeResult :=
  | AJ_undefined
  | AJ_saved (this : Submission).

(** [this.metadata] on a document.  [metadata] is a nested path of the
    schema, so the getter hands back an object whether or not anything
    was stored under it; every path of a submission without metadata
    reads [undefined]. *)
Definition this_metadata (this : Submission) : Metadata :=
  default (mkMetadata None None None None None None) (sub_metadata this).

(** [SubmissionSchema.methods.autoJudge].  The guard
    [if (!this.metadata) return;] tests an object and is never taken. *)
Definition autoJudge (this : Submission) : M AutoJudgeResult :=
  let metadata := this_metadata this in
  if negb (object_truthy metadata) then ret AJ_undefined
  else
    let* scores := autoJudge_scores metadata in
    let this := set_scores scores this in
    let this := set_judging_status judged this in
    let* this := Submission_save this in
    ret (AJ_saved this).

(** The document the caller holds after [await submission.autoJudge()]:
    the method mutates [this] in place, or leaves it alone. *)
Definition after_autoJudge (this : Submission) (r : AutoJudgeResult) : Submission :=
  match r with
  | AJ_undefined => this
  | AJ_saved this' => this'
  end.

(* ===================================================================== *)
(** ** [Array.prototype.sort] and [forEach] with an index *)
(* ===================================================================== *)

Section ArraySort.
Context {A : Type}.
Variable compareFn : A -> A -> Q.

(** [x] moves right past every element that the comparator puts strictly
    before it, and stops at the first one that it ties with or beats. *)
Fixpoint sort_insert (x : A) (l : list A) : list A :=
  match l with
  | [] => [x]
  | y :: l' =>
      if Qltb 0 (compareFn x y)
      then y :: sort_insert x l'
      else x :: l
  end.

Definition Array_sort (l : list A) : list A :=
  foldr sort_insert [] l.

End ArraySort.

(** [(a, b) => b.totalScore - a.totalScore] *)
Definition by_totalScore_desc (a b : LeaderboardEntry) : Q :=
  le_totalScore b - le_totalScore a.

(** [leaderboard.forEach((entry, index) => { entry.rank = index + 1; })] *)
Definition assign_ranks (l : list LeaderboardEntry) : list LeaderboardEntry :=
  imap (fun index entry => set_rank (index + 1) entry) l.

(* ===================================================================== *)
(** ** HTTP responses and socket emissions *)
(* ===================================================================== *)

Inductive Body :=
  | Message (message : string)
  | Leaderboard (leaderboard : list LeaderboardEntry)
  | MessageLeaderboard (message : string) (leaderboard : list LeaderboardEntry)
  | MessageAverage (message : string) (averageScore : Q)
  | MessageTotal (message : string) (totalScore : Q).

Record Response := mkResponse {
  res_status : nat;
  res_body : Body
}.

Inductive Emit :=
  | leaderboardUpdate (eventId : ObjectId) (leaderboard : list LeaderboardEntry)
  | error (message : string).

(* ===================================================================== *)
(** ** The submissions router *)
(* ===================================================================== *)

(** The [for (const submission of event.submissions)] loop of
    [updateEventLeaderboard]. *)
Fixpoint collect_eligible (submissions : list Submission)
    (leaderboard : list LeaderboardEntry) : M (list LeaderboardEntry) :=
  match submissions with
  | [] => ret leaderboard
  | submission :: rest =>
      let* leaderboard :=
        if SubmissionStatus_eqb (sub_status submission) submitted
           && Qltb 0 (sub_totalScore submission)
        then
          let* team := populated_team_id submission in
          let* now := Date_now in
          ret (leaderboard ++
               [mkEntry team (sub_id submission)
                  (sub_totalScore submission + sub_publicVotes submission * 10)
                  (sub_scores submission) 0 now])
        else ret leaderboard in
      collect_eligible rest leaderboard
  end.

(** [async function updateEventLeaderboard(eventId)].  A missing event
    makes [event.submissions] throw; the [catch] returns [[]] and the
    stored leaderboard stays as it was. *)
Definition updateEventLeaderboard (eventId : ObjectId) : M (list LeaderboardEntry) :=
  try_catch
    (let* event := Event_findById eventId in
     match event with
     | None => throw TypeError
     | Some event =>
         let* submissions := populate_submissions event in
         let* leaderboard := collect_eligible submissions [] in
         let leaderboard := Array_sort by_totalScore_desc leaderboard in
         let leaderboard := assign_ranks leaderboard in
         Event_save (set_leaderboard leaderboard event) ;;
         ret leaderboard
     end)
    (fun _ => ret []).

(** [router.post('/:id/vote')], with [req.user._id = user] and
    [req.body.score = score], for a request whose score is a number.  A
    request without a score, which passes the range test of the route
    because both comparisons with [undefined] are false and is stored as
    a vote without score, has no counterpart here. *)
Definition post_vote (id user : ObjectId) (score : Q) : M Response :=
  try_catch
    (if Qltb score 1 || Qltb 5 score then
       ret (mkResponse 400 (Message "Score must be between 1 and 5"))
     else
       let* submission := Submission_findById id in
       match submission with
       | None => ret (mkResponse 404 (Message "Submission not found"))
       | Some submission =>
           let* event := Event_findById (sub_event submission) in
           match event with
           | None => throw TypeError
           | Some event =>
               if negb (EventStatus_eqb (ev_status event) ev_judging)
                  && negb (EventStatus_eqb (ev_status event) completed)
               then
                 ret (mkResponse 400 (Message "Voting is not open for this event"))
               else
                 let* votes :=
                   match list_find (fun vote => v_user vote = user)
                                   (sub_votes submission) with
                   | Some (i, existingVote) =>
                       let existingVote := set_vote_score score existingVote in
                       let* now := Date_now in
                       let existingVote := set_vote_timestamp now existingVote in
                       ret (<[i := existingVote]> (sub_votes submission))
                   | None =>
                       let* now := Date_now in
                       ret (sub_votes submission ++ [mkVote user score now])
                   end in
                 let* submission := Submission_save (set_votes votes submission) in
                 updateEventLeaderboard (sub_event submission) ;;
                 ret (mkResponse 200
                        (MessageAverage "Vote submitted successfully"
                           (sub_publicVotes submission)))
           end
       end)
    (fun _ => ret (mkResponse 500 (Message "Server error"))).

(** One element of [req.body.scores] of the judge route. *)
Record ScoreData := mkScoreData {
  sd_criterion : string;
  sd_score : Q;
  sd_maxScore : option Q;
  sd_feedback : option string
}.

(** [submission.judging.scores.filter(score =>
       score.judge.toString() !== req.user._id.toString())]:
    a record without a judge makes the callback throw. *)
Fixpoint filter_other_judges (user : ObjectId) (scores : list ScoreRecord)
    : M (list ScoreRecord) :=
  match scores with
  | [] => ret []
  | score :: rest =>
      match sc_judge score with
      | None => throw TypeError
      | Some judge =>
          let* rest := filter_other_judges user rest in
          ret (if bool_decide (judge <> user) then score :: rest else rest)
      end
  end.

(** [scores.forEach(scoreData => submission.judging.scores.push({...}))] *)
Fixpoint push_judge_scores (user : ObjectId) (scores : list ScoreData)
    (acc : list ScoreRecord) : M (list ScoreRecord) :=
  match scores with
  | [] => ret acc
  | scoreData :: rest =>
      let* now := Date_now in
      push_judge_scores user rest
        (acc ++ [mkScore (sd_criterion scoreData) (sd_score scoreData)
                   (if truthy (sd_maxScore scoreData)
                    then num (sd_maxScore scoreData) else 100)
                   (Some user) (sd_feedback scoreData) now])
  end.

Definition truthy_string (x : option string) : bool :=
  match x with
  | Some s => negb (String.eqb s "")
  | None => false
  end.

(** [router.post('/:id/judge')], with [req.user._id = user] and
    [req.body = { scores, feedback }]. *)
Definition post_judge (id user : ObjectId) (scores : list ScoreData)
    (feedback : option string) : M Response :=
  try_catch
    (let* submission := Submission_findById id in
     match submission with
     | None => ret (mkResponse 404 (Message "Submission not found"))
     | Some submission =>
         let* event := Event_findById (sub_event submission) in
         match event with
         | None => throw TypeError
         | Some event =>
             let isJudge :=
               bool_decide (user ∈ ev_judges event)
               || bool_decide (ev_organizer event = user) in
             if negb isJudge then
               ret (mkResponse 403
                      (Message "Not authorized to judge this submission"))
             else
               let* kept := filter_other_judges user (sub_scores submission) in
               let* all := push_judge_scores user scores kept in
               let submission := set_scores all submission in
               let submission := set_judging_status judged submission in
               let* submission :=
                 if truthy_string feedback then
                   let* now := Date_now in
                   ret (set_feedback
                          (sub_feedback submission ++
                           [mkFeedback user (default "" feedback) "judge" now])
                          submission)
                 else ret submission in
               let* submission := Submission_save submission in
               updateEventLeaderboard (ev_id event) ;;
               ret (mkResponse 200
                      (MessageTotal "Submission judged successfully"
                         (sub_totalScore submission)))
         end
     end)
    (fun _ => ret (mkResponse 500 (Message "Server error"))).

(** [router.delete('/:id')], with [req.user._id = user].  The submission
    is loaded with its team and its event populated; reading [leader] or
    [organizer] of a missing one throws. *)
Definition delete_submission (id user : ObjectId) : M Response :=
  try_catch
    (let* submission := Submission_findById id in
     match submission with
     | None => ret (mkResponse 404 (Message "Submission not found"))
     | Some submission =>
         let* d := get_db in
         match db_teams d !! sub_team submission with
         | None => throw TypeError
         | Some team =>
             let isLeader := bool_decide (tm_leader team = user) in
             match db_events d !! sub_event submission with
             | None => throw TypeError
             | Some event =>
                 let isOrganizer := bool_decide (ev_organizer event = user) in
                 if negb isLeader && negb isOrganizer then
                   ret (mkResponse 403
                          (Message "Not authorized to delete this submission"))
                 else
                   Team_save (set_team_submission None team) ;;
                   Event_pull_submission (ev_id event) (sub_id submission) ;;
                   Submission_findByIdAndDelete id ;;
                   updateEventLeaderboard (ev_id event) ;;
                   ret (mkResponse 200 (Message "Submission deleted successfully"))
             end
         end
     end)
    (fun _ => ret (mkResponse 500 (Message "Server error"))).

(* ===================================================================== *)
(** ** [server/routes/events.js] and [server/server.js] *)
(* ===================================================================== *)

(** [EventSchema.pre('save')], which fills [stats] from the lengths of
    [participants], [teams] and [submissions].  The arguments say which
    of the three arrays the document holds: a path that the query did
    not select reads [undefined], and taking its [length] throws.  The
    stats themselves are not modelled. *)
Definition Event_pre_save (participants teams submissions : bool) : M unit :=
  if participants && teams && submissions then ret tt else throw TypeError.

(** [router.get('/:id/leaderboard')].  The handler sorts the loaded
    leaderboard in place, renumbers it and saves the event before it
    answers.  The query selects [leaderboard] and [title] only, so the
    hook of the schema, which [save] runs before it writes, finds none
    of the arrays it reads. *)
Definition get_leaderboard (id : ObjectId) : M Response :=
  try_catch
    (let* event := Event_findById id in
     match event with
     | None => ret (mkResponse 404 (Message "Event not found"))
     | Some event =>
         let leaderboard :=
           Array_sort by_totalScore_desc (ev_leaderboard event) in
         let leaderboard := assign_ranks leaderboard in
         let event := set_leaderboard leaderboard event in
         Event_pre_save false false false ;;
         Event_save event ;;
         ret (mkResponse 200 (Leaderboard (ev_leaderboard event)))
     end)
    (fun _ => ret (mkResponse 500 (Message "Server error"))).

(** [submission.judging.totalScore || 0] *)
Definition or_zero (q : Q) : Q := if Qeq_bool q 0 then 0 else q.

(** The [for (const submission of event.submissions)] loop of
    [POST /:id/update-leaderboard]. *)
Fixpoint collect_all (submissions : list Submission)
    (leaderboard : list LeaderboardEntry) : M (list LeaderboardEntry) :=
  match submissions with
  | [] => ret leaderboard
  | submission :: rest =>
      let* submission :=
        if JudgingStatus_eqb (sub_judging_status submission) pending then
          let* r := autoJudge submission in
          ret (after_autoJudge submission r)
        else ret submission in
      let* team := populated_team_id submission in
      let* now := Date_now in
      collect_all rest
        (leaderboard ++
         [mkEntry team (sub_id submission)
            (or_zero (sub_totalScore submission))
            (sub_scores submission) 0 now])
  end.

(** [router.post('/:id/update-leaderboard')], with [req.user._id = user]. *)
Definition post_update_leaderboard (id user : ObjectId) : M Response :=
  try_catch
    (let* event := Event_findById id in
     match event with
     | None => ret (mkResponse 404 (Message "Event not found"))
     | Some event =>
         if bool_decide (ev_organizer event <> user) then
           ret (mkResponse 403 (Message "Not authorized"))
         else
           let* submissions := populate_submissions event in
           let* leaderboard := collect_all submissions [] in
           let leaderboard := Array_sort by_totalScore_desc leaderboard in
           let leaderboard := assign_ranks leaderboard in
           let event := set_leaderboard leaderboard event in
           Event_save event ;;
           ret (mkResponse 200
                  (MessageLeaderboard "Leaderboard updated successfully"
                     (ev_leaderboard event)))
     end)
    (fun _ => ret (mkResponse 500 (Message "Server error"))).

(** [socket.on('requestLeaderboard', ...)]: the snapshot sent to a
    subscriber; nothing is emitted for an unknown event. *)
Definition requestLeaderboard (eventId : ObjectId) : M (option Emit) :=
  try_catch
    (let* event := Event_findById eventId in
     match event with
     | Some event => ret (Some (leaderboardUpdate eventId (ev_leaderboard event)))
     | None => ret None
     end)
    (fun _ => ret (Some (error "Failed to get leaderboard"))).

(* ===================================================================== *)
(** ** The phases of an event, [server/routes/events.js] *)
(* ===================================================================== *)

Definition set_event_status (status : EventStatus) (e : Event) : Event :=
  mkEvent (ev_id e) (ev_organizer e) status (ev_isAutomated e)
    (ev_judges e) (ev_submissions e) (ev_leaderboard e).

(** The answer of the phase routes: [{ message, event }] on success. *)
Record EventResponse := mkEventResponse {
  er_status : nat;
  er_message : string;
  er_event : option Event
}.

(** The common shape of [POST /:id/start], [/:id/end] and
    [/:id/complete], which differ in the status they assign and in the
    message they answer only.  None of them looks at the status the event
    has. *)
Definition phase_route (status : EventStatus) (message : string)
    (id user : ObjectId) : M EventResponse :=
  try_catch
    (let* event := Event_findById id in
     match event with
     | None => ret (mkEventResponse 404 "Event not found" None)
     | Some event =>
         if bool_decide (ev_organizer event <> user) then
           ret (mkEventResponse 403 "Not authorized" None)
         else
           let event := set_event_status status event in
           Event_save event ;;
           ret (mkEventResponse 200 message (Some event))
     end)
    (fun _ => ret (mkEventResponse 500 "Server error" None)).

(** [router.post('/:id/start')] *)
Definition post_start : ObjectId -> ObjectId -> M EventResponse :=
  phase_route active "Event started successfully".

(** [router.post('/:id/end')] *)
Definition post_end : ObjectId -> ObjectId -> M EventResponse :=
  phase_route ev_judging "Event moved to judging phase".

(** [router.post('/:id/complete')] *)
Definition post_complete : ObjectId -> ObjectId -> M EventResponse :=
  phase_route completed "Event completed successfully".

(** [req.body] of [PUT /:id], for a request that carries no other path
    than [status] and [leaderboard]. *)
Record EventBody := mkEventBody {
  eb_status : option EventStatus;
  eb_leaderboard : option (list LeaderboardEntry)
}.

(** [Object.assign(event, req.body)] *)
Definition assign_body (body : EventBody) (event : Event) : Event :=
  let event :=
    match eb_status body with
    | Some status => set_event_status status event
    | None => event
    end in
  match eb_leaderboard body with
  | Some leaderboard => set_leaderboard leaderboard event
  | None => event
  end.

(** [router.put('/:id')] of the events router, with
    [req.user._id = user].  The document is loaded whole, so the hook of
    the schema goes through. *)
Definition put_event (id user : ObjectId) (body : EventBody) : M EventResponse :=
  try_catch
    (let* event := Event_findById id in
     match event with
     | None => ret (mkEventResponse 404 "Event not found" None)
     | Some event =>
         if bool_decide (ev_organizer event <> user) then
           ret (mkEventResponse 403 "Not authorized to update this event" None)
         else
           let event := assign_body body event in
           Event_pre_save true true true ;;
           Event_save event ;;
           ret (mkEventResponse 200 "Event updated successfully" (Some event))
     end)
    (fun _ => ret (mkEventResponse 500 "Server error" None)).

(* ===================================================================== *)
(** ** Feedback and analytics, the submissions router *)
(* ===================================================================== *)

(** The answer of the feedback route: [{ message, feedback }]. *)
Record FeedbackResponse := mkFeedbackResponse {
  fr_status : nat;
  fr_message : string;
  fr_feedback : option Feedback
}.

(** The [enum] of the path [feedback.type] in the schema. *)
Definition feedback_type_valid (type : string) : bool :=
  bool_decide (type ∈ ["judge"; "peer"; "mentor"]%string).

(** [router.post('/:id/feedback')], with [req.user._id = user] and
    [req.body = { message, type = 'peer' }].  Any signed-in user may
    call it.  [save] validates the pushed record against the schema and
    rejects a type outside the enum before anything is written; the
    route catches the rejection like any other error. *)
Definition post_feedback (id user : ObjectId) (message : string)
    (type : option string) : M FeedbackResponse :=
  try_catch
    (let type := default "peer" type in
     let* submission := Submission_findById id in
     match submission with
     | None => ret (mkFeedbackResponse 404 "Submission not found" None)
     | Some submission =>
         let* now := Date_now in
         let submission :=
           set_feedback
             (sub_feedback submission ++ [mkFeedback user message type now])
             submission in
         let* submission :=
           if feedback_type_valid type then Submission_save submission
           else throw TypeError in
         ret (mkFeedbackResponse 200 "Feedback added successfully"
                (last (sub_feedback submission)))
     end)
    (fun _ => ret (mkFeedbackResponse 500 "Server error" None)).

(** One value of [analytics.judging.criteriaBreakdown]. *)
Record CriterionStats := mkCriterionStats {
  cs_total : Q;
  cs_count : nat;
  cs_average : Q
}.

(** The [for (let i = 1; i <= 5; i++)] loop of the analytics route:
    [distribution[i]] is the number of votes whose score is exactly [i]. *)
Definition vote_distribution (votes : list Vote) : gmap Z nat :=
  fold_left
    (fun distribution i =>
       <[i := length (List.filter
                        (fun v => Qeq_bool (v_score v) (inject_Z i)) votes)]>
         distribution)
    [1; 2; 3; 4; 5]%Z ∅.

(** The property names that the object literal [{}] inherits from
    [Object.prototype]: under such a key [criteriaBreakdown[key]] is a
    function, or the prototype itself, and never [undefined]. *)
Definition inherited (key : string) : bool :=
  bool_decide
    (key ∈ ["constructor"; "__proto__"; "hasOwnProperty"; "isPrototypeOf";
            "propertyIsEnumerable"; "toLocaleString"; "toString"; "valueOf";
            "__defineGetter__"; "__defineSetter__"; "__lookupGetter__";
            "__lookupSetter__"]%string).

(** The body of [submission.judging.scores.forEach(score => ...)] of the
    analytics route, on the properties that [criteriaBreakdown] has of its
    own, which are the ones the answer shows.  Under an inherited name the
    test [!criteriaBreakdown[score.criterion]] finds a value, the three
    assignments land on that value, and the object gets no property. *)
Definition criteria_step (criteriaBreakdown : gmap string CriterionStats)
    (score : ScoreRecord) : gmap string CriterionStats :=
  if inherited (sc_criterion score) then criteriaBreakdown
  else
    let entry :=
      default (mkCriterionStats 0 0 0)
              (criteriaBreakdown !! sc_criterion score) in
    let total := cs_total entry + sc_score score in
    let count := (cs_count entry + 1)%nat in
    <[sc_criterion score :=
        mkCriterionStats total count (total / inject_Z (Z.of_nat count))]>
      criteriaBreakdown.

Definition criteria_breakdown (scores : list ScoreRecord)
    : gmap string CriterionStats :=
  fold_left criteria_step scores ∅.

(** An optional path that holds a value. *)
Definition defined {A} (x : option A) : bool :=
  match x with
  | Some _ => true
  | None => false
  end.

(* ===================================================================== *)
(** ** Creating and updating a submission, the submissions router *)
(* ===================================================================== *)

Inductive MemberStatus := mb_active | mb_inactive | mb_left.

(** One element of [team.members], reduced to the two paths the routes
    test. *)
Record TeamMember := mkMember {
  mb_user : ObjectId;
  mb_status : MemberStatus
}.

(** [members.some(m => m.user.toString() === req.user._id.toString()
                       && m.status === 'active')] *)
Definition is_active_member (user : ObjectId) (members : list TeamMember) : bool :=
  existsb (fun m => bool_decide (mb_user m = user)
                    && match mb_status m with mb_active => true | _ => false end)
          members.

Definition set_metadata (m : option Metadata) (s : Submission) : Submission :=
  mkSubmission (sub_id s) (sub_event s) (sub_team s) m
    (sub_scores s) (sub_totalScore s) (sub_averageScore s)
    (sub_judging_status s) (sub_publicVotes s) (sub_votes s) (sub_status s)
    (sub_feedback s).

Definition set_status (st : SubmissionStatus) (s : Submission) : Submission :=
  mkSubmission (sub_id s) (sub_event s) (sub_team s) (sub_metadata s)
    (sub_scores s) (sub_totalScore s) (sub_averageScore s)
    (sub_judging_status s) (sub_publicVotes s) (sub_votes s) st
    (sub_feedback s).

(** The first stored submission of the team for the event, in the order
    of the collection. *)
Definition stored_for (d : Db) (teamId eventId : ObjectId) : option Submission :=
  (fun found => snd (snd found))
    <$> list_find (fun kv => sub_team (snd kv) = teamId
                             /\ sub_event (snd kv) = eventId)
                  (map_to_list (db_submissions d)).

(** [Submission.findOne({ team, event })] *)
Definition Submission_findOne (teamId eventId : ObjectId) : M (option Submission) :=
  let* d := get_db in
  ret (stored_for d teamId eventId).

(** [req.body] of [POST /]; [status] defaults to ['draft'].  The paths
    [project] and [links] are stored as sent and left out here;
    [rq_rest_valid] records whether they, and the paths of [metadata]
    that [Metadata] leaves out, pass the validators of the schema
    (the required [project.name], [project.description] and
    [links.repository], the length limits, the enum of
    [metadata.complexity]).  [rq_status] ranges over the enum of the
    schema: a request with any other status, which [save] rejects, has
    no counterpart here. *)
Record SubmissionRequest := mkSubmissionRequest {
  rq_eventId : ObjectId;
  rq_teamId : ObjectId;
  rq_metadata : option Metadata;
  rq_status : option SubmissionStatus;
  rq_rest_valid : bool
}.

(** [{ type: Number, min: 1, max: 10 }]: the validators pass an absent
    value. *)
Definition rating_valid (x : option Q) : bool :=
  match x with
  | Some q => Qle_bool 1 q && Qle_bool q 10
  | None => true
  end.

(** What [save] checks on the paths that [POST /] assigns from the
    request. *)
Definition schema_accepts (body : SubmissionRequest) : bool :=
  rq_rest_valid body
  && match rq_metadata body with
     | Some m =>
         rating_valid (md_innovation m) && rating_valid (md_completeness m)
         && rating_valid (md_documentation m)
         && rating_valid (md_presentation m)
     | None => true
     end.

(** The answer of [POST /]: [{ message, submission }] on success. *)
Record SubmissionResponse := mkSubmissionResponse {
  sr_status : nat;
  sr_message : string;
  sr_submission : option Submission
}.

(** [router.post('/')] of the submissions router, with
    [req.user._id = user].  [members] is the [members] path of the team
    documents, held beside [db_teams], and [fresh] is the id that a new
    document gets.  The paths [submittedAt] and [submittedBy] are left
    out, and with them the reading of the clock that [submittedAt] takes.
    The first [save] validates the paths assigned from the request and
    rejects the document, before anything is written, when
    [schema_accepts] fails; the route catches the rejection like any
    other error.  The metadata is stored as sent; [autoJudge] reads a
    technologies list that is not stored as the empty array, which is
    what a new document holds.  What an update that names no
    technologies leaves under that path is not modelled.  The answer is
    computed from
    [submission.isNew] after the save, when the flag is down for a new
    document as well. *)
Definition post_submission (members : gmap ObjectId (list TeamMember))
    (fresh user : ObjectId) (body : SubmissionRequest) : M SubmissionResponse :=
  try_catch
    (let eventId := rq_eventId body in
     let teamId := rq_teamId body in
     let metadata := rq_metadata body in
     let status := default draft (rq_status body) in
     let* d := get_db in
     match db_teams d !! teamId with
     | None => ret (mkSubmissionResponse 404 "Team not found" None)
     | Some team =>
         let isMember :=
           is_active_member user (default [] (members !! teamId)) in
         if negb isMember then
           ret (mkSubmissionResponse 403
                  "Only team members can create submissions" None)
         else
           let* existing := Submission_findOne teamId eventId in
           let submission :=
             match existing with
             | Some submission =>
                 set_status status (set_metadata metadata submission)
             | None =>
                 mkSubmission fresh eventId teamId metadata
                   [] 0 0 pending 0 [] status []
             end in
           let* submission :=
             if schema_accepts body then Submission_save submission
             else throw TypeError in
           Team_save (set_team_submission (Some (sub_id submission)) team) ;;
           let* event := Event_findById eventId in
           match event with
           | None => throw TypeError
           | Some event =>
               (if bool_decide (sub_id submission ∈ ev_submissions event)
                then ret tt
                else Event_save
                       (set_submissions
                          (ev_submissions event ++ [sub_id submission])
                          event)) ;;
               let* submission :=
                 if ev_isAutomated event
                    && SubmissionStatus_eqb status submitted
                    && defined metadata
                 then
                   let* r := autoJudge submission in
                   updateEventLeaderboard eventId ;;
                   ret (after_autoJudge submission r)
                 else ret submission in
               ret (mkSubmissionResponse 200
                      "Submission updated successfully" (Some submission))
           end
     end)
    (fun _ => ret (mkSubmissionResponse 500 "Server error" None)).

(** No two stored submissions belong to the same team and event. *)
Definition one_per_team_event (d : Db) : Prop :=
  forall k1 k2 s1 s2,
    db_submissions d !! k1 = Some s1 ->
    db_submissions d !! k2 = Some s2 ->
    sub_team s1 = sub_team s2 -> sub_event s1 = sub_event s2 -> k1 = k2.

(** The test that makes [POST /] call [autoJudge]. *)
Definition auto_judged (event : Event) (body : SubmissionRequest) : bool :=
  ev_isAutomated event
  && SubmissionStatus_eqb (default draft (rq_status body)) submitted
  && defined (rq_metadata body).

(** The document [POST /] saves first: the stored submission of the team
    for the event with the metadata and the status of the request, or a
    new one under the id [fresh], as the hook leaves it. *)
Definition drafted (fresh : ObjectId) (body : SubmissionRequest) (d : Db) : Submission :=
  Submission_pre_save
    match stored_for d (rq_teamId body) (rq_eventId body) with
    | Some submission =>
        set_status (default draft (rq_status body))
          (set_metadata (rq_metadata body) submission)
    | None =>
        mkSubmission fresh (rq_eventId body) (rq_teamId body)
          (rq_metadata body) [] 0 0 pending 0 [] (default draft (rq_status body)) []
    end.

(** The store after the first two writes of [POST /]: the submission, and
    the team pointing at it. *)
Definition drafted_world (fresh : ObjectId) (body : SubmissionRequest) (team : Team)
    (w : World) : World :=
  let s := drafted fresh body (w_db w) in
  mkWorld (mkDb (db_events (w_db w))
                (<[sub_id s := s]> (db_submissions (w_db w)))
                (<[tm_id team := set_team_submission (Some (sub_id s)) team]>
                   (db_teams (w_db w))))
          (w_clock w) (w_reads w).

(** Team 20 of the scenarios: user 30 is an active member, user 31 has
    left. *)
Definition scenario_members : gmap ObjectId (list TeamMember) :=
  {[ 20%positive := [mkMember 30 mb_active; mkMember 31 mb_left] ]}.

(** The store after [event.submissions.push] and [event.save()], which
    run when the event does not list the submission yet. *)
Definition listed_world (id : ObjectId) (event : Event) (w : World) : World :=
  if bool_decide (id ∈ ev_submissions event) then w
  else mkWorld (mkDb (<[ev_id event :=
                          set_submissions (ev_submissions event ++ [id]) event]>
                        (db_events (w_db w)))
                     (db_submissions (w_db w)) (db_teams (w_db w)))
               (w_clock w) (w_reads w).

(* ===================================================================== *)
(** ** Team tasks: the Team model and the teams router *)
(* ===================================================================== *)

(** One element of [project.progress.tasks].  The paths [status] and
    [priority] hold the strings of their enums. *)
Record Task := mkTask {
  tk_id : ObjectId;
  tk_title : option string;
  tk_description : option string;
  tk_assignedTo : ObjectId;
  tk_status : string;
  tk_priority : string;
  tk_createdAt : Date;
  tk_completedAt : option Date
}.

(** [stats] of the Team schema. *)
Record TeamStats := mkTeamStats {
  st_totalTasks : nat;
  st_completedTasks : nat;
  st_progressPercentage : Z
}.

(** A team document as the task routes see it: the members, the tasks
    and the stats.  [project] and [project.progress] are nested paths of
    the schema and [tasks] is an array path, so a loaded document always
    has the three of them. *)
Record TeamDoc := mkTeamDoc {
  td_members : list TeamMember;
  td_tasks : list Task;
  td_stats : TeamStats
}.

Definition set_tasks (tasks : list Task) (t : TeamDoc) : TeamDoc :=
  mkTeamDoc (td_members t) tasks (td_stats t).

(** [Math.round]: the nearest integer, a tie going up. *)
Definition Math_round (x : Q) : Z := Qfloor (x + (1 # 2)).

Definition is_completed (task : Task) : bool :=
  String.eqb (tk_status task) "completed".

(** [TeamSchema.pre('save')].  The guard of the hook tests three paths
    that every loaded document has, so the body always runs. *)
Definition Team_pre_save (this : TeamDoc) : TeamDoc :=
  let totalTasks := length (td_tasks this) in
  let completedTasks := length (List.filter is_completed (td_tasks this)) in
  let progressPercentage :=
    if (0 <? totalTasks)%nat then
      Math_round (inject_Z (Z.of_nat completedTasks)
                  / inject_Z (Z.of_nat totalTasks) * 100)
    else 0%Z in
  mkTeamDoc (td_members this) (td_tasks this)
            (mkTeamStats totalTasks completedTasks progressPercentage).

(** The enums of [tasks.status] and [tasks.priority]. *)
Definition task_status_valid (status : string) : bool :=
  bool_decide (status ∈ ["todo"; "in-progress"; "completed"]%string).

Definition task_priority_valid (priority : string) : bool :=
  bool_decide (priority ∈ ["low"; "medium"; "high"]%string).

(** [req.body] of the two task routes.  [deadline], which the schema of
    a task does not have, is dropped by the model layer and left out. *)
Record TaskRequest := mkTaskRequest {
  tq_status : option string;
  tq_title : option string;
  tq_description : option string;
  tq_priority : option string;
  tq_assignedTo : option ObjectId
}.

(** The answer of the task routes: [{ message, task }] on success. *)
Record TaskResponse := mkTaskResponse {
  tr_status : nat;
  tr_message : string;
  tr_task : option Task
}.

(** [router.post('/:id/tasks')] of the teams router, with
    [req.user._id = user], on the team documents [teams].  [now] is the
    reading of [new Date()] and [fresh] the id the pushed task gets.
    The branch for a team without [project] is never taken, see
    [TeamDoc].  [save] validates the pushed task and rejects a priority outside the
    enum before anything is written; the route answers 500 then. *)
Definition post_task (now : Date) (fresh : ObjectId) (id user : ObjectId)
    (body : TaskRequest) (teams : gmap ObjectId TeamDoc)
    : gmap ObjectId TeamDoc * TaskResponse :=
  match teams !! id with
  | None => (teams, mkTaskResponse 404 "Team not found" None)
  | Some team =>
      let isMember := is_active_member user (td_members team) in
      if negb isMember then
        (teams, mkTaskResponse 403 "Only team members can add tasks" None)
      else
        let task :=
          mkTask fresh (tq_title body) (tq_description body)
                 (default user (tq_assignedTo body))
                 "todo"
                 (if truthy_string (tq_priority body)
                  then default ""%string (tq_priority body) else "medium")
                 now None in
        let team := set_tasks (td_tasks team ++ [task]) team in
        if task_priority_valid (tk_priority task) then
          let team := Team_pre_save team in
          (<[id := team]> teams,
           mkTaskResponse 200 "Task added successfully" (last (td_tasks team)))
        else (teams, mkTaskResponse 500 "Server error" None)
  end.

Definition set_task_status (status : string) (t : Task) : Task :=
  mkTask (tk_id t) (tk_title t) (tk_description t) (tk_assignedTo t)
         status (tk_priority t) (tk_createdAt t) (tk_completedAt t).

Definition set_task_title (title : option string) (t : Task) : Task :=
  mkTask (tk_id t) title (tk_description t) (tk_assignedTo t)
         (tk_status t) (tk_priority t) (tk_createdAt t) (tk_completedAt t).

Definition set_task_description (description : option string) (t : Task) : Task :=
  mkTask (tk_id t) (tk_title t) description (tk_assignedTo t)
         (tk_status t) (tk_priority t) (tk_createdAt t) (tk_completedAt t).

Definition set_task_priority (priority : string) (t : Task) : Task :=
  mkTask (tk_id t) (tk_title t) (tk_description t) (tk_assignedTo t)
         (tk_status t) priority (tk_createdAt t) (tk_completedAt t).

Definition set_task_assignedTo (assignedTo : ObjectId) (t : Task) : Task :=
  mkTask (tk_id t) (tk_title t) (tk_description t) assignedTo
         (tk_status t) (tk_priority t) (tk_createdAt t) (tk_completedAt t).

Definition set_task_completedAt (completedAt : option Date) (t : Task) : Task :=
  mkTask (tk_id t) (tk_title t) (tk_description t) (tk_assignedTo t)
         (tk_status t) (tk_priority t) (tk_createdAt t) completedAt.

(** The assignments of [PUT /:id/tasks/:taskId] to the task it found, in
    the order of the source: the five guarded assignments, then the test
    for [completedAt], which reads [task.status] after the first of
    them. *)
Definition update_task (now : Date) (body : TaskRequest) (task : Task) : Task :=
  let task :=
    if truthy_string (tq_status body)
    then set_task_status (default ""%string (tq_status body)) task else task in
  let task :=
    if truthy_string (tq_title body)
    then set_task_title (tq_title body) task else task in
  let task :=
    if truthy_string (tq_description body)
    then set_task_description (tq_description body) task else task in
  let task :=
    if truthy_string (tq_priority body)
    then set_task_priority (default ""%string (tq_priority body)) task
    else task in
  let task :=
    match tq_assignedTo body with
    | Some assignedTo => set_task_assignedTo assignedTo task
    | None => task
    end in
  if bool_decide (tq_status body = Some "completed"%string)
     && negb (String.eqb (tk_status task) "completed")
  then set_task_completedAt (Some now) task
  else task.

(** What [save] checks on the paths the request assigned. *)
Definition task_update_valid (body : TaskRequest) : bool :=
  (if truthy_string (tq_status body)
   then task_status_valid (default ""%string (tq_status body)) else true)
  && (if truthy_string (tq_priority body)
      then task_priority_valid (default ""%string (tq_priority body))
      else true).

(** [router.put('/:id/tasks/:taskId')] of the teams router.
    [tasks.id(taskId)] is the first task with that id, and the
    assignments change it in place. *)
Definition put_task (now : Date) (id taskId user : ObjectId)
    (body : TaskRequest) (teams : gmap ObjectId TeamDoc)
    : gmap ObjectId TeamDoc * TaskResponse :=
  match teams !! id with
  | None => (teams, mkTaskResponse 404 "Team not found" None)
  | Some team =>
      let isMember := is_active_member user (td_members team) in
      if negb isMember then
        (teams, mkTaskResponse 403 "Only team members can update tasks" None)
      else
        match list_find (fun t => tk_id t = taskId) (td_tasks team) with
        | None => (teams, mkTaskResponse 404 "Task not found" None)
        | Some (i, task) =>
            let task := update_task now body task in
            let team := set_tasks (<[i := task]> (td_tasks team)) team in
            if task_update_valid body then
              (<[id := Team_pre_save team]> teams,
               mkTaskResponse 200 "Task updated successfully" (Some task))
            else (teams, mkTaskResponse 500 "Server error" None)
        end
  end.

(** The number of completed tasks among [tasks]. *)
Definition completed_count (tasks : list Task) : nat :=
  length (List.filter is_completed tasks).

(** The paths of a task that no assignment of the update route reaches. *)
Definition task_stamps (t : Task) : ObjectId * Date * option Date :=
  (tk_id t, tk_createdAt t, tk_completedAt t).

(** Team 20 with one open task, held by its active member 30. *)
Definition scenario_teams : gmap ObjectId TeamDoc :=
  {[ 20%positive :=
       mkTeamDoc [mkMember 30 mb_active; mkMember 31 mb_left]
                 [mkTask 1 (Some "Design"%string) None 30 "todo" "medium" 0 None]
                 (mkTeamStats 1 0 0) ]}.

(* ===================================================================== *)
(** ** Vocabulary of the statements and the scenarios *)
(* ===================================================================== *)

Section SortVocabulary.
Context {A : Type}.
Variable key : A -> Q.

(** The comparator of every sort in the routers: descending by [key]. *)
Definition desc (a b : A) : Q := key b - key a.

(** [a] may stand before [b] in a list sorted by descending [key]. *)
Definition ge_key (a b : A) : Prop := key b <= key a.

(** The elements whose key ties with [k]. *)
Definition tied (k : Q) (a : A) : bool := Qeq_bool (key a) k.

End SortVocabulary.

(** The documents that [.populate('submissions')] loads for an event. *)
Definition populated (d : Db) (event : Event) : list Submission :=
  omap (fun id => db_submissions d !! id) (ev_submissions event).

(** The guard of the loop of [updateEventLeaderboard]. *)
Definition eligible (s : Submission) : bool :=
  SubmissionStatus_eqb (sub_status s) submitted && Qltb 0 (sub_totalScore s).

Definition combinedScore (s : Submission) : Q :=
  sub_totalScore s + sub_publicVotes s * 10.

(** The entry that the loop of [updateEventLeaderboard] pushes for [s]
    (the time of the push apart). *)
Definition entry_of (d : Db) (s : Submission) (e : LeaderboardEntry) : Prop :=
  le_submission e = sub_id s /\
  le_totalScore e = combinedScore s /\
  le_scores e = sub_scores s /\
  le_rank e = 0%nat /\
  exists t, db_teams d !! sub_team s = Some t /\ le_team e = tm_id t.

(** Every submission that the loop of [updateEventLeaderboard] will list
    still has its team. *)
Definition teams_present (d : Db) (subs : list Submission) : Prop :=
  Forall (fun s => eligible s = true -> is_Some (db_teams d !! sub_team s)) subs.

(** The leaderboard stored for an event ([[]] for an unknown event). *)
Definition stored_leaderboard (d : Db) (eventId : ObjectId) : list LeaderboardEntry :=
  match db_events d !! eventId with
  | Some event => ev_leaderboard event
  | None => []
  end.

(** A leaderboard seen as the sequence of (submission, score) pairs. *)
Definition standings (lb : list LeaderboardEntry) : list (ObjectId * Q) :=
  (fun e => (le_submission e, le_totalScore e)) <$> lb.

(** The (submission, combined score) pairs of the submissions that a
    recomputation lists, in the order of [event.submissions]. *)
Definition candidates (d : Db) (event : Event) : list (ObjectId * Q) :=
  (fun s => (sub_id s, combinedScore s))
    <$> List.filter eligible (populated d event).

(** The pairs whose score ties with [k]. *)
Definition scoring (k : Q) (p : ObjectId * Q) : bool := Qeq_bool (snd p) k.

(** The sum of [score.score] over [judging.scores]. *)
Definition sum_of_scores (s : Submission) : Q :=
  fold_left (fun sum score => sum + sc_score score) (sub_scores s) 0.

(** A fresh, submitted entry of team 20 in event 1, and the world around
    it: user 100 organises the event, user 5 is one of its judges. *)
Definition fresh_submission : Submission :=
  mkSubmission 10 1 20 None [] 0 0 pending 0 [] submitted [].

Definition judging_event : Event :=
  mkEvent 1 100 ev_judging true [5%positive] [10%positive] [].

Definition ticking (k : nat) : Date := Z.of_nat k.

Definition judging_world : World :=
  mkWorld (mkDb {[ 1%positive := judging_event ]}
                {[ 10%positive := fresh_submission ]}
                {[ 20%positive := mkTeam 20 30 (Some 10%positive) ]})
          ticking 0.

(** One line of the score table: a record for a present metric, nothing
    for an absent one. *)
Definition metric (criterion : string) (present : bool) (score : Q)
    : list (string * Q) :=
  if present then [(criterion, score)] else [].

(** The score table of C4 as amended: one line per metric that is
    present as the code tests it.  A rating is present when it holds a
    non-zero number; Technical Complexity is present when [linesOfCode]
    holds a non-zero number, with a technologies list that is not stored
    counting as empty. *)
Definition expected_scores (m : Metadata) : list (string * Q) :=
  metric "Innovation" (truthy (md_innovation m))
         (num (md_innovation m) * 10)
  ++ metric "Technical Complexity" (truthy (md_linesOfCode m))
         (Qmin (array_length (default [] (md_technologies m)) * 10) 50
          + Qmin (num (md_linesOfCode m) / 100) 50)
  ++ metric "Completeness" (truthy (md_completeness m))
         (num (md_completeness m) * 10)
  ++ metric "Documentation" (truthy (md_documentation m))
         (num (md_documentation m) * 10)
  ++ metric "Presentation" (truthy (md_presentation m))
         (num (md_presentation m) * 10).









(** The metadata of the scenario of the specification. *)
Definition scenario_metadata : Metadata :=
  mkMetadata (Some 300) (Some ["a"; "b"; "c"]%string)
             (Some 8) (Some 9) (Some 5) (Some 7).

(** A score record without its time stamp. *)
Definition without_timestamp (r : ScoreRecord) : ScoreRecord :=
  mkScore (sc_criterion r) (sc_score r) (sc_maxScore r) (sc_judge r)
          (sc_feedback r) 0.

(** The shape of every record [autoJudge] builds. *)
Definition auto_record (p : string * Q) (t : Date) : ScoreRecord :=
  mkScore (fst p) (snd p) 100 None None t.

(** A submission carrying the metadata of the scenario. *)
Definition scenario_submission : Submission :=
  mkSubmission 10 1 20 (Some scenario_metadata) [] 0 0 pending 0 []
               submitted [].

Definition scenario_world : World :=
  mkWorld (mkDb {[ 1%positive := judging_event ]}
                {[ 10%positive := scenario_submission ]}
                {[ 20%positive := mkTeam 20 30 (Some 10%positive) ]})
          ticking 0.

(** Two runs in a row store the same score list, field for field. *)
Definition rerun_identical (this : Submission) (w : World) : Prop :=
  forall w1 this1 w2 this2,
    autoJudge this w = (w1, inr (AJ_saved this1)) ->
    autoJudge this1 w1 = (w2, inr (AJ_saved this2)) ->
    sub_scores this2 = sub_scores this1.

(** A call that throws. *)
Definition fails {A} (m : M A) (w : World) : Prop :=
  exists w' e, m w = (w', inl e).

(** The vote list the route saves. *)
Definition votes_after (user : ObjectId) (score : Q) (now : Date)
    (votes : list Vote) : list Vote :=
  match list_find (fun vote => v_user vote = user) votes with
  | Some (i, existingVote) =>
      <[i := set_vote_timestamp now (set_vote_score score existingVote)]> votes
  | None => votes ++ [mkVote user score now]
  end.

(** Submission 10 with the vote of user 7, in the judging phase. *)
Definition voted_submission : Submission :=
  mkSubmission 10 1 20 None [] 0 0 pending 3 [mkVote 7 3 0] submitted [].

Definition voted_world : World :=
  mkWorld (mkDb {[ 1%positive := judging_event ]}
                {[ 10%positive := voted_submission ]}
                {[ 20%positive := mkTeam 20 30 (Some 10%positive) ]})
          ticking 0.

Definition by_judge (user : ObjectId) (r : ScoreRecord) : bool :=
  bool_decide (sc_judge r = Some user).

Definition by_other_judge (user : ObjectId) (r : ScoreRecord) : bool :=
  negb (by_judge user r).

(** The record the judge route pushes for one element of [req.body.scores]. *)
Definition judge_record (user : ObjectId) (scoreData : ScoreData) (t : Date)
    : ScoreRecord :=
  mkScore (sd_criterion scoreData) (sd_score scoreData)
          (if truthy (sd_maxScore scoreData)
           then num (sd_maxScore scoreData) else 100)
          (Some user) (sd_feedback scoreData) t.

(** Submission 10 with a record of judge 5 and a record of judge 6. *)
Definition judged_submission : Submission :=
  mkSubmission 10 1 20 None
    [mkScore "Design" 80 100 (Some 5%positive) None 0;
     mkScore "Code" 70 100 (Some 6%positive) None 0]
    150 75 judged 0 [] submitted [].

Definition judged_world : World :=
  mkWorld (mkDb {[ 1%positive := judging_event ]}
                {[ 10%positive := judged_submission ]}
                {[ 20%positive := mkTeam 20 30 (Some 10%positive) ]})
          ticking 0.

(** The leaderboard has one entry for each populated submission that
    passes the test [listed], and no other entry. *)
Definition lists_exactly (listed : Submission -> bool) (d : Db)
    (event : Event) (lb : list LeaderboardEntry) : Prop :=
  Permutation (le_submission <$> lb)
              (sub_id <$> List.filter listed (populated d event)).

(** Status [submitted] and a positive combined score. *)
Definition positive_combined (s : Submission) : bool :=
  SubmissionStatus_eqb (sub_status s) submitted && Qltb 0 (combinedScore s).

(** Every submission is stored under its own id. *)
Definition ids_match (d : Db) : Prop :=
  forall id s, db_submissions d !! id = Some s -> sub_id s = id.

(** Event 1 with four submissions, named in the order 13, 11, 14, 12:
    11 has 140 from two judges and the votes 4 and 5 (combined 185),
    12 has 185 from the judges and no vote, 13 has 90, and 14 is a draft
    with 500. *)
Definition submission_11 : Submission :=
  mkSubmission 11 1 21 None
    [mkScore "Design" 80 100 (Some 5%positive) None 0;
     mkScore "Code" 60 100 (Some 6%positive) None 0]
    140 70 judged (9 # 2) [mkVote 7 4 0; mkVote 8 5 0] submitted [].

Definition submission_12 : Submission :=
  mkSubmission 12 1 22 None
    [mkScore "Design" 95 100 (Some 5%positive) None 0;
     mkScore "Code" 90 100 (Some 6%positive) None 0]
    185 (185 # 2) judged 0 [] submitted [].

Definition submission_13 : Submission :=
  mkSubmission 13 1 23 None
    [mkScore "Design" 90 100 (Some 5%positive) None 0]
    90 90 judged 0 [] submitted [].

Definition submission_14 : Submission :=
  mkSubmission 14 1 24 None
    [mkScore "Design" 500 100 (Some 5%positive) None 0]
    500 500 judged 0 [] draft [].

Definition ranking_event : Event :=
  mkEvent 1 100 ev_judging true [5%positive; 6%positive]
          [13%positive; 11%positive; 14%positive; 12%positive] [].

Definition ranking_db : Db :=
  mkDb {[ 1%positive := ranking_event ]}
       (<[ 11%positive := submission_11 ]>
          (<[ 12%positive := submission_12 ]>
             (<[ 13%positive := submission_13 ]>
                {[ 14%positive := submission_14 ]})))
       (<[ 21%positive := mkTeam 21 31 (Some 11%positive) ]>
          (<[ 22%positive := mkTeam 22 32 (Some 12%positive) ]>
             (<[ 23%positive := mkTeam 23 33 (Some 13%positive) ]>
                {[ 24%positive := mkTeam 24 34 (Some 14%positive) ]}))).

Definition ranking_world : World := mkWorld ranking_db ticking 0.

(** The combined score of the submission an entry names, 0 when the
    submission is not stored. *)
Definition combined_of (d : Db) (e : LeaderboardEntry) : Q :=
  default 0 (combinedScore <$> db_submissions d !! le_submission e).

(** A leaderboard in descending order of the combined score
    [judging.totalScore + publicVotes * 10] of its submissions. *)
Definition sorted_by_combinedScore (d : Db) (lb : list LeaderboardEntry) : Prop :=
  StronglySorted (fun a b => combined_of d b <= combined_of d a) lb.

(** Event 1 of organizer 100 with two submitted entries: 11 has 100 from
    judge 5 and one public vote of 5, so a combined score of 150; 12 has
    120 from judge 5 and no vote. *)
Definition votes_ignored_world : World :=
  mkWorld
    (mkDb {[ 1%positive :=
               mkEvent 1 100 ev_judging false [5%positive]
                       [11%positive; 12%positive] [] ]}
          (<[ 11%positive :=
                mkSubmission 11 1 21 None
                  [mkScore "Design" 100 100 (Some 5%positive) None 0]
                  100 100 judged 5 [mkVote 7 5 0] submitted [] ]>
             {[ 12%positive :=
                  mkSubmission 12 1 22 None
                    [mkScore "Design" 120 100 (Some 5%positive) None 0]
                    120 120 judged 0 [] submitted [] ]})
          (<[ 21%positive := mkTeam 21 31 (Some 11%positive) ]>
             {[ 22%positive := mkTeam 22 32 (Some 12%positive) ]}))
    ticking 0.

(** A stored leaderboard that no recomputation put there. *)
Definition foreign_leaderboard : list LeaderboardEntry :=
  [mkEntry 21 11 10 [] 1 0; mkEntry 22 12 20 [] 2 0].

(** Two entries that agree in every field, the score as a number. *)
Definition entry_equiv (a b : LeaderboardEntry) : Prop :=
  le_team a = le_team b /\
  le_submission a = le_submission b /\
  le_totalScore a == le_totalScore b /\
  le_scores a = le_scores b /\
  le_rank a = le_rank b /\
  le_updatedAt a = le_updatedAt b.

(** Started from the same world, the rebuild of the organizer and the
    rebuild after a mutation leave the same leaderboard in the store. *)
Definition rebuilds_agree (user eventId : ObjectId) (w : World) : Prop :=
  Forall2 entry_equiv
    (stored_leaderboard
       (w_db (fst (post_update_leaderboard eventId user w))) eventId)
    (stored_leaderboard
       (w_db (fst (updateEventLeaderboard eventId w))) eventId).

(** A submission on which the two loops do the same: submitted, already
    judged with a positive total, and without public votes. *)
Definition plainly_judged (s : Submission) : Prop :=
  sub_status s = submitted /\
  sub_judging_status s <> pending /\
  0 < sub_totalScore s /\
  sub_publicVotes s == 0.

(** Event 1 with the two submissions 13 and 12 of the ranking scenario,
    both judged and without votes. *)
Definition plain_event : Event :=
  mkEvent 1 100 ev_judging true [5%positive; 6%positive]
          [13%positive; 12%positive] [].

Definition plain_db : Db :=
  mkDb {[ 1%positive := plain_event ]}
       (<[ 12%positive := submission_12 ]> {[ 13%positive := submission_13 ]})
       (<[ 22%positive := mkTeam 22 32 (Some 12%positive) ]> {[ 23%positive := mkTeam 23 33 (Some 13%positive) ]}).

Definition plain_world : World := mkWorld plain_db ticking 0.

(** The sum of the five counts of the vote distribution. *)
Definition distribution_total (votes : list Vote) : nat :=
  foldr (fun i n => (default 0%nat (vote_distribution votes !! i) + n)%nat)
        0%nat [1; 2; 3; 4; 5]%Z.

(** The records of one criterion. *)
Definition with_criterion (c : string) (scores : list ScoreRecord)
    : list ScoreRecord :=
  List.filter (fun r => bool_decide (sc_criterion r = c)) scores.

(** What the analytics loop does to the entry of one criterion. *)
Definition stats_step (entry : option CriterionStats) (score : ScoreRecord)
    : option CriterionStats :=
  let e := default (mkCriterionStats 0 0 0) entry in
  Some (mkCriterionStats
          (cs_total e + sc_score score) (cs_count e + 1)
          ((cs_total e + sc_score score)
           / inject_Z (Z.of_nat (cs_count e + 1)))).

(* ===================================================================== *)
(** ** Facts about numbers, sorting and ranking *)
(* ===================================================================== *)

Lemma Qltb_lt (a b : Q) : Qltb a b = true <-> a < b.
Proof.
  unfold Qltb. rewrite Qlt_alt. destruct (a ?= b); intuition congruence.
Qed.

Lemma Qltb_ge (a b : Q) : Qltb a b = false <-> b <= a.
Proof.
  unfold Qltb. rewrite Qge_alt. destruct (a ?= b); intuition congruence.
Qed.

Section SortFacts.
Context {A : Type}.
Variable key : A -> Q.

Lemma desc_moves x y : Qltb 0 (desc key x y) = true <-> key x < key y.
Proof. unfold desc. rewrite Qltb_lt. split; intros; lra. Qed.

Lemma desc_stays x y : Qltb 0 (desc key x y) = false <-> key y <= key x.
Proof. unfold desc. rewrite Qltb_ge. split; intros; lra. Qed.

Lemma sort_insert_perm x l : Permutation (sort_insert (desc key) x l) (x :: l).
Proof.
  induction l as [|y l IH]; simpl; [reflexivity|].
  destruct (Qltb 0 (desc key x y)); [|reflexivity].
  rewrite IH. apply perm_swap.
Qed.

Lemma Array_sort_perm l : Permutation (Array_sort (desc key) l) l.
Proof.
  induction l as [|x l IH]; simpl; [reflexivity|].
  rewrite sort_insert_perm. by constructor.
Qed.

Lemma Array_sort_length l : length (Array_sort (desc key) l) = length l.
Proof. apply Permutation_length, Array_sort_perm. Qed.

Lemma sort_insert_sorted x l :
  StronglySorted (ge_key key) l ->
  StronglySorted (ge_key key) (sort_insert (desc key) x l).
Proof.
  induction 1 as [|y l Hl IH Hy]; simpl.
  - repeat constructor.
  - destruct (Qltb 0 (desc key x y)) eqn:E.
    + apply desc_moves in E. constructor; [exact IH|].
      eapply Permutation_Forall; [symmetry; apply sort_insert_perm|].
      constructor; [unfold ge_key|exact Hy]. lra.
    + apply desc_stays in E. constructor; [by constructor|].
      constructor; [exact E|].
      eapply Forall_impl; [exact Hy|]. unfold ge_key. intros z Hz. lra.
Qed.

Lemma Array_sort_sorted l : StronglySorted (ge_key key) (Array_sort (desc key) l).
Proof.
  induction l as [|x l IH]; simpl; [constructor|].
  by apply sort_insert_sorted.
Qed.

(** Stability: the elements that share a key come out in the order in
    which they went in. *)
Lemma sort_insert_tied k x l :
  List.filter (tied key k) (sort_insert (desc key) x l)
  = List.filter (tied key k) (x :: l).
Proof.
  induction l as [|y l IH]; [reflexivity|].
  cbn [sort_insert]. destruct (Qltb 0 (desc key x y)) eqn:E; [|reflexivity].
  apply desc_moves in E.
  cbn [List.filter] in *. rewrite IH.
  unfold tied. destruct (Qeq_bool (key y) k) eqn:Ey; [|reflexivity].
  destruct (Qeq_bool (key x) k) eqn:Ex; [|reflexivity].
  apply Qeq_bool_eq in Ex, Ey. lra.
Qed.

Lemma Array_sort_stable k l :
  List.filter (tied key k) (Array_sort (desc key) l) = List.filter (tied key k) l.
Proof.
  induction l as [|x l IH]; [reflexivity|].
  cbn [Array_sort foldr]. rewrite sort_insert_tied.
  cbn [List.filter]. fold (Array_sort (desc key) l). by rewrite IH.
Qed.

(** A list that is already in order is left as it is. *)
Lemma sort_insert_head x l :
  Forall (ge_key key x) l -> sort_insert (desc key) x l = x :: l.
Proof.
  destruct 1 as [|y l Hy _]; [reflexivity|]. simpl.
  apply desc_stays in Hy. by rewrite Hy.
Qed.

Lemma Array_sort_sorted_id l :
  StronglySorted (ge_key key) l -> Array_sort (desc key) l = l.
Proof.
  induction 1 as [|x l Hl IH Hx]; [reflexivity|].
  cbn [Array_sort foldr]. fold (Array_sort (desc key) l).
  rewrite IH. by apply sort_insert_head.
Qed.
End SortFacts.

Lemma by_totalScore_desc_eq : by_totalScore_desc = desc le_totalScore.
Proof. reflexivity. Qed.

(** What [assign_ranks] changes and what it keeps. *)
Lemma assign_ranks_rank l : le_rank <$> assign_ranks l = seq 1 (length l).
Proof.
  unfold assign_ranks. rewrite fmap_imap.
  rewrite (imap_ext _ (fun j _ => S j)).
  - rewrite (imap_seq_0 l S). by rewrite fmap_S_seq.
  - intros i x _. simpl. lia.
Qed.

Lemma assign_ranks_keeps {B} (f : LeaderboardEntry -> B) l :
  (forall r e, f (set_rank r e) = f e) ->
  f <$> assign_ranks l = f <$> l.
Proof.
  intros Hf. unfold assign_ranks. rewrite fmap_imap.
  rewrite (imap_ext _ (const f)); [apply imap_const|].
  intros i x _. simpl. apply Hf.
Qed.

Lemma assign_ranks_length l : length (assign_ranks l) = length l.
Proof. apply length_imap. Qed.

Lemma imap_sorted (f : nat -> LeaderboardEntry -> LeaderboardEntry) l :
  (forall i e, le_totalScore (f i e) = le_totalScore e) ->
  StronglySorted (ge_key le_totalScore) l ->
  StronglySorted (ge_key le_totalScore) (imap f l).
Proof.
  intros Hf H. revert f Hf.
  induction H as [|x l Hl IH Hx]; intros f Hf.
  - constructor.
  - rewrite imap_cons. constructor.
    + apply IH. intros i e. apply Hf.
    + apply Forall_forall. intros y Hy.
      apply elem_of_lookup_imap_1 in Hy as (i & z & -> & Hz).
      apply list_elem_of_lookup_2 in Hz.
      rewrite Forall_forall in Hx. specialize (Hx z Hz).
      unfold ge_key in *. simpl. by rewrite !Hf.
Qed.

Lemma assign_ranks_sorted l :
  StronglySorted (ge_key le_totalScore) l ->
  StronglySorted (ge_key le_totalScore) (assign_ranks l).
Proof. apply imap_sorted. reflexivity. Qed.

(** Renumbering a list whose ranks already are 1, 2, 3, ... changes
    nothing. *)
Lemma assign_ranks_id l :
  le_rank <$> l = seq 1 (length l) -> assign_ranks l = l.
Proof.
  intros H. apply list_eq. intros i. unfold assign_ranks.
  rewrite list_lookup_imap.
  destruct (l !! i) as [e|] eqn:E; [|reflexivity]. simpl. f_equal.
  assert (Hr : (le_rank <$> l) !! i = Some (le_rank e))
    by (by rewrite list_lookup_fmap, E).
  rewrite H in Hr. apply lookup_seq in Hr as [Hr _].
  destruct e. unfold set_rank. simpl in *. f_equal. lia.
Qed.

(* ===================================================================== *)
(** ** Running the handlers *)
(* ===================================================================== *)

(** Unfolds the monad and the queries in the goal. *)
Ltac run :=
  cbv beta iota zeta delta
    [bind ret throw try_catch get_db put_db Date_now
     Event_findById Submission_findById populate_submissions
     populated_team_id Event_save Submission_save Team_save
     Event_pull_submission Submission_findByIdAndDelete];
  cbn [fst snd w_db w_clock w_reads].

Lemma collect_eligible_spec subs : forall acc w w' r,
  collect_eligible subs acc w = (w', r) ->
  w_db w' = w_db w /\ w_clock w' = w_clock w /\
  forall lb, r = inr lb ->
    exists new, lb = acc ++ new /\
      Forall2 (entry_of (w_db w)) (List.filter eligible subs) new.
Proof.
  induction subs as [|s subs IH]; intros acc w w' r.
  - run. intros [= <- <-]. repeat split.
    intros lb [= <-]. exists []. by rewrite app_nil_r.
  - cbn [collect_eligible List.filter]. fold (eligible s).
    destruct (eligible s) eqn:El.
    + run.
      destruct (db_teams (w_db w) !! sub_team s) as [t|] eqn:Ht; simpl.
      * intros H. apply IH in H as (Hd & Hc & H). simpl in *.
        repeat split; [done..|].
        intros lb ->. destruct (H _ eq_refl) as (new & -> & Hnew).
        eexists (_ :: new). rewrite <- app_assoc. split; [reflexivity|].
        constructor; [|exact Hnew].
        repeat split; simpl. by exists t.
      * intros [= <- <-]. repeat split. intros lb [=].
    + run. intros H. apply IH in H. exact H.
Qed.

Lemma collect_eligible_runs subs : forall acc w,
  teams_present (w_db w) subs ->
  exists w' lb, collect_eligible subs acc w = (w', inr lb).
Proof.
  induction subs as [|s subs IH]; intros acc w Ht.
  - run. eauto.
  - apply Forall_cons in Ht as [Hs Ht].
    cbn [collect_eligible]. fold (eligible s).
    destruct (eligible s) eqn:El.
    + destruct (Hs eq_refl) as [t Hteam].
      run. rewrite Hteam. simpl. apply IH. exact Ht.
    + run. apply IH. exact Ht.
Qed.

(** [updateEventLeaderboard] never throws, never touches submissions or
    teams, and either leaves the events alone or replaces the leaderboard
    of the event it loaded. *)
Lemma updateEventLeaderboard_frame eventId w :
  exists w' lb,
    updateEventLeaderboard eventId w = (w', inr lb) /\
    db_submissions (w_db w') = db_submissions (w_db w) /\
    db_teams (w_db w') = db_teams (w_db w) /\
    w_clock w' = w_clock w /\
    (db_events (w_db w') = db_events (w_db w) \/
     exists event,
       db_events (w_db w) !! eventId = Some event /\
       db_events (w_db w')
       = <[ev_id event := set_leaderboard lb event]> (db_events (w_db w))).
Proof.
  unfold updateEventLeaderboard. run.
  destruct (db_events (w_db w) !! eventId) as [event|] eqn:He; simpl.
  - destruct (collect_eligible _ [] w) as [w1 [e|lb]] eqn:Hc;
      apply collect_eligible_spec in Hc as (Hd & Hclk & _).
    + exists w1, []. rewrite Hd. repeat split; auto.
    + eexists _, _. split; [reflexivity|]. simpl. rewrite Hd.
      repeat split; [done|]. right. exists event. auto.
  - exists w, []. repeat split; auto.
Qed.

(** When the event is there and the listed submissions have their teams,
    the recomputation goes through: it stores and returns the ranked sort
    of the entries of the eligible submissions. *)
Lemma updateEventLeaderboard_runs eventId w event :
  db_events (w_db w) !! eventId = Some event ->
  teams_present (w_db w) (populated (w_db w) event) ->
  exists w' raw,
    updateEventLeaderboard eventId w
    = (w', inr (assign_ranks (Array_sort by_totalScore_desc raw))) /\
    Forall2 (entry_of (w_db w))
            (List.filter eligible (populated (w_db w) event)) raw /\
    db_events (w_db w')
    = <[ev_id event :=
          set_leaderboard (assign_ranks (Array_sort by_totalScore_desc raw)) event]>
        (db_events (w_db w)) /\
    db_submissions (w_db w') = db_submissions (w_db w) /\
    db_teams (w_db w') = db_teams (w_db w).
Proof.
  intros He Ht. unfold updateEventLeaderboard. run. rewrite He. simpl.
  destruct (collect_eligible_runs _ [] w Ht) as (w1 & raw & Hc).
  fold (populated (w_db w) event). rewrite Hc.
  apply collect_eligible_spec in Hc as (Hd & _ & H).
  destruct (H _ eq_refl) as (new & -> & Hnew). simpl in *.
  eexists _, new. split; [reflexivity|]. simpl. rewrite Hd. repeat split; auto.
Qed.

Lemma standings_raw d subs raw :
  Forall2 (entry_of d) subs raw ->
  standings raw = (fun s => (sub_id s, combinedScore s)) <$> subs.
Proof.
  induction 1 as [|s e subs raw (Hs & Hq & _) _ IH]; [reflexivity|].
  unfold standings in *. cbn [fmap list_fmap]. by rewrite Hs, Hq, IH.
Qed.

Lemma standings_assign_ranks l : standings (assign_ranks l) = standings l.
Proof. unfold standings. by apply assign_ranks_keeps. Qed.

Lemma standings_scoring k l :
  List.filter (scoring k) (standings l)
  = standings (List.filter (tied le_totalScore k) l).
Proof.
  unfold standings. induction l as [|e l IH]; [reflexivity|].
  cbn [fmap list_fmap List.filter]. unfold scoring at 1, tied at 1. simpl.
  destruct (Qeq_bool (le_totalScore e) k); cbn [fmap list_fmap]; by rewrite IH.
Qed.

(** The leaderboard a recomputation stores under the id of the event. *)
Lemma recompute_stored eventId w event :
  db_events (w_db w) !! eventId = Some event ->
  ev_id event = eventId ->
  teams_present (w_db w) (populated (w_db w) event) ->
  exists w' raw,
    updateEventLeaderboard eventId w
    = (w', inr (assign_ranks (Array_sort by_totalScore_desc raw))) /\
    stored_leaderboard (w_db w') eventId
    = assign_ranks (Array_sort by_totalScore_desc raw) /\
    Forall2 (entry_of (w_db w))
            (List.filter eligible (populated (w_db w) event)) raw.
Proof.
  intros He Hid Ht.
  destruct (updateEventLeaderboard_runs eventId w event He Ht)
    as (w' & raw & Hrun & Hraw & Hev & _ & _).
  exists w', raw. split; [exact Hrun|]. split; [|exact Hraw].
  unfold stored_leaderboard. by rewrite Hev, Hid, lookup_insert_eq.
Qed.

Lemma recomputed_standings d subs raw :
  Forall2 (entry_of d) subs raw ->
  Permutation (standings (assign_ranks (Array_sort by_totalScore_desc raw)))
              ((fun s => (sub_id s, combinedScore s)) <$> subs).
Proof.
  intros Hraw. apply standings_raw in Hraw.
  rewrite standings_assign_ranks, <- Hraw, by_totalScore_desc_eq.
  unfold standings. apply fmap_Permutation, Array_sort_perm.
Qed.

(* ===================================================================== *)
(** ** C1: order, ranks and ties of a recomputed leaderboard *)
(* ===================================================================== *)

(** C1, as stated, fails for the rebuild that the organizer triggers,
    which orders by the judges' total alone.  Submission 11 has 100 from
    the judges and a public vote of 5, a combined score of 150;
    submission 12 has 120 and no vote.  The rebuild goes through and
    stores 12 before 11. *)
Lemma C1_organizer_rebuild_ignores_votes :
  exists w' lb,
    post_update_leaderboard 1 100 votes_ignored_world
    = (w', inr (mkResponse 200
                  (MessageLeaderboard "Leaderboard updated successfully" lb))) /\
    stored_leaderboard (w_db w') 1 = lb /\
    le_submission <$> lb = [12%positive; 11%positive] /\
    ~ sorted_by_combinedScore (w_db w') lb.
Proof.
  eexists _, _. split; [vm_compute; reflexivity|].
  split; [reflexivity|]. split; [reflexivity|].
  intros H. inversion H as [|? ? _ Hf]; subst.
  apply Forall_cons in Hf as [Hle _].
  vm_compute in Hle. by apply Hle.
Qed.

(** C1, amended.  When [updateEventLeaderboard] recomputes the leaderboard
    of an event (the event is stored under its id and every listed
    submission still has its team), the leaderboard it stores and returns
    - carries, for each listed submission, the combined score
      [judging.totalScore + publicVotes * 10],
    - is sorted in descending order of that score,
    - has the ranks 1, 2, 3, ... in list order, so no gap and no shared
      rank, and
    - keeps entries with equal scores in the order their submissions have
      in [event.submissions]; the result is a function of the stored state
      and the clock. *)
Theorem C1_recomputed_leaderboard_sorted_ranked_stable eventId w event :
  db_events (w_db w) !! eventId = Some event ->
  ev_id event = eventId ->
  teams_present (w_db w) (populated (w_db w) event) ->
  exists w' lb,
    updateEventLeaderboard eventId w = (w', inr lb) /\
    stored_leaderboard (w_db w') eventId = lb /\
    Permutation (standings lb) (candidates (w_db w) event) /\
    StronglySorted (fun a b => le_totalScore b <= le_totalScore a) lb /\
    le_rank <$> lb = seq 1 (length lb) /\
    forall k,
      List.filter (scoring k) (standings lb)
      = List.filter (scoring k) (candidates (w_db w) event).
Proof.
  intros He Hid Ht.
  destruct (recompute_stored eventId w event He Hid Ht)
    as (w' & raw & Hrun & Hst & Hraw).
  exists w', (assign_ranks (Array_sort by_totalScore_desc raw)).
  split; [exact Hrun|]. split; [exact Hst|].
  split; [by apply (recomputed_standings (w_db w))|].
  apply standings_raw in Hraw. fold (candidates (w_db w) event) in Hraw.
  rewrite by_totalScore_desc_eq in *.
  rewrite standings_assign_ranks, assign_ranks_rank, assign_ranks_length.
  split.
  { apply assign_ranks_sorted, Array_sort_sorted. }
  split; [reflexivity|].
  intros k. rewrite standings_scoring, Array_sort_stable, <- standings_scoring.
  by rewrite Hraw.
Qed.

(* ===================================================================== *)
(** ** C2: the aggregates kept by the [pre('save')] hook *)
(* ===================================================================== *)

(** With at least one record the hook stores the plain sum and the sum
    divided by the number of records. *)
Lemma Submission_pre_save_some_scores s :
  sub_scores s <> [] ->
  sub_scores (Submission_pre_save s) = sub_scores s /\
  sub_totalScore (Submission_pre_save s) = sum_of_scores s /\
  sub_averageScore (Submission_pre_save s)
  = sum_of_scores s / array_length (sub_scores s).
Proof.
  intros Hne. unfold Submission_pre_save, sum_of_scores, array_length.
  destruct (sub_scores s) as [|r l] eqn:E; [done|].
  replace (0 <? length (r :: l))%nat with true by reflexivity.
  destruct (0 <? length (sub_votes _))%nat; simpl; rewrite E; auto.
Qed.

(** With no record the hook leaves both scalars as they were. *)
Lemma Submission_pre_save_no_scores s :
  sub_scores s = [] ->
  sub_scores (Submission_pre_save s) = [] /\
  sub_totalScore (Submission_pre_save s) = sub_totalScore s /\
  sub_averageScore (Submission_pre_save s) = sub_averageScore s.
Proof.
  intros E. unfold Submission_pre_save. rewrite E. simpl.
  destruct (0 <? length (sub_votes s))%nat; simpl; auto.
Qed.

(** What the hook never changes. *)
Lemma Submission_pre_save_keeps s :
  sub_id (Submission_pre_save s) = sub_id s /\
  sub_event (Submission_pre_save s) = sub_event s /\
  sub_team (Submission_pre_save s) = sub_team s /\
  sub_metadata (Submission_pre_save s) = sub_metadata s /\
  sub_scores (Submission_pre_save s) = sub_scores s /\
  sub_judging_status (Submission_pre_save s) = sub_judging_status s /\
  sub_votes (Submission_pre_save s) = sub_votes s /\
  sub_status (Submission_pre_save s) = sub_status s /\
  sub_feedback (Submission_pre_save s) = sub_feedback s.
Proof.
  unfold Submission_pre_save.
  destruct (0 <? length (sub_scores s))%nat;
    destruct (0 <? length (sub_votes _))%nat; simpl; repeat split.
Qed.

(** C2.  Judge 5 scores the submission with one record of 80 and then
    submits an empty score set.  Both requests succeed.  After the second
    one the stored score list is empty, so its sum is 0, but the stored
    [judging.totalScore] and [judging.averageScore] are still 80: the hook
    skips both assignments when the list is empty. *)
Theorem C2_emptied_scores_keep_stale_total :
  exists w1 w2 r1 r2 s2,
    post_judge 10 5 [mkScoreData "Design" 80 None None] None judging_world
    = (w1, inr r1) /\ res_status r1 = 200%nat /\
    post_judge 10 5 [] None w1 = (w2, inr r2) /\ res_status r2 = 200%nat /\
    db_submissions (w_db w2) !! 10%positive = Some s2 /\
    sub_scores s2 = [] /\
    sum_of_scores s2 == 0 /\
    sub_totalScore s2 == 80 /\
    sub_averageScore s2 == 80.
Proof.
  eexists _, _, _, _, _.
  split; [vm_compute; reflexivity|]. split; [reflexivity|].
  split; [vm_compute; reflexivity|]. split; [reflexivity|].
  split; [vm_compute; reflexivity|].
  repeat split.
Qed.

(* ===================================================================== *)
(** ** C4, C5, C8: [autoJudge] *)
(* ===================================================================== *)

(** The loop-free body of [autoJudge] reads the clock once per record and
    builds the table of the specification. *)
Lemma autoJudge_scores_spec (m : Metadata) (w : World) :
  autoJudge_scores m w
  = (mkWorld (w_db w) (w_clock w) (length (expected_scores m) + w_reads w),
     inr (zip_with auto_record (expected_scores m)
            (w_clock w <$> seq (w_reads w) (length (expected_scores m))))).
Proof.
  destruct w as [d clock reads].
  unfold autoJudge_scores, expected_scores, push_auto, metric. run.
  destruct (truthy (md_innovation m));
    destruct (md_technologies m) as [techs|];
    destruct (truthy (md_linesOfCode m));
    destruct (truthy (md_completeness m));
    destruct (truthy (md_documentation m));
    destruct (truthy (md_presentation m)); reflexivity.
Qed.

Lemma auto_records_table (table : list (string * Q)) (ts : list Date) :
  length ts = length table ->
  (fun r => (sc_criterion r, sc_score r)) <$> zip_with auto_record table ts
  = table.
Proof.
  revert ts. induction table as [|[c q] table IH]; intros [|t ts] Hl;
    try done.
  simpl in *. f_equal. apply IH. lia.
Qed.


Lemma auto_records_without_timestamp (table : list (string * Q)) (ts : list Date) :
  length ts = length table ->
  without_timestamp <$> zip_with auto_record table ts
  = (fun p => auto_record p 0) <$> table.
Proof.
  revert ts. induction table as [|[c q] table IH]; intros [|t ts] Hl;
    try done.
  simpl in *. f_equal. apply IH. lia.
Qed.

Lemma auto_records_timestamp (table : list (string * Q)) (ts : list Date) :
  length ts = length table ->
  sc_timestamp <$> zip_with auto_record table ts = ts.
Proof.
  revert ts. induction table as [|[c q] table IH]; intros [|t ts] Hl;
    try done.
  simpl in *. f_equal. apply IH. lia.
Qed.



(** [autoJudge] overwrites the score list with the table of the
    metadata the document reads, marks the submission judged and saves
    it. *)
Lemma autoJudge_runs_any (this : Submission) (w : World) :
  let m := this_metadata this in
  let scores :=
    zip_with auto_record (expected_scores m)
      (w_clock w <$> seq (w_reads w) (length (expected_scores m))) in
  let this' :=
    Submission_pre_save (set_judging_status judged (set_scores scores this)) in
  autoJudge this w
  = (mkWorld (mkDb (db_events (w_db w))
                   (<[sub_id this := this']> (db_submissions (w_db w)))
                   (db_teams (w_db w)))
             (w_clock w) (length (expected_scores m) + w_reads w),
     inr (AJ_saved this')).
Proof.
  cbv zeta. unfold autoJudge. cbn [object_truthy negb].
  cbv beta iota zeta delta [bind]. rewrite autoJudge_scores_spec.
  run. f_equal. f_equal. f_equal.
  by destruct (Submission_pre_save_keeps
                 (set_judging_status judged (set_scores
                    (zip_with auto_record (expected_scores (this_metadata this))
                       (w_clock w <$> seq (w_reads w)
                          (length (expected_scores (this_metadata this)))))
                    this)))
    as (-> & _).
Qed.

Lemma autoJudge_runs (this : Submission) (m : Metadata) (w : World) :
  sub_metadata this = Some m ->
  let scores :=
    zip_with auto_record (expected_scores m)
      (w_clock w <$> seq (w_reads w) (length (expected_scores m))) in
  let this' :=
    Submission_pre_save (set_judging_status judged (set_scores scores this)) in
  autoJudge this w
  = (mkWorld (mkDb (db_events (w_db w))
                   (<[sub_id this := this']> (db_submissions (w_db w)))
                   (db_teams (w_db w)))
             (w_clock w) (length (expected_scores m) + w_reads w),
     inr (AJ_saved this')).
Proof.
  intros Hm. pose proof (autoJudge_runs_any this w) as H.
  unfold this_metadata in H. rewrite Hm in H. exact H.
Qed.







(** C5, as stated, fails as soon as the clock moves between the pushes:
    every record is stamped with [Date.now()]. *)
Lemma C5_rerun_not_identical :
  ~ rerun_identical scenario_submission scenario_world.
Proof.
  intros H.
  pose proof (H _ _ _ _ ltac:(vm_compute; reflexivity)
                        ltac:(vm_compute; reflexivity)) as Heq.
  vm_compute in Heq. discriminate Heq.
Qed.

(** C5, amended.  Two runs of [autoJudge] in a row on a submission with
    metadata both succeed, and their score lists agree record by record in
    criterion, score, maxScore, judge and feedback; the time stamps are the
    successive readings of the clock, one per record. *)
Theorem C5_rerun_differs_only_in_timestamps this metadata w :
  sub_metadata this = Some metadata ->
  exists w1 this1 w2 this2,
    autoJudge this w = (w1, inr (AJ_saved this1)) /\
    autoJudge this1 w1 = (w2, inr (AJ_saved this2)) /\
    without_timestamp <$> sub_scores this2
      = without_timestamp <$> sub_scores this1 /\
    sc_timestamp <$> sub_scores this1
      = w_clock w <$> seq (w_reads w) (length (sub_scores this1)) /\
    sc_timestamp <$> sub_scores this2
      = w_clock w <$> seq (length (sub_scores this1) + w_reads w)
                          (length (sub_scores this2)).
Proof.
  intros Hm.
  eexists _, _, _, _. split; [by apply autoJudge_runs|].
  split.
  { apply autoJudge_runs.
    match goal with |- context [Submission_pre_save ?s] =>
      destruct (Submission_pre_save_keeps s) as (_ & _ & _ & -> & _)
    end. exact Hm. }
  cbn [w_db w_clock w_reads].
  repeat match goal with |- context [Submission_pre_save ?s] =>
    let H := fresh in
    destruct (Submission_pre_save_keeps s) as (_ & _ & _ & _ & H & _);
    rewrite H; clear H
  end.
  cbn [set_judging_status set_scores sub_scores].
  rewrite !length_zip_with, !length_fmap, !length_seq, !Nat.min_id.
  rewrite !auto_records_without_timestamp, !auto_records_timestamp
    by (by rewrite length_fmap, length_seq).
  repeat split.
Qed.

Lemma C5_rerun_scenario_witness :
  exists w1 this1 w2 this2,
    autoJudge scenario_submission scenario_world = (w1, inr (AJ_saved this1)) /\
    autoJudge this1 w1 = (w2, inr (AJ_saved this2)) /\
    without_timestamp <$> sub_scores this2
      = without_timestamp <$> sub_scores this1 /\
    sc_timestamp <$> sub_scores this1
      = w_clock scenario_world
          <$> seq (w_reads scenario_world) (length (sub_scores this1)) /\
    sc_timestamp <$> sub_scores this2
      = w_clock scenario_world
          <$> seq (length (sub_scores this1) + w_reads scenario_world)
                  (length (sub_scores this2)).
Proof.
  apply (C5_rerun_differs_only_in_timestamps
           scenario_submission scenario_metadata scenario_world).
  reflexivity.
Defined.

(** C8, as stated, fails: without metadata the call does not throw. *)
Lemma C8_no_metadata_does_not_fail :
  ~ fails (autoJudge fresh_submission) judging_world.
Proof.
  intros (w' & e & H).
  rewrite (autoJudge_runs_any fresh_submission judging_world) in H.
  discriminate H.
Qed.

(** C8, amended.  On a submission without metadata [autoJudge] does not
    throw and builds no score: every path of the metadata reads
    [undefined], no record is pushed and the clock is not read.  The call
    completes like any other: the score list is overwritten with the
    empty list, the submission is marked judged and saved. *)
Theorem C8_no_metadata_completes_silently this w :
  sub_metadata this = None ->
  exists w' this',
    autoJudge this w = (w', inr (AJ_saved this')) /\
    sub_scores this' = [] /\
    sub_judging_status this' = judged /\
    db_submissions (w_db w') !! sub_id this = Some this' /\
    w_reads w' = w_reads w.
Proof.
  intros Hm. eexists _, _.
  split; [apply autoJudge_runs_any|].
  unfold this_metadata. rewrite Hm.
  cbn [w_db db_submissions w_reads default from_option].
  match goal with |- context [Submission_pre_save ?s] =>
    destruct (Submission_pre_save_keeps s) as (_ & _ & _ & _ & -> & -> & _)
  end.
  split; [reflexivity|]. split; [reflexivity|].
  split; [by rewrite lookup_insert_eq | reflexivity].
Qed.

Lemma C8_no_metadata_witness :
  exists w' this',
    autoJudge fresh_submission judging_world = (w', inr (AJ_saved this')) /\
    sub_scores this' = [] /\
    sub_judging_status this' = judged /\
    db_submissions (w_db w') !! 10%positive = Some this' /\
    w_reads w' = w_reads judging_world.
Proof.
  apply (C8_no_metadata_completes_silently fresh_submission judging_world).
  reflexivity.
Defined.

(* ===================================================================== *)
(** ** C6: one vote per user *)
(* ===================================================================== *)

Lemma EventStatus_eqb_eq a b : EventStatus_eqb a b = true <-> a = b.
Proof. destruct a, b; simpl; intuition congruence. Qed.

(** The gate of the vote route lets the request through in the judging
    and in the completed phase. *)
Lemma voting_open (event : Event) :
  ev_status event = ev_judging \/ ev_status event = completed ->
  negb (EventStatus_eqb (ev_status event) ev_judging)
  && negb (EventStatus_eqb (ev_status event) completed) = false.
Proof. intros [-> | ->]; reflexivity. Qed.

Lemma post_vote_runs id user score w submission event :
  db_submissions (w_db w) !! id = Some submission ->
  db_events (w_db w) !! sub_event submission = Some event ->
  ev_status event = ev_judging \/ ev_status event = completed ->
  1 <= score <= 5 ->
  let s' :=
    Submission_pre_save
      (set_votes (votes_after user score (w_clock w (w_reads w))
                    (sub_votes submission)) submission) in
  exists w',
    post_vote id user score w
    = (w', inr (mkResponse 200
                  (MessageAverage "Vote submitted successfully"
                     (sub_publicVotes s')))) /\
    db_submissions (w_db w')
    = <[sub_id submission := s']> (db_submissions (w_db w)) /\
    db_teams (w_db w') = db_teams (w_db w).
Proof.
  intros Hs He Hst [Hlo Hhi] s'.
  apply Qltb_ge in Hlo, Hhi. apply voting_open in Hst.
  unfold post_vote. rewrite Hlo, Hhi. cbn [orb]. run.
  rewrite Hs; cbv beta iota. rewrite He; cbv beta iota.
  rewrite Hst; cbv beta iota. cbn [w_db w_clock w_reads db_submissions].
  subst s'. unfold votes_after.
  destruct (list_find _ (sub_votes submission)) as [[i existingVote]|];
    cbv beta iota; cbn [w_db w_clock w_reads db_submissions].
  all: set (s' := Submission_pre_save _).
  all:
  match goal with |- context [updateEventLeaderboard ?e ?w0] =>
    destruct (updateEventLeaderboard_frame e w0)
      as (w' & lb & -> & Hsub & Hteam & _ & _)
  end.
  all: exists w'; (split; [reflexivity|]); cbn in Hsub, Hteam.
  all: split; [|exact Hteam]; rewrite Hsub; f_equal.
  all: subst s';
    match goal with |- sub_id (Submission_pre_save ?s) = _ =>
      by destruct (Submission_pre_save_keeps s) as (-> & _)
    end.
Qed.

Lemma votes_after_revote user score now votes i v :
  list_find (fun vote => v_user vote = user) votes = Some (i, v) ->
  votes_after user score now votes = <[i := mkVote user score now]> votes /\
  v_user <$> votes_after user score now votes = v_user <$> votes.
Proof.
  intros Hf. unfold votes_after. rewrite Hf.
  apply list_find_Some in Hf as (Hi & <- & _).
  split; [reflexivity|].
  rewrite list_fmap_insert. simpl. apply list_insert_id.
  by rewrite list_lookup_fmap, Hi.
Qed.

Lemma votes_after_first_vote user score now votes :
  user ∉ v_user <$> votes ->
  votes_after user score now votes = votes ++ [mkVote user score now].
Proof.
  intros Hn. unfold votes_after.
  destruct (list_find _ votes) as [[i v]|] eqn:Hf; [|reflexivity].
  apply list_find_Some in Hf as (Hi & Hu & _).
  exfalso. apply Hn. apply list_elem_of_fmap. exists v. split; [done|].
  by eapply list_elem_of_lookup_2.
Qed.

Lemma votes_after_others user score now votes i v :
  votes !! i = Some v -> v_user v <> user ->
  votes_after user score now votes !! i = Some v.
Proof.
  intros Hi Hu. unfold votes_after.
  destruct (list_find _ votes) as [[j x]|] eqn:Hf.
  - apply list_find_Some in Hf as (Hj & Hx & _).
    rewrite list_lookup_insert_ne; [done|]. intros ->. congruence.
  - by apply lookup_app_l_Some.
Qed.

Lemma votes_after_NoDup user score now votes :
  NoDup (v_user <$> votes) -> NoDup (v_user <$> votes_after user score now votes).
Proof.
  intros Hnd.
  destruct (decide (user ∈ v_user <$> votes)) as [Hin|Hn].
  - apply list_elem_of_fmap in Hin as (v & Hv & Hin).
    destruct (list_find_elem_of (fun vote => v_user vote = user) votes v Hin)
      as [[i x] Hf]; [done|].
    by destruct (votes_after_revote user score now votes i x Hf) as [_ ->].
  - rewrite votes_after_first_vote by done.
    rewrite fmap_app. simpl. apply NoDup_app. split; [done|].
    split; [|apply NoDup_singleton].
    intros u Hu ->%list_elem_of_singleton. done.
Qed.

(** C6.  A vote that passes the checks of the route is saved.  The votes
    of the other users stay where they are.  When the user already has a
    vote, the list keeps its users position by position, so no record is
    appended, and the user's record now carries the new score and the time
    of the request; when the user has none, exactly one record is
    appended.  A vote list with unique users stays a list with unique
    users. *)
Theorem C6_vote_overwrites_in_place id user score w submission event :
  db_submissions (w_db w) !! id = Some submission ->
  db_events (w_db w) !! sub_event submission = Some event ->
  ev_status event = ev_judging \/ ev_status event = completed ->
  1 <= score <= 5 ->
  exists w' r s',
    post_vote id user score w = (w', inr r) /\
    res_status r = 200%nat /\
    db_submissions (w_db w') !! sub_id submission = Some s' /\
    (forall i v, sub_votes submission !! i = Some v -> v_user v <> user ->
                 sub_votes s' !! i = Some v) /\
    (forall i v,
       list_find (fun vote => v_user vote = user) (sub_votes submission)
       = Some (i, v) ->
       v_user <$> sub_votes s' = v_user <$> sub_votes submission /\
       length (sub_votes s') = length (sub_votes submission) /\
       sub_votes s' !! i = Some (mkVote user score (w_clock w (w_reads w)))) /\
    (user ∉ v_user <$> sub_votes submission ->
     sub_votes s'
     = sub_votes submission ++ [mkVote user score (w_clock w (w_reads w))]) /\
    (NoDup (v_user <$> sub_votes submission) ->
     NoDup (v_user <$> sub_votes s')).
Proof.
  intros Hs He Hst Hscore.
  destruct (post_vote_runs id user score w submission event Hs He Hst Hscore)
    as (w' & Hrun & Hdb & _).
  eexists w', _, _. split; [exact Hrun|]. split; [reflexivity|].
  split; [by rewrite Hdb, lookup_insert_eq|].
  match goal with |- context [Submission_pre_save ?s] =>
    destruct (Submission_pre_save_keeps s)
      as (_ & _ & _ & _ & _ & _ & -> & _)
  end.
  cbn [set_votes sub_votes].
  split; [intros i v; apply votes_after_others|].
  split.
  { intros i v Hf.
    destruct (votes_after_revote user score (w_clock w (w_reads w)) _ i v Hf)
      as [Heq Husers].
    split; [exact Husers|]. rewrite Heq.
    split; [apply length_insert|].
    apply list_lookup_insert_eq.
    apply list_find_Some in Hf as (Hi & _). by eapply lookup_lt_Some. }
  split; [apply votes_after_first_vote | apply votes_after_NoDup].
Qed.

Lemma C6_revote_witness :
  exists w' r s',
    post_vote 10 7 5 voted_world = (w', inr r) /\
    res_status r = 200%nat /\
    db_submissions (w_db w') !! 10%positive = Some s' /\
    sub_votes s' = [mkVote 7 5 0] /\
    NoDup (v_user <$> sub_votes s').
Proof.
  destruct (C6_vote_overwrites_in_place 10 7 5 voted_world
              voted_submission judging_event)
    as (w' & r & s' & Hrun & Hst & Hdb & _ & Hre & _ & Hnd).
  - reflexivity.
  - reflexivity.
  - left. reflexivity.
  - split; by vm_compute.
  - exists w', r, s'. split; [exact Hrun|]. split; [exact Hst|].
    split; [exact Hdb|].
    destruct (Hre 0%nat (mkVote 7 3 0) eq_refl) as (_ & Hlen & Hat).
    split.
    + destruct (sub_votes s') as [|v [|v' l]]; simpl in *; try discriminate.
      by injection Hat as ->.
    + apply Hnd. simpl. apply NoDup_singleton.
Defined.

(* ===================================================================== *)
(** ** C7: one score set per judge *)
(* ===================================================================== *)

Lemma filter_other_judges_runs user scores w :
  Forall (fun r => is_Some (sc_judge r)) scores ->
  filter_other_judges user scores w
  = (w, inr (List.filter (by_other_judge user) scores)).
Proof.
  induction 1 as [|r l [j Hj] _ IH]; [reflexivity|].
  cbn [filter_other_judges List.filter].
  destruct (sc_judge r) as [j'|] eqn:Hr; [|discriminate Hj].
  injection Hj as ->. run. rewrite IH.
  unfold by_other_judge, by_judge. rewrite Hr.
  destruct (decide (j = user)) as [->|Hne].
  - rewrite (bool_decide_eq_false_2 (user <> user)) by (intros H; by apply H).
    by rewrite (bool_decide_eq_true_2 (Some user = Some user)).
  - rewrite (bool_decide_eq_true_2 (j <> user)) by done.
    by rewrite (bool_decide_eq_false_2 (Some j = Some user)) by congruence.
Qed.

Lemma push_judge_scores_runs user scores : forall acc w,
  push_judge_scores user scores acc w
  = (mkWorld (w_db w) (w_clock w) (length scores + w_reads w),
     inr (acc ++ zip_with (judge_record user) scores
                   (w_clock w <$> seq (w_reads w) (length scores)))).
Proof.
  induction scores as [|sd scores IH]; intros acc [d clock reads].
  - run. by rewrite app_nil_r.
  - cbn [push_judge_scores]. run. rewrite IH. cbn [w_db w_clock w_reads].
    rewrite <- app_assoc. simpl. repeat f_equal. lia.
Qed.

Lemma by_judge_judge_record user sd t :
  by_judge user (judge_record user sd t) = true.
Proof. unfold by_judge. simpl. by apply bool_decide_eq_true_2. Qed.

Lemma judge_records_by_judge user scores ts :
  List.filter (by_judge user) (zip_with (judge_record user) scores ts)
  = zip_with (judge_record user) scores ts /\
  List.filter (by_other_judge user) (zip_with (judge_record user) scores ts)
  = [].
Proof.
  revert ts. induction scores as [|sd scores IH]; intros [|t ts];
    try done.
  destruct (IH ts) as [IH1 IH2].
  cbn [zip_with List.filter]. unfold by_other_judge.
  rewrite by_judge_judge_record. cbn [negb].
  fold (by_other_judge user). by rewrite IH1, IH2.
Qed.

Lemma filter_by_judge_others user (l : list ScoreRecord) :
  List.filter (by_judge user) (List.filter (by_other_judge user) l) = [] /\
  List.filter (by_other_judge user) (List.filter (by_other_judge user) l)
  = List.filter (by_other_judge user) l.
Proof.
  induction l as [|r l [IH1 IH2]]; [done|].
  cbn [List.filter].
  destruct (by_other_judge user r) eqn:E; [|done].
  cbn [List.filter]. rewrite E.
  unfold by_other_judge in E. apply negb_true_iff in E. rewrite E.
  by rewrite IH1, IH2.
Qed.

Lemma post_judge_runs id user scores feedback w submission event :
  db_submissions (w_db w) !! id = Some submission ->
  db_events (w_db w) !! sub_event submission = Some event ->
  user ∈ ev_judges event \/ ev_organizer event = user ->
  Forall (fun r => is_Some (sc_judge r)) (sub_scores submission) ->
  exists w' s',
    post_judge id user scores feedback w
    = (w', inr (mkResponse 200
                  (MessageTotal "Submission judged successfully"
                     (sub_totalScore s')))) /\
    db_submissions (w_db w')
    = <[sub_id submission := s']> (db_submissions (w_db w)) /\
    sub_judging_status s' = judged /\
    sub_scores s'
    = List.filter (by_other_judge user) (sub_scores submission)
      ++ zip_with (judge_record user) scores
           (w_clock w <$> seq (w_reads w) (length scores)).
Proof.
  intros Hs He Hauth Hj.
  assert (Hgate :
    negb (bool_decide (user ∈ ev_judges event)
          || bool_decide (ev_organizer event = user)) = false).
  { destruct Hauth as [H|H].
    - by rewrite (bool_decide_eq_true_2 _ H).
    - rewrite (bool_decide_eq_true_2 _ H). by rewrite orb_true_r. }
  unfold post_judge. run.
  rewrite Hs; cbv beta iota. rewrite He; cbv beta iota.
  rewrite Hgate; cbv beta iota.
  rewrite (filter_other_judges_runs user _ w Hj).
  rewrite push_judge_scores_runs. cbn [w_db w_clock w_reads].
  set (all := List.filter (by_other_judge user) (sub_scores submission) ++ _).
  destruct (truthy_string feedback);
    cbn [w_db w_clock w_reads db_submissions db_events db_teams];
    match goal with |- context [updateEventLeaderboard ?e ?w0] =>
      destruct (updateEventLeaderboard_frame e w0)
        as (w' & lb & -> & Hsub & _)
    end;
    cbn in Hsub;
    match type of Hsub with context [Submission_pre_save ?s] =>
      destruct (Submission_pre_save_keeps s)
        as (Hk1 & _ & _ & _ & Hk5 & Hk6 & _);
      exists w', (Submission_pre_save s)
    end;
    rewrite Hk1 in Hsub;
    (split; [reflexivity|]); (split; [exact Hsub|]);
    rewrite Hk5, Hk6; split; reflexivity.
Qed.

(** A record without a judge stops the route before anything is written:
    the filter throws and the handler answers 500. *)
Lemma filter_other_judges_throws user scores w :
  Exists (fun r => sc_judge r = None) scores ->
  filter_other_judges user scores w = (w, inl TypeError).
Proof.
  induction 1 as [r l Hr | r l _ IH]; cbn [filter_other_judges].
  - by rewrite Hr.
  - destruct (sc_judge r); [|reflexivity]. run. by rewrite IH.
Qed.

Lemma post_judge_unjudged_record id user scores feedback w submission event :
  db_submissions (w_db w) !! id = Some submission ->
  db_events (w_db w) !! sub_event submission = Some event ->
  user ∈ ev_judges event \/ ev_organizer event = user ->
  Exists (fun r => sc_judge r = None) (sub_scores submission) ->
  post_judge id user scores feedback w
  = (w, inr (mkResponse 500 (Message "Server error"))).
Proof.
  intros Hs He Hauth Hj.
  assert (Hgate :
    negb (bool_decide (user ∈ ev_judges event)
          || bool_decide (ev_organizer event = user)) = false).
  { destruct Hauth as [H|H].
    - by rewrite (bool_decide_eq_true_2 _ H).
    - rewrite (bool_decide_eq_true_2 _ H). by rewrite orb_true_r. }
  unfold post_judge. run.
  rewrite Hs; cbv beta iota. rewrite He; cbv beta iota.
  rewrite Hgate; cbv beta iota.
  by rewrite (filter_other_judges_throws user _ w Hj).
Qed.

(** C7.  When an authorised judge submits a score set for a submission
    whose records all carry a judge, the request succeeds and the saved
    score list is: the records of the other judges, unchanged and in their
    old order, followed by one record per submitted score, each under the
    name of this judge.  So the judge's records after the request are
    exactly the new set, whatever the judge had before. *)
Theorem C7_judge_resubmission_replaces id user scores feedback w submission event :
  db_submissions (w_db w) !! id = Some submission ->
  db_events (w_db w) !! sub_event submission = Some event ->
  user ∈ ev_judges event \/ ev_organizer event = user ->
  Forall (fun r => is_Some (sc_judge r)) (sub_scores submission) ->
  exists w' r s',
    post_judge id user scores feedback w = (w', inr r) /\
    res_status r = 200%nat /\
    db_submissions (w_db w') !! sub_id submission = Some s' /\
    List.filter (by_judge user) (sub_scores s')
    = zip_with (judge_record user) scores
        (w_clock w <$> seq (w_reads w) (length scores)) /\
    length (List.filter (by_judge user) (sub_scores s')) = length scores /\
    List.filter (by_other_judge user) (sub_scores s')
    = List.filter (by_other_judge user) (sub_scores submission) /\
    sub_scores s'
    = List.filter (by_other_judge user) (sub_scores submission)
      ++ List.filter (by_judge user) (sub_scores s').
Proof.
  intros Hs He Hauth Hj.
  destruct (post_judge_runs id user scores feedback w submission event
              Hs He Hauth Hj) as (w' & s' & Hrun & Hdb & _ & Hscores).
  eexists w', _, s'. split; [exact Hrun|]. split; [reflexivity|].
  split; [by rewrite Hdb, lookup_insert_eq|].
  rewrite Hscores, !List.filter_app.
  destruct (judge_records_by_judge user scores
              (w_clock w <$> seq (w_reads w) (length scores))) as [-> ->].
  destruct (filter_by_judge_others user (sub_scores submission)) as [-> ->].
  rewrite app_nil_r. simpl.
  repeat split.
  by rewrite length_zip_with, length_fmap, length_seq, Nat.min_id.
Qed.

Lemma C7_resubmission_witness :
  exists w' r s',
    post_judge 10 5 [mkScoreData "Design" 60 None None;
                     mkScoreData "UX" 50 None None] None judged_world
    = (w', inr r) /\
    res_status r = 200%nat /\
    db_submissions (w_db w') !! 10%positive = Some s' /\
    sub_scores s'
    = [mkScore "Code" 70 100 (Some 6%positive) None 0;
       mkScore "Design" 60 100 (Some 5%positive) None 0;
       mkScore "UX" 50 100 (Some 5%positive) None 1].
Proof.
  destruct (C7_judge_resubmission_replaces 10 5
              [mkScoreData "Design" 60 None None;
               mkScoreData "UX" 50 None None] None judged_world
              judged_submission judging_event)
    as (w' & r & s' & Hrun & Hst & Hdb & Hnew & _ & _ & Hall).
  - reflexivity.
  - reflexivity.
  - left. apply list_elem_of_singleton. reflexivity.
  - repeat constructor; by eexists.
  - exists w', r, s'. repeat (split; [assumption|]).
    rewrite Hall, Hnew. reflexivity.
Defined.

(* ===================================================================== *)
(** ** C3: which submissions a recomputed leaderboard lists *)
(* ===================================================================== *)

(** C3, as stated, fails for both recomputations.  User 7 votes 4 on a
    submitted entry that no judge has scored yet; the vote is accepted
    and the average of the public votes becomes 4, so the combined score
    is 40.  The next recomputation by [updateEventLeaderboard] goes
    through and stores an empty leaderboard: the loop tests
    [judging.totalScore > 0], not the combined score.  And the rebuild
    that the organizer triggers lists every submission of the event: in
    the ranking scenario it stores four entries, the draft among them,
    where three submissions are submitted with a positive combined
    score. *)
Lemma C3_voted_but_unjudged_not_listed :
  (exists w1 r w2 lb,
     post_vote 10 7 4 judging_world = (w1, inr r) /\
     res_status r = 200%nat /\
     updateEventLeaderboard 1 w1 = (w2, inr lb) /\
     stored_leaderboard (w_db w2) 1 = lb /\
     ~ lists_exactly positive_combined (w_db w1) judging_event lb) /\
  (exists w' lb,
     post_update_leaderboard 1 100 ranking_world
     = (w', inr (mkResponse 200
                   (MessageLeaderboard "Leaderboard updated successfully" lb))) /\
     stored_leaderboard (w_db w') 1 = lb /\
     ~ lists_exactly positive_combined (w_db ranking_world) ranking_event lb).
Proof.
  split.
  - eexists _, _, _, _.
    split; [vm_compute; reflexivity|]. split; [reflexivity|].
    split; [vm_compute; reflexivity|]. split; [vm_compute; reflexivity|].
    unfold lists_exactly. intros H. apply Permutation_length in H.
    vm_compute in H. discriminate H.
  - eexists _, _.
    split; [vm_compute; reflexivity|]. split; [reflexivity|].
    unfold lists_exactly. intros H. apply Permutation_length in H.
    vm_compute in H. discriminate H.
Qed.

Lemma populated_stored d event s :
  s ∈ populated d event ->
  exists id, id ∈ ev_submissions event /\ db_submissions d !! id = Some s.
Proof.
  unfold populated. intros H. apply list_elem_of_omap in H as (id & Hid & Hs).
  eauto.
Qed.

Lemma populated_NoDup d event :
  ids_match d -> NoDup (ev_submissions event) ->
  NoDup (sub_id <$> populated d event).
Proof.
  intros Hm. unfold populated.
  induction (ev_submissions event) as [|id ids IH]; intros Hnd.
  - constructor.
  - apply NoDup_cons in Hnd as [Hnotin Hnd]. cbn [omap list_omap].
    destruct (db_submissions d !! id) as [s|] eqn:Hs; [|by apply IH].
    cbn [fmap list_fmap]. constructor; [|by apply IH].
    intros Hin. apply list_elem_of_fmap in Hin as (s' & Heq & Hin).
    apply list_elem_of_omap in Hin as (id' & Hid' & Hs').
    apply Hm in Hs, Hs'. congruence.
Qed.

Lemma filter_fmap_NoDup {A B} (f : A -> B) (p : A -> bool) (l : list A) :
  NoDup (f <$> l) -> NoDup (f <$> List.filter p l).
Proof.
  induction l as [|x l IH]; [done|]. cbn [fmap list_fmap List.filter].
  intros [Hx Hl]%NoDup_cons. destruct (p x); [|by apply IH].
  cbn [fmap list_fmap]. constructor; [|by apply IH].
  intros Hin. apply Hx.
  apply list_elem_of_fmap in Hin as (y & -> & Hy).
  apply list_elem_of_fmap. exists y. split; [done|].
  apply list_elem_of_In. apply list_elem_of_In in Hy.
  by apply List.filter_In in Hy as [Hy _].
Qed.

(** Every entry of a recomputed leaderboard comes from a stored
    submission that passed the guard of the loop. *)
Lemma recomputed_entries_stored d event raw :
  ids_match d ->
  Forall2 (entry_of d) (List.filter eligible (populated d event)) raw ->
  lists_exactly eligible d event
    (assign_ranks (Array_sort by_totalScore_desc raw)) /\
  Forall (fun e => exists s,
            db_submissions d !! le_submission e = Some s /\
            eligible s = true)
         (assign_ranks (Array_sort by_totalScore_desc raw)).
Proof.
  intros Hm Hraw. apply recomputed_standings in Hraw as Hperm.
  set (lb := assign_ranks (Array_sort by_totalScore_desc raw)) in *.
  assert (Hl : lists_exactly eligible d event lb).
  { unfold lists_exactly.
    apply (fmap_Permutation fst) in Hperm. unfold standings in Hperm.
    rewrite <- !list_fmap_compose in Hperm. exact Hperm. }
  split; [exact Hl|].
  apply Forall_forall. intros e Hin.
  assert (Hin' : le_submission e ∈ le_submission <$> lb)
    by (apply list_elem_of_fmap; eauto).
  rewrite Hl in Hin'.
  apply list_elem_of_fmap in Hin' as (s & Hs & Hin').
  apply list_elem_of_In, List.filter_In in Hin' as [Hin' Hel].
  apply list_elem_of_In, populated_stored in Hin' as (id & _ & Hlook).
  exists s. rewrite Hs, (Hm _ _ Hlook). by split.
Qed.

Lemma eligible_submitted_positive s :
  eligible s = true -> sub_status s = submitted /\ 0 < sub_totalScore s.
Proof.
  unfold eligible. intros [Hs Hq]%andb_true_iff.
  split; [by destruct (sub_status s) | by apply Qltb_lt].
Qed.

(** C3, amended.  When [updateEventLeaderboard] recomputes the leaderboard
    of an event, the stored leaderboard has one entry for each place at
    which [event.submissions] names a stored submission with status
    [submitted] and a positive [judging.totalScore], and no other entry.
    Every entry refers to a submission that is stored at that moment, so
    a deleted submission is not listed, and when the event names no
    submission twice no submission is listed twice: exactly one entry
    for each such submission. *)
Theorem C3_recomputed_leaderboard_lists_judged_submitted eventId w event :
  db_events (w_db w) !! eventId = Some event ->
  ev_id event = eventId ->
  teams_present (w_db w) (populated (w_db w) event) ->
  ids_match (w_db w) ->
  exists w' lb,
    updateEventLeaderboard eventId w = (w', inr lb) /\
    stored_leaderboard (w_db w') eventId = lb /\
    lists_exactly eligible (w_db w) event lb /\
    Forall (fun e => exists s,
              db_submissions (w_db w) !! le_submission e = Some s /\
              sub_status s = submitted /\ 0 < sub_totalScore s) lb /\
    (forall sid, db_submissions (w_db w) !! sid = None ->
                 sid ∉ le_submission <$> lb) /\
    (NoDup (ev_submissions event) -> NoDup (le_submission <$> lb)).
Proof.
  intros He Hid Ht Hm.
  destruct (recompute_stored eventId w event He Hid Ht)
    as (w' & raw & Hrun & Hst & Hraw).
  destruct (recomputed_entries_stored _ _ _ Hm Hraw) as [Hl Hall].
  set (lb := assign_ranks (Array_sort by_totalScore_desc raw)) in *.
  exists w', lb. split; [exact Hrun|]. split; [exact Hst|].
  split; [exact Hl|]. split; [|split].
  - eapply Forall_impl; [exact Hall|]. intros e (s & Hs & Hel).
    exists s. split; [exact Hs|]. by apply eligible_submitted_positive.
  - intros sid Hnone Hin.
    apply list_elem_of_fmap in Hin as (e & -> & Hin).
    rewrite Forall_forall in Hall.
    destruct (Hall e Hin) as (s & Hs & _). congruence.
  - intros Hnd. rewrite Hl.
    by apply filter_fmap_NoDup, populated_NoDup.
Qed.

(** Fewer ids and fewer documents populate to fewer submissions. *)
Lemma populated_shrinks d d1 event event1 s :
  (forall x y, db_submissions d1 !! x = Some y ->
               db_submissions d !! x = Some y) ->
  (forall x, x ∈ ev_submissions event1 -> x ∈ ev_submissions event) ->
  s ∈ populated d1 event1 -> s ∈ populated d event.
Proof.
  unfold populated. intros Hdocs Hids (x & Hx & Hs)%list_elem_of_omap.
  apply list_elem_of_omap. exists x. split; [by apply Hids | by apply Hdocs].
Qed.

(** Deleting a submission: the route removes the document and its id from
    the event and recomputes; when the recomputation goes through, the
    stored leaderboard no longer names the submission. *)
Lemma delete_submission_unlists id user w submission team event :
  db_submissions (w_db w) !! id = Some submission ->
  db_teams (w_db w) !! sub_team submission = Some team ->
  db_events (w_db w) !! sub_event submission = Some event ->
  ev_id event = sub_event submission ->
  tm_leader team = user \/ ev_organizer event = user ->
  ids_match (w_db w) ->
  teams_present (w_db w) (populated (w_db w) event) ->
  exists w',
    delete_submission id user w
    = (w', inr (mkResponse 200 (Message "Submission deleted successfully"))) /\
    db_submissions (w_db w') = delete id (db_submissions (w_db w)) /\
    id ∉ le_submission <$> stored_leaderboard (w_db w') (ev_id event).
Proof.
  intros Hs Hteam He Hid Hauth Hm Ht.
  assert (Hgate : negb (bool_decide (tm_leader team = user))
                  && negb (bool_decide (ev_organizer event = user)) = false).
  { destruct Hauth as [H|H]; rewrite (bool_decide_eq_true_2 _ H);
      [reflexivity | apply andb_false_r]. }
  unfold delete_submission. run.
  rewrite Hs; cbv beta iota. rewrite Hteam; cbv beta iota.
  rewrite He; cbv beta iota. rewrite Hgate; cbv beta iota.
  cbn [w_db w_clock w_reads db_events db_submissions db_teams].
  rewrite Hid, He; cbv beta iota.
  cbn [w_db w_clock w_reads db_events db_submissions db_teams].
  match goal with |- context [updateEventLeaderboard _ ?w0] => set (w1 := w0) end.
  match goal with
  | w1 := mkWorld (mkDb (<[_ := ?e]> _) _ _) _ _ |- _ => set (event1 := e) in *
  end.
  assert (Hm1 : ids_match (w_db w1)).
  { intros x s Hx. cbn in Hx. apply lookup_delete_Some in Hx as [_ Hx].
    by apply Hm. }
  assert (He1 : db_events (w_db w1) !! sub_event submission = Some event1)
    by (cbn; apply lookup_insert_eq).
  assert (Ht1 : teams_present (w_db w1) (populated (w_db w1) event1)).
  { apply Forall_forall. intros s Hin Hel.
    apply (populated_shrinks (w_db w)) with (event := event) in Hin.
    - unfold teams_present in Ht. rewrite Forall_forall in Ht.
      destruct (Ht s Hin Hel) as [t Hlook]. cbn.
      apply lookup_insert_is_Some'. right. by exists t.
    - intros x y Hx. cbn in Hx. by apply lookup_delete_Some in Hx as [_ Hx].
    - intros x Hx. cbn in Hx.
      by apply list_elem_of_In, List.filter_In in Hx as [Hx%list_elem_of_In _]. }
  destruct (updateEventLeaderboard_runs (sub_event submission) w1 event1 He1 Ht1)
    as (w' & raw & Hrun & Hraw & Hev & Hsub & _).
  rewrite Hrun. exists w'. split; [reflexivity|]. split; [exact Hsub|].
  unfold stored_leaderboard. rewrite Hev.
  replace (ev_id event1) with (sub_event submission) by (by rewrite <- Hid).
  rewrite lookup_insert_eq. cbn [ev_leaderboard set_leaderboard].
  destruct (recomputed_entries_stored _ _ _ Hm1 Hraw) as [_ Hall].
  intros Hin. apply list_elem_of_fmap in Hin as (e & -> & Hin).
  rewrite Forall_forall in Hall. destruct (Hall e Hin) as (s & Hlook & _).
  cbn in Hlook. by rewrite lookup_delete_eq in Hlook.
Qed.



(* ===================================================================== *)
(** ** The ranking scenario, run *)
(* ===================================================================== *)

Lemma ranking_world_populated :
  populated ranking_db ranking_event
  = [submission_13; submission_11; submission_14; submission_12].
Proof. reflexivity. Defined.

Lemma ranking_world_teams_present :
  teams_present ranking_db (populated ranking_db ranking_event).
Proof.
  rewrite ranking_world_populated.
  repeat constructor; intros _; by eexists.
Defined.

Lemma ranking_world_ids_match : ids_match ranking_db.
Proof.
  intros id s H. unfold ranking_db in H. cbn [db_submissions] in H.
  repeat (apply lookup_insert_Some in H as [[<- <-] | [_ H]]; [reflexivity|]).
  apply lookup_singleton_Some in H as [<- <-]. reflexivity.
Defined.

(** The scenario of the specification: 185, 185 and 90 get the ranks 1, 2
    and 3, the two tied entries in the order of [event.submissions]. *)
Example ranking_world_leaderboard :
  exists w' lb,
    updateEventLeaderboard 1 ranking_world = (w', inr lb) /\
    le_submission <$> lb = [11%positive; 12%positive; 13%positive] /\
    le_rank <$> lb = [1; 2; 3]%nat /\
    Forall2 Qeq (le_totalScore <$> lb) [185; 185; 90].
Proof.
  eexists _, _. split; [vm_compute; reflexivity|].
  split; [reflexivity|]. split; [reflexivity|].
  repeat constructor.
Qed.

Lemma C1_ranking_witness :
  exists w' lb,
    updateEventLeaderboard 1 ranking_world = (w', inr lb) /\
    stored_leaderboard (w_db w') 1 = lb /\
    Permutation (standings lb) (candidates ranking_db ranking_event) /\
    StronglySorted (fun a b => le_totalScore b <= le_totalScore a) lb /\
    le_rank <$> lb = seq 1 (length lb) /\
    forall k,
      List.filter (scoring k) (standings lb)
      = List.filter (scoring k) (candidates ranking_db ranking_event).
Proof.
  apply (C1_recomputed_leaderboard_sorted_ranked_stable
           1 ranking_world ranking_event).
  - reflexivity.
  - reflexivity.
  - exact ranking_world_teams_present.
Defined.

Lemma C3_ranking_witness :
  exists w' lb,
    updateEventLeaderboard 1 ranking_world = (w', inr lb) /\
    stored_leaderboard (w_db w') 1 = lb /\
    lists_exactly eligible ranking_db ranking_event lb /\
    Forall (fun e => exists s,
              db_submissions ranking_db !! le_submission e = Some s /\
              sub_status s = submitted /\ 0 < sub_totalScore s) lb /\
    (forall sid, db_submissions ranking_db !! sid = None ->
                 sid ∉ le_submission <$> lb) /\
    NoDup (le_submission <$> lb).
Proof.
  destruct (C3_recomputed_leaderboard_lists_judged_submitted
              1 ranking_world ranking_event)
    as (w' & lb & H1 & H2 & H3 & H4 & H5 & H6).
  - reflexivity.
  - reflexivity.
  - exact ranking_world_teams_present.
  - exact ranking_world_ids_match.
  - exists w', lb. repeat (split; [assumption|]).
    apply H6. unfold ranking_event. cbn [ev_submissions].
    apply (bool_decide_unpack _). reflexivity.
Defined.

(* ===================================================================== *)
(** ** C9: what reading a leaderboard writes *)
(* ===================================================================== *)

(** C9, as stated, fails: the leaderboard has a writer that is no
    recomputation.  The organizer's update route assigns the request
    body to the event; a body that carries a leaderboard replaces the
    stored one. *)
Lemma C9_update_route_writes_leaderboard :
  exists w' event',
    put_event 1 100 (mkEventBody None (Some foreign_leaderboard)) judging_world
    = (w', inr (mkEventResponse 200 "Event updated successfully" (Some event'))) /\
    stored_leaderboard (w_db judging_world) 1 = [] /\
    stored_leaderboard (w_db w') 1 = foreign_leaderboard.
Proof.
  eexists _, _. split; [vm_compute; reflexivity|].
  split; reflexivity.
Qed.

(** The save of the HTTP fetch never gets to the store: the hook of the
    schema throws first. *)
Lemma get_leaderboard_runs id w :
  get_leaderboard id w
  = (w, inr (mkResponse
               (if defined (db_events (w_db w) !! id) then 500 else 404)
               (Message (if defined (db_events (w_db w) !! id)
                         then "Server error" else "Event not found")))).
Proof.
  unfold get_leaderboard, Event_pre_save. run.
  destruct (db_events (w_db w) !! id); reflexivity.
Qed.

(** C9, amended.  Reading a leaderboard writes nothing.  The socket
    snapshot [requestLeaderboard] sends the stored leaderboard of a
    stored event, nothing for an unknown one, and leaves the world as it
    was; the HTTP fetch leaves the world as it was, whatever it
    answers. *)
Theorem C9_reads_write_nothing id w :
  fst (get_leaderboard id w) = w /\
  requestLeaderboard id w
  = (w, inr (match db_events (w_db w) !! id with
             | Some event => Some (leaderboardUpdate id (ev_leaderboard event))
             | None => None
             end)).
Proof.
  split.
  - by rewrite get_leaderboard_runs.
  - unfold requestLeaderboard. run.
    by destruct (db_events (w_db w) !! id).
Qed.

(* ===================================================================== *)
(** ** C10: the two rebuilds of the leaderboard *)
(* ===================================================================== *)

(** C10, as stated, fails.  In the ranking scenario the organizer's rebuild
    lists all four submissions, the draft included and first, by the judge
    total alone; the rebuild after a mutation lists the three submitted
    ones by the combined score. *)
Lemma C10_rebuilds_differ : ~ rebuilds_agree 100 1 ranking_world.
Proof.
  unfold rebuilds_agree. intros H. apply Forall2_length in H.
  vm_compute in H. discriminate H.
Qed.

Example ranking_world_organizer_rebuild :
  exists w' lb,
    post_update_leaderboard 1 100 ranking_world
    = (w', inr (mkResponse 200
                  (MessageLeaderboard "Leaderboard updated successfully" lb))) /\
    le_submission <$> lb
    = [14%positive; 12%positive; 11%positive; 13%positive] /\
    Forall2 Qeq (le_totalScore <$> lb) [500; 185; 140; 90].
Proof.
  eexists _, _. split; [vm_compute; reflexivity|].
  split; [reflexivity|]. repeat constructor.
Qed.

Lemma Qltb_proper a a' b b' : a == a' -> b == b' -> Qltb a b = Qltb a' b'.
Proof. intros Ha Hb. unfold Qltb. by rewrite Ha, Hb. Qed.

Lemma sort_insert_equiv x x' l l' :
  entry_equiv x x' -> Forall2 entry_equiv l l' ->
  Forall2 entry_equiv (sort_insert by_totalScore_desc x l)
                      (sort_insert by_totalScore_desc x' l').
Proof.
  intros Hx. induction 1 as [|y y' l l' Hy Hl IH]; simpl.
  - constructor; [exact Hx | constructor].
  - assert (Hq : Qltb 0 (by_totalScore_desc x y)
                 = Qltb 0 (by_totalScore_desc x' y')).
    { apply Qltb_proper; [reflexivity|]. unfold by_totalScore_desc.
      destruct Hx as (_ & _ & -> & _), Hy as (_ & _ & -> & _). reflexivity. }
    rewrite Hq. destruct (Qltb 0 (by_totalScore_desc x' y')).
    + constructor; [exact Hy | exact IH].
    + constructor; [exact Hx|]. constructor; [exact Hy | exact Hl].
Qed.

Lemma Array_sort_equiv l l' :
  Forall2 entry_equiv l l' ->
  Forall2 entry_equiv (Array_sort by_totalScore_desc l)
                      (Array_sort by_totalScore_desc l').
Proof.
  induction 1 as [|x x' l l' Hx Hl IH]; simpl; [constructor|].
  by apply sort_insert_equiv.
Qed.

Lemma imap_rank_equiv (g : nat -> nat) l l' :
  Forall2 entry_equiv l l' ->
  Forall2 entry_equiv (imap (fun i e => set_rank (g i) e) l)
                      (imap (fun i e => set_rank (g i) e) l').
Proof.
  intros H. revert g.
  induction H as [|x x' l l' Hx Hl IH]; intros g; [constructor|].
  rewrite !imap_cons. constructor; [|apply (IH (g ∘ S))].
  destruct Hx as (H1 & H2 & H3 & H4 & _ & H6). by repeat split.
Qed.

Lemma assign_ranks_equiv l l' :
  Forall2 entry_equiv l l' ->
  Forall2 entry_equiv (assign_ranks l) (assign_ranks l').
Proof. apply (imap_rank_equiv (fun index => (index + 1)%nat)). Qed.

Lemma or_zero_positive q : 0 < q -> or_zero q = q.
Proof.
  intros Hq. unfold or_zero.
  destruct (Qeq_bool q 0) eqn:E; [|reflexivity].
  apply Qeq_bool_eq in E. lra.
Qed.

(** On plainly judged submissions with their teams the two loops read the
    clock in step and push matching entries. *)
Lemma collect_both subs : forall acc1 acc2 w,
  Forall plainly_judged subs ->
  Forall (fun s => is_Some (db_teams (w_db w) !! sub_team s)) subs ->
  Forall2 entry_equiv acc1 acc2 ->
  exists w' l1 l2,
    collect_all subs acc1 w = (w', inr l1) /\
    collect_eligible subs acc2 w = (w', inr l2) /\
    Forall2 entry_equiv l1 l2 /\
    w_db w' = w_db w.
Proof.
  induction subs as [|s subs IH]; intros acc1 acc2 w Hp Ht Hacc.
  - exists w, acc1, acc2. by repeat split.
  - apply Forall_cons in Hp as [(Hst & Hj & Hpos & Hpv) Hp].
    apply Forall_cons in Ht as [[t Hteam] Ht].
    cbn [collect_all collect_eligible].
    assert (Hpend : JudgingStatus_eqb (sub_judging_status s) pending = false)
      by (by destruct (sub_judging_status s)).
    assert (Hel : SubmissionStatus_eqb (sub_status s) submitted
                  && Qltb 0 (sub_totalScore s) = true).
    { rewrite Hst. by apply Qltb_lt in Hpos as ->. }
    rewrite Hpend, Hel. run. rewrite Hteam. cbv beta iota.
    rewrite (or_zero_positive _ Hpos).
    match goal with
    | |- context [collect_all subs ?a1 ?w1] =>
        match goal with
        | |- context [collect_eligible subs ?a2 w1] =>
            destruct (IH a1 a2 w1 Hp) as (w' & l1 & l2 & H1 & H2 & Hl & Hd)
        end
    end.
    + exact Ht.
    + apply Forall2_app; [exact Hacc|]. constructor; [|constructor].
      repeat split; simpl. lra.
    + exists w', l1, l2. by repeat split.
Qed.

(** C10, amended.  When the caller is the organizer, and every populated
    submission of the event is submitted, already judged with a positive
    [judging.totalScore], without public votes, and still has its team,
    both rebuilds succeed from the same world and store the same
    leaderboard: the same entries, scores, order and ranks.  Neither
    changes a submission. *)
Theorem C10_rebuilds_agree_on_plainly_judged eventId user w event :
  db_events (w_db w) !! eventId = Some event ->
  ev_id event = eventId ->
  ev_organizer event = user ->
  Forall plainly_judged (populated (w_db w) event) ->
  Forall (fun s => is_Some (db_teams (w_db w) !! sub_team s))
         (populated (w_db w) event) ->
  exists w1 lb1 w2 lb2,
    post_update_leaderboard eventId user w
    = (w1, inr (mkResponse 200
                  (MessageLeaderboard "Leaderboard updated successfully" lb1))) /\
    updateEventLeaderboard eventId w = (w2, inr lb2) /\
    stored_leaderboard (w_db w1) eventId = lb1 /\
    stored_leaderboard (w_db w2) eventId = lb2 /\
    Forall2 entry_equiv lb1 lb2 /\
    db_submissions (w_db w1) = db_submissions (w_db w) /\
    db_submissions (w_db w2) = db_submissions (w_db w).
Proof.
  intros He Hid Horg Hp Ht.
  destruct (collect_both _ [] [] w Hp Ht) as (w' & l1 & l2 & H1 & H2 & Hl & Hd);
    [constructor|].
  assert (Hgate : bool_decide (ev_organizer event <> user) = false)
    by (apply bool_decide_eq_false_2; intros H; by apply H).
  unfold post_update_leaderboard, updateEventLeaderboard. run.
  rewrite He; cbv beta iota. rewrite Hgate; cbv beta iota.
  fold (populated (w_db w) event). rewrite H1, H2. cbn [ev_leaderboard set_leaderboard].
  eexists _, _, _, _. split; [reflexivity|]. split; [reflexivity|].
  unfold stored_leaderboard.
  cbn [w_db db_events db_submissions ev_id set_leaderboard].
  rewrite Hid, !lookup_insert_eq. cbn [ev_leaderboard].
  split; [reflexivity|]. split; [reflexivity|].
  split; [by apply assign_ranks_equiv, Array_sort_equiv|].
  by rewrite Hd.
Qed.

Lemma plain_world_populated :
  populated plain_db plain_event = [submission_13; submission_12].
Proof. reflexivity. Defined.

Lemma C10_plain_witness :
  exists w1 lb1 w2 lb2,
    post_update_leaderboard 1 100 plain_world
    = (w1, inr (mkResponse 200
                  (MessageLeaderboard "Leaderboard updated successfully" lb1))) /\
    updateEventLeaderboard 1 plain_world = (w2, inr lb2) /\
    stored_leaderboard (w_db w1) 1 = lb1 /\
    stored_leaderboard (w_db w2) 1 = lb2 /\
    Forall2 entry_equiv lb1 lb2 /\
    db_submissions (w_db w1) = db_submissions plain_db /\
    db_submissions (w_db w2) = db_submissions plain_db.
Proof.
  apply (C10_rebuilds_agree_on_plainly_judged 1 100 plain_world plain_event).
  - reflexivity.
  - reflexivity.
  - reflexivity.
  - cbn [w_db plain_world]. rewrite plain_world_populated.
    repeat constructor; discriminate.
  - cbn [w_db plain_world]. rewrite plain_world_populated.
    repeat constructor; by eexists.
Defined.

(* ===================================================================== *)
(** ** More about the [pre('save')] hook of the Submission schema *)
(* ===================================================================== *)

Lemma fold_left_sum_bounds {A} (f : A -> Q) (lo hi : Q) (l : list A) :
  Forall (fun x => lo <= f x <= hi) l ->
  forall acc,
    acc + lo * array_length l
    <= fold_left (fun sum x => sum + f x) l acc
    <= acc + hi * array_length l.
Proof.
  unfold array_length.
  induction 1 as [|x l [Hlo Hhi] _ IH]; intros acc; cbn [fold_left length].
  - change (inject_Z (Z.of_nat 0)) with 0. lra.
  - specialize (IH (acc + f x)).
    rewrite Nat2Z.inj_succ, <- Z.add_1_r, inject_Z_plus.
    change (inject_Z 1) with 1. lra.
Qed.

Lemma array_length_positive {A} (l : list A) : l <> [] -> 0 < array_length l.
Proof.
  intros Hne. unfold array_length. destruct l as [|x l]; [done|].
  change 0 with (inject_Z 0). rewrite <- Zlt_Qlt. simpl. lia.
Qed.

Lemma mean_in_range (votes : list Vote) :
  votes <> [] ->
  Forall (fun v => 1 <= v_score v <= 5) votes ->
  1 <= fold_left (fun sum vote => sum + v_score vote) votes 0
       / array_length votes <= 5.
Proof.
  intros Hne Hr.
  pose proof (array_length_positive _ Hne) as Hn.
  pose proof (fold_left_sum_bounds v_score 1 5 _ Hr 0) as [Hlo Hhi].
  split.
  - apply Qle_shift_div_l; [exact Hn | lra].
  - apply Qle_shift_div_r; [exact Hn | lra].
Qed.

Lemma pre_save_publicVotes_eq s :
  sub_votes s <> [] ->
  sub_publicVotes (Submission_pre_save s)
  = fold_left (fun sum vote => sum + v_score vote) (sub_votes s) 0
    / array_length (sub_votes s).
Proof.
  intros Hne. unfold Submission_pre_save, array_length.
  destruct (0 <? length (sub_scores s))%nat;
    cbn [sub_votes set_averageScore set_totalScore];
    destruct (sub_votes s) as [|v l]; try done.
Qed.

(** With at least one vote the hook stores the arithmetic mean of the
    votes as [voting.publicVotes]; the mean of votes within 1..5 lies
    within 1..5. *)
Theorem pre_save_publicVotes_is_mean s :
  sub_votes s <> [] ->
  Forall (fun v => 1 <= v_score v <= 5) (sub_votes s) ->
  sub_publicVotes (Submission_pre_save s)
  = fold_left (fun sum vote => sum + v_score vote) (sub_votes s) 0
    / array_length (sub_votes s) /\
  1 <= sub_publicVotes (Submission_pre_save s) <= 5.
Proof.
  intros Hne Hr. split; [by apply pre_save_publicVotes_eq|].
  rewrite pre_save_publicVotes_eq by done. by apply mean_in_range.
Qed.

Lemma pre_save_publicVotes_witness :
  sub_publicVotes (Submission_pre_save submission_11) == 9 # 2 /\
  1 <= sub_publicVotes (Submission_pre_save submission_11) <= 5.
Proof.
  destruct (pre_save_publicVotes_is_mean submission_11) as [Heq Hr].
  - discriminate.
  - repeat constructor; by vm_compute.
  - split; [|exact Hr]. rewrite Heq. reflexivity.
Defined.

(** Saving twice in a row is saving once: the hook changes nothing on a
    document it has already passed over. *)
Theorem pre_save_idempotent s :
  Submission_pre_save (Submission_pre_save s) = Submission_pre_save s.
Proof.
  destruct s as [i e t m scores total avg js pv votes st fb].
  unfold Submission_pre_save.
  destruct scores as [|r scores]; destruct votes as [|v votes]; reflexivity.
Qed.

(* ===================================================================== *)
(** ** Refused requests *)
(* ===================================================================== *)

(** Closes a branch of a handler that has answered. *)
Ltac answered :=
  intros [= <- <-]; eexists; split;
  [reflexivity
  |let H := fresh in
   intros H; try reflexivity; exfalso; apply H; reflexivity].

(** Runs the recomputation that a handler ends with. *)
Ltac recomputed :=
  match goal with |- context [updateEventLeaderboard ?e ?w0] =>
    let w1 := fresh "w" in let lb := fresh "lb" in
    destruct (updateEventLeaderboard_frame e w0) as (w1 & lb & -> & _);
    cbv beta iota
  end.

(** The vote route never throws, and every answer other than 200 (score
    out of range, unknown submission, voting closed, missing event) leaves
    the world exactly as it was. *)
Theorem post_vote_refusal_writes_nothing id user score w w' r :
  post_vote id user score w = (w', r) ->
  exists resp, r = inr resp /\ (res_status resp <> 200%nat -> w' = w).
Proof.
  unfold post_vote.
  destruct (Qltb score 1 || Qltb 5 score); run; [answered|].
  destruct (db_submissions (w_db w) !! id) as [submission|];
    cbv beta iota; [|answered].
  destruct (db_events (w_db w) !! sub_event submission) as [event|];
    cbv beta iota; [|answered].
  destruct (negb (EventStatus_eqb (ev_status event) ev_judging)
            && negb (EventStatus_eqb (ev_status event) completed));
    cbv beta iota; [answered|].
  destruct (list_find _ (sub_votes submission)) as [[i existingVote]|];
    cbv beta iota; cbn [w_db w_clock w_reads]; recomputed; answered.
Qed.

Lemma post_vote_refusal_witness :
  exists resp,
    snd (post_vote 10 7 9 judging_world) = inr resp /\
    (res_status resp <> 200%nat ->
     fst (post_vote 10 7 9 judging_world) = judging_world).
Proof.
  apply (post_vote_refusal_writes_nothing 10 7 9 judging_world).
  reflexivity.
Defined.

(** The judge route never throws, and every answer other than 200 (unknown
    submission, caller neither judge nor organizer, missing event, a
    record without a judge) leaves the world exactly as it was. *)
Theorem post_judge_refusal_writes_nothing id user scores feedback w w' r :
  post_judge id user scores feedback w = (w', r) ->
  exists resp, r = inr resp /\ (res_status resp <> 200%nat -> w' = w).
Proof.
  unfold post_judge. run.
  destruct (db_submissions (w_db w) !! id) as [submission|];
    cbv beta iota; [|answered].
  destruct (db_events (w_db w) !! sub_event submission) as [event|];
    cbv beta iota; [|answered].
  destruct (negb (bool_decide (user ∈ ev_judges event)
                  || bool_decide (ev_organizer event = user)));
    cbv beta iota; [answered|].
  destruct (decide (Exists (fun r0 => sc_judge r0 = None)
                           (sub_scores submission))) as [Hex | Hall].
  - rewrite (filter_other_judges_throws user _ w Hex). answered.
  - rewrite (filter_other_judges_runs user _ w).
    2: { apply Forall_forall. intros r0 Hin.
         destruct (sc_judge r0) as [j|] eqn:Hj; [by eexists|].
         exfalso. apply Hall. apply Exists_exists. by exists r0. }
    rewrite push_judge_scores_runs. cbn [w_db w_clock w_reads].
    destruct (truthy_string feedback); cbv beta iota;
      cbn [w_db w_clock w_reads]; recomputed; answered.
Qed.

Lemma post_judge_refusal_witness :
  exists resp,
    snd (post_judge 10 7 [] None judging_world) = inr resp /\
    (res_status resp <> 200%nat ->
     fst (post_judge 10 7 [] None judging_world) = judging_world).
Proof.
  apply (post_judge_refusal_writes_nothing 10 7 [] None judging_world).
  reflexivity.
Defined.

(** The delete route never throws, and every answer other than 200
    (unknown submission, caller neither team leader nor organizer, missing
    team or event) leaves the world exactly as it was. *)
Theorem delete_submission_refusal_writes_nothing id user w w' r :
  delete_submission id user w = (w', r) ->
  exists resp, r = inr resp /\ (res_status resp <> 200%nat -> w' = w).
Proof.
  unfold delete_submission. run.
  destruct (db_submissions (w_db w) !! id) as [submission|];
    cbv beta iota; [|answered].
  destruct (db_teams (w_db w) !! sub_team submission) as [team|];
    cbv beta iota; [|answered].
  destruct (db_events (w_db w) !! sub_event submission) as [event|];
    cbv beta iota; [|answered].
  destruct (negb (bool_decide (tm_leader team = user))
            && negb (bool_decide (ev_organizer event = user)));
    cbv beta iota; [answered|].
  cbn [w_db w_clock w_reads db_events db_submissions db_teams].
  destruct (db_events (w_db w) !! ev_id event) as [event0|];
    cbv beta iota; cbn [w_db w_clock w_reads db_events db_submissions db_teams];
    recomputed; answered.
Qed.

Lemma delete_submission_refusal_witness :
  exists resp,
    snd (delete_submission 10 7 judging_world) = inr resp /\
    (res_status resp <> 200%nat ->
     fst (delete_submission 10 7 judging_world) = judging_world).
Proof.
  apply (delete_submission_refusal_writes_nothing 10 7 judging_world).
  reflexivity.
Defined.

(* ===================================================================== *)
(** ** More about [updateEventLeaderboard] *)
(* ===================================================================== *)

Lemma collect_eligible_fails subs : forall acc w,
  Exists (fun s => eligible s = true /\ db_teams (w_db w) !! sub_team s = None)
         subs ->
  exists w' e, collect_eligible subs acc w = (w', inl e) /\ w_db w' = w_db w.
Proof.
  induction subs as [|s subs IH]; intros acc w Hex.
  - by apply Exists_nil in Hex.
  - cbn [collect_eligible]. fold (eligible s).
    destruct (eligible s) eqn:El; run.
    + destruct (db_teams (w_db w) !! sub_team s) as [t|] eqn:Ht; cbv beta iota.
      * apply Exists_cons in Hex as [[_ Hs] | Hex]; [congruence|].
        match goal with |- context [collect_eligible subs ?a ?w0] =>
          destruct (IH a w0 Hex) as (w' & e & -> & Hd)
        end. by exists w', e.
      * by exists w, TypeError.
    + apply Exists_cons in Hex as [[Hs _] | Hex]; [congruence|].
      destruct (IH acc w Hex) as (w' & e & -> & Hd). by exists w', e.
Qed.

(** A recomputation that cannot complete, because the event is unknown or
    because a submission it has to list has lost its team, answers with the
    empty list and leaves the database, the old leaderboard included, as
    it was. *)
Theorem updateEventLeaderboard_failure_keeps_db eventId w :
  db_events (w_db w) !! eventId = None \/
  (exists event s,
     db_events (w_db w) !! eventId = Some event /\
     s ∈ populated (w_db w) event /\ eligible s = true /\
     db_teams (w_db w) !! sub_team s = None) ->
  exists w', updateEventLeaderboard eventId w = (w', inr []) /\
             w_db w' = w_db w.
Proof.
  intros [Hnone | (event & s & He & Hin & Hel & Hteam)];
    unfold updateEventLeaderboard; run.
  - rewrite Hnone. by exists w.
  - rewrite He. cbv beta iota. fold (populated (w_db w) event).
    destruct (collect_eligible_fails (populated (w_db w) event) [] w)
      as (w' & e & -> & Hd).
    { apply Exists_exists. by exists s. }
    by exists w'.
Qed.

Lemma updateEventLeaderboard_failure_witness :
  exists w', updateEventLeaderboard 2 judging_world = (w', inr []) /\
             w_db w' = w_db judging_world.
Proof.
  apply (updateEventLeaderboard_failure_keeps_db 2 judging_world).
  left. reflexivity.
Defined.

(** Sorting by a key commutes with a map that keeps the key. *)
Lemma sort_insert_fmap {A B} (f : A -> B) (key : B -> Q) x l :
  f <$> sort_insert (desc (key ∘ f)) x l
  = sort_insert (desc key) (f x) (f <$> l).
Proof.
  induction l as [|y l IH]; [reflexivity|].
  cbn [sort_insert fmap list_fmap]. unfold desc at 1 3. cbn [compose].
  destruct (Qltb 0 (key (f y) - key (f x))); cbn [fmap list_fmap];
    [by rewrite <- IH | reflexivity].
Qed.

Lemma Array_sort_fmap {A B} (f : A -> B) (key : B -> Q) l :
  f <$> Array_sort (desc (key ∘ f)) l = Array_sort (desc key) (f <$> l).
Proof.
  induction l as [|x l IH]; [reflexivity|].
  cbn [Array_sort foldr fmap list_fmap].
  fold (Array_sort (desc (key ∘ f)) l). fold (Array_sort (desc key) (f <$> l)).
  by rewrite sort_insert_fmap, IH.
Qed.

(** The (submission, score) sequence of a recomputed leaderboard is the
    stable descending sort of the candidates. *)
Lemma recomputed_standings_sorted d subs raw :
  Forall2 (entry_of d) subs raw ->
  standings (assign_ranks (Array_sort by_totalScore_desc raw))
  = Array_sort (desc snd) ((fun s => (sub_id s, combinedScore s)) <$> subs).
Proof.
  intros Hraw. apply standings_raw in Hraw.
  rewrite standings_assign_ranks, <- Hraw. unfold standings.
  apply (Array_sort_fmap (fun e => (le_submission e, le_totalScore e)) snd).
Qed.

(** Recomputing twice in a row gives the same leaderboard: the same
    submissions with the same scores in the same order under the same
    ranks.  The leaderboard that was stored before plays no part. *)
Theorem updateEventLeaderboard_twice_same_standings eventId w event :
  db_events (w_db w) !! eventId = Some event ->
  ev_id event = eventId ->
  teams_present (w_db w) (populated (w_db w) event) ->
  exists w1 lb1 w2 lb2,
    updateEventLeaderboard eventId w = (w1, inr lb1) /\
    updateEventLeaderboard eventId w1 = (w2, inr lb2) /\
    standings lb1 = Array_sort (desc snd) (candidates (w_db w) event) /\
    standings lb2 = standings lb1 /\
    le_rank <$> lb2 = le_rank <$> lb1.
Proof.
  intros He Hid Ht.
  destruct (updateEventLeaderboard_runs eventId w event He Ht)
    as (w1 & raw1 & Hrun1 & Hraw1 & Hev1 & Hsub1 & Hteam1).
  set (lb1 := assign_ranks (Array_sort by_totalScore_desc raw1)) in *.
  assert (He1 : db_events (w_db w1) !! eventId = Some (set_leaderboard lb1 event))
    by (by rewrite Hev1, Hid, lookup_insert_eq).
  assert (Hpop : populated (w_db w1) (set_leaderboard lb1 event)
                 = populated (w_db w) event)
    by (unfold populated; by rewrite Hsub1).
  assert (Ht1 : teams_present (w_db w1)
                  (populated (w_db w1) (set_leaderboard lb1 event))).
  { rewrite Hpop. unfold teams_present in *. by rewrite Hteam1. }
  destruct (updateEventLeaderboard_runs eventId w1 _ He1 Ht1)
    as (w2 & raw2 & Hrun2 & Hraw2 & _).
  rewrite Hpop in Hraw2.
  exists w1, lb1, w2, (assign_ranks (Array_sort by_totalScore_desc raw2)).
  split; [exact Hrun1|]. split; [exact Hrun2|].
  apply recomputed_standings_sorted in Hraw1 as Hs1.
  apply recomputed_standings_sorted in Hraw2 as Hs2.
  split; [exact Hs1|]. split; [by rewrite Hs2, <- Hs1|].
  subst lb1. rewrite !assign_ranks_rank.
  rewrite by_totalScore_desc_eq, !Array_sort_length.
  apply Forall2_length in Hraw1, Hraw2. by rewrite <- Hraw1, <- Hraw2.
Qed.

Lemma updateEventLeaderboard_twice_witness :
  exists w1 lb1 w2 lb2,
    updateEventLeaderboard 1 ranking_world = (w1, inr lb1) /\
    updateEventLeaderboard 1 w1 = (w2, inr lb2) /\
    standings lb1 = Array_sort (desc snd) (candidates ranking_db ranking_event) /\
    standings lb2 = standings lb1 /\
    le_rank <$> lb2 = le_rank <$> lb1.
Proof.
  apply (updateEventLeaderboard_twice_same_standings
           1 ranking_world ranking_event).
  - reflexivity.
  - reflexivity.
  - exact ranking_world_teams_present.
Defined.

(* ===================================================================== *)
(** ** More about the routes of [server/routes/events.js] *)
(* ===================================================================== *)

(** The HTTP fetch of a leaderboard never delivers one.  For a stored
    event the handler sorts and renumbers the loaded leaderboard and
    saves the event, but the document was loaded with
    [.select('leaderboard title')] and the hook of the schema, which
    reads [this.participants.length], throws: the answer is 500 whatever
    the leaderboard holds.  For an unknown event the answer is 404.  In
    both cases the world is left as it was. *)
Theorem get_leaderboard_never_answers id w :
  exists resp,
    get_leaderboard id w = (w, inr resp) /\
    res_status resp <> 200%nat /\
    (is_Some (db_events (w_db w) !! id) -> res_status resp = 500%nat) /\
    (db_events (w_db w) !! id = None -> res_status resp = 404%nat).
Proof.
  eexists. split; [apply get_leaderboard_runs|].
  cbn [res_status].
  destruct (db_events (w_db w) !! id) as [event|]; cbn [defined].
  - split; [discriminate|]. split; [done|discriminate].
  - split; [discriminate|]. split; [by intros [? ?]|done].
Qed.

(** What [autoJudge] leaves alone: events, teams and the id of the
    document; and it never throws. *)
Lemma autoJudge_frame this w :
  exists w' r,
    autoJudge this w = (w', inr r) /\
    db_events (w_db w') = db_events (w_db w) /\
    db_teams (w_db w') = db_teams (w_db w) /\
    sub_id (after_autoJudge this r) = sub_id this /\
    (db_submissions (w_db w') = db_submissions (w_db w) /\ r = AJ_undefined \/
     db_submissions (w_db w')
     = <[sub_id this := after_autoJudge this r]> (db_submissions (w_db w)) /\
     sub_judging_status (after_autoJudge this r) = judged).
Proof.
  eexists _, _. split; [apply autoJudge_runs_any|].
  cbn [w_db db_events db_teams db_submissions after_autoJudge].
  match goal with |- context [Submission_pre_save ?s] =>
    destruct (Submission_pre_save_keeps s)
      as (-> & _ & _ & _ & _ & -> & _)
  end.
  repeat split. right. by split.
Qed.


Lemma after_autoJudge_keeps_team this w w' r :
  autoJudge this w = (w', inr r) ->
  sub_team (after_autoJudge this r) = sub_team this.
Proof.
  rewrite (autoJudge_runs_any this w). intros [= <- <-].
  cbn [after_autoJudge].
  match goal with |- context [Submission_pre_save ?s] =>
    by destruct (Submission_pre_save_keeps s) as (_ & _ & -> & _)
  end.
Qed.






(* ===================================================================== *)
(** ** More about the vote, judge and delete routes *)
(* ===================================================================== *)

Lemma votes_after_in_range user score now votes :
  1 <= score <= 5 ->
  Forall (fun v => 1 <= v_score v <= 5) votes ->
  votes_after user score now votes <> [] /\
  Forall (fun v => 1 <= v_score v <= 5) (votes_after user score now votes).
Proof.
  intros Hs Hr. unfold votes_after.
  destruct (list_find _ votes) as [[i v]|] eqn:Hf.
  - apply list_find_Some in Hf as (Hi & _). split.
    + intros Hnil. apply (f_equal length) in Hnil.
      rewrite length_insert in Hnil. apply lookup_lt_Some in Hi.
      simpl in Hnil. lia.
    + apply Forall_insert; [exact Hr | exact Hs].
  - split; [by destruct votes|].
    apply Forall_app. split; [exact Hr|]. constructor; [exact Hs | constructor].
Qed.

(** A vote whose score is a number within 1..5, cast while voting is
    open on a submission whose stored votes lie within 1..5, is accepted
    and keeps every stored vote of the submission within 1..5; the
    average that the route answers is the stored [publicVotes], the mean
    of the stored votes, again within 1..5. *)
Theorem post_vote_average_in_range id user score w submission event :
  db_submissions (w_db w) !! id = Some submission ->
  db_events (w_db w) !! sub_event submission = Some event ->
  ev_status event = ev_judging \/ ev_status event = completed ->
  1 <= score <= 5 ->
  Forall (fun v => 1 <= v_score v <= 5) (sub_votes submission) ->
  exists w' average s',
    post_vote id user score w
    = (w', inr (mkResponse 200
                  (MessageAverage "Vote submitted successfully" average))) /\
    db_submissions (w_db w') !! sub_id submission = Some s' /\
    Forall (fun v => 1 <= v_score v <= 5) (sub_votes s') /\
    sub_publicVotes s' = average /\
    average = fold_left (fun sum vote => sum + v_score vote) (sub_votes s') 0
              / array_length (sub_votes s') /\
    1 <= average <= 5.
Proof.
  intros Hs He Hst Hscore Hr.
  destruct (post_vote_runs id user score w submission event Hs He Hst Hscore)
    as (w' & Hrun & Hdb & _).
  destruct (votes_after_in_range user score (w_clock w (w_reads w))
              (sub_votes submission) Hscore Hr) as [Hne Hr'].
  eexists w', _, _. split; [exact Hrun|].
  split; [by rewrite Hdb, lookup_insert_eq|].
  match goal with |- context [Submission_pre_save ?s] =>
    set (s0 := s) in *;
    assert (Hv : sub_votes s0 = votes_after user score (w_clock w (w_reads w))
                                  (sub_votes submission)) by reflexivity;
    destruct (Submission_pre_save_keeps s0)
      as (_ & _ & _ & _ & _ & _ & Hk & _)
  end.
  rewrite Hk, Hv. split; [exact Hr'|]. split; [reflexivity|].
  rewrite pre_save_publicVotes_eq by (by rewrite Hv). rewrite Hv.
  split; [reflexivity | by apply mean_in_range].
Qed.

Lemma post_vote_average_witness :
  exists w' average s',
    post_vote 10 7 5 voted_world
    = (w', inr (mkResponse 200
                  (MessageAverage "Vote submitted successfully" average))) /\
    db_submissions (w_db w') !! 10%positive = Some s' /\
    Forall (fun v => 1 <= v_score v <= 5) (sub_votes s') /\
    sub_publicVotes s' = average /\
    average = fold_left (fun sum vote => sum + v_score vote) (sub_votes s') 0
              / array_length (sub_votes s') /\
    1 <= average <= 5.
Proof.
  apply (post_vote_average_in_range 10 7 5 voted_world
           voted_submission judging_event).
  - reflexivity.
  - reflexivity.
  - left. reflexivity.
  - split; by vm_compute.
  - repeat constructor; by vm_compute.
Defined.

(** What the judge route saves and answers, with the hook in view. *)
Lemma post_judge_saved id user scores feedback w submission event :
  db_submissions (w_db w) !! id = Some submission ->
  db_events (w_db w) !! sub_event submission = Some event ->
  user ∈ ev_judges event \/ ev_organizer event = user ->
  Forall (fun r => is_Some (sc_judge r)) (sub_scores submission) ->
  exists w' s0,
    post_judge id user scores feedback w
    = (w', inr (mkResponse 200
                  (MessageTotal "Submission judged successfully"
                     (sub_totalScore (Submission_pre_save s0))))) /\
    db_submissions (w_db w')
    = <[sub_id submission := Submission_pre_save s0]> (db_submissions (w_db w)) /\
    sub_scores s0
    = List.filter (by_other_judge user) (sub_scores submission)
      ++ zip_with (judge_record user) scores
           (w_clock w <$> seq (w_reads w) (length scores)).
Proof.
  intros Hs He Hauth Hj.
  assert (Hgate :
    negb (bool_decide (user ∈ ev_judges event)
          || bool_decide (ev_organizer event = user)) = false).
  { destruct Hauth as [H|H].
    - by rewrite (bool_decide_eq_true_2 _ H).
    - rewrite (bool_decide_eq_true_2 _ H). by rewrite orb_true_r. }
  unfold post_judge. run.
  rewrite Hs; cbv beta iota. rewrite He; cbv beta iota.
  rewrite Hgate; cbv beta iota.
  rewrite (filter_other_judges_runs user _ w Hj).
  rewrite push_judge_scores_runs. cbn [w_db w_clock w_reads].
  destruct (truthy_string feedback);
    cbn [w_db w_clock w_reads db_submissions db_events db_teams];
    match goal with |- context [updateEventLeaderboard ?e ?w0] =>
      destruct (updateEventLeaderboard_frame e w0)
        as (w' & lb & -> & Hsub & _)
    end;
    cbn in Hsub;
    match type of Hsub with context [Submission_pre_save ?s] =>
      destruct (Submission_pre_save_keeps s) as (Hk1 & _);
      exists w', s
    end;
    rewrite Hk1 in Hsub;
    (split; [reflexivity|]); (split; [exact Hsub|]); reflexivity.
Qed.

(** A judge who submits at least one score gets the aggregates right: the
    stored [totalScore], which is also the answer of the route, is the
    plain sum of all stored score records, and the stored [averageScore]
    is that sum divided by their number. *)
Theorem post_judge_total_is_sum id user scores feedback w submission event :
  db_submissions (w_db w) !! id = Some submission ->
  db_events (w_db w) !! sub_event submission = Some event ->
  user ∈ ev_judges event \/ ev_organizer event = user ->
  Forall (fun r => is_Some (sc_judge r)) (sub_scores submission) ->
  scores <> [] ->
  exists w' total s',
    post_judge id user scores feedback w
    = (w', inr (mkResponse 200
                  (MessageTotal "Submission judged successfully" total))) /\
    db_submissions (w_db w') !! sub_id submission = Some s' /\
    sub_totalScore s' = total /\
    total = sum_of_scores s' /\
    sub_averageScore s' = sum_of_scores s' / array_length (sub_scores s').
Proof.
  intros Hs He Hauth Hj Hne.
  destruct (post_judge_saved id user scores feedback w submission event
              Hs He Hauth Hj) as (w' & s0 & Hrun & Hdb & Hscores).
  eexists w', _, _. split; [exact Hrun|].
  split; [by rewrite Hdb, lookup_insert_eq|]. split; [reflexivity|].
  assert (Hne0 : sub_scores s0 <> []).
  { rewrite Hscores. intros Hnil. apply (f_equal length) in Hnil.
    rewrite length_app, length_zip_with, length_fmap, length_seq in Hnil.
    destruct scores; [done|]. simpl in Hnil. lia. }
  destruct (Submission_pre_save_some_scores s0 Hne0) as (Hk & Ht & Ha).
  unfold sum_of_scores in *. rewrite Hk. by split.
Qed.

Lemma post_judge_total_witness :
  exists w' total s',
    post_judge 10 5 [mkScoreData "Design" 60 None None;
                     mkScoreData "UX" 50 None None] None judged_world
    = (w', inr (mkResponse 200
                  (MessageTotal "Submission judged successfully" total))) /\
    db_submissions (w_db w') !! 10%positive = Some s' /\
    sub_totalScore s' = total /\
    total = sum_of_scores s' /\
    sub_averageScore s' = sum_of_scores s' / array_length (sub_scores s').
Proof.
  apply (post_judge_total_is_sum 10 5
           [mkScoreData "Design" 60 None None; mkScoreData "UX" 50 None None]
           None judged_world judged_submission judging_event).
  - reflexivity.
  - reflexivity.
  - left. apply list_elem_of_singleton. reflexivity.
  - repeat constructor; by eexists.
  - discriminate.
Defined.

Lemma auto_records_no_judge (table : list (string * Q)) (ts : list Date) :
  Forall (fun r => sc_judge r = None) (zip_with auto_record table ts).
Proof.
  revert ts. induction table as [|p table IH]; intros [|t ts];
    simpl; constructor; auto.
Qed.

(** Once [autoJudge] has stored at least one record for a submission, the
    judge route is closed for it: the records carry no judge, the filter
    of the route throws on the first of them, and every judge request is
    answered with 500 and writes nothing. *)
Theorem judge_after_autoJudge_fails this metadata w user scores feedback event :
  sub_metadata this = Some metadata ->
  expected_scores metadata <> [] ->
  db_events (w_db w) !! sub_event this = Some event ->
  user ∈ ev_judges event \/ ev_organizer event = user ->
  exists w1 this1,
    autoJudge this w = (w1, inr (AJ_saved this1)) /\
    sub_scores this1 <> [] /\
    post_judge (sub_id this) user scores feedback w1
    = (w1, inr (mkResponse 500 (Message "Server error"))).
Proof.
  intros Hm Hne He Hauth.
  eexists _, _. split; [by apply autoJudge_runs|].
  match goal with |- context [Submission_pre_save ?s] =>
    set (s0 := s);
    destruct (Submission_pre_save_keeps s0)
      as (_ & Hevent & _ & _ & Hk & _)
  end.
  assert (Hscores : sub_scores (Submission_pre_save s0)
    = zip_with auto_record (expected_scores metadata)
        (w_clock w <$> seq (w_reads w) (length (expected_scores metadata))))
    by (by rewrite Hk).
  assert (Hne' : sub_scores (Submission_pre_save s0) <> []).
  { rewrite Hscores. intros Hnil. apply (f_equal length) in Hnil.
    rewrite length_zip_with, length_fmap, length_seq, Nat.min_id in Hnil.
    by destruct (expected_scores metadata). }
  split; [exact Hne'|].
  apply post_judge_unjudged_record
    with (submission := Submission_pre_save s0) (event := event).
  - cbn [w_db db_submissions]. apply lookup_insert_eq.
  - cbn [w_db db_events]. by rewrite Hevent.
  - exact Hauth.
  - pose proof (auto_records_no_judge (expected_scores metadata)
      (w_clock w <$> seq (w_reads w) (length (expected_scores metadata)))) as Hall.
    rewrite <- Hscores in Hall.
    destruct (sub_scores (Submission_pre_save s0)) as [|r l]; [done|].
    apply Forall_cons in Hall as [Hr _]. by left.
Qed.

Lemma judge_after_autoJudge_witness :
  exists w1 this1,
    autoJudge scenario_submission scenario_world = (w1, inr (AJ_saved this1)) /\
    sub_scores this1 <> [] /\
    post_judge 10 5 [mkScoreData "Design" 60 None None] None w1
    = (w1, inr (mkResponse 500 (Message "Server error"))).
Proof.
  apply (judge_after_autoJudge_fails scenario_submission scenario_metadata
           scenario_world 5 [mkScoreData "Design" 60 None None] None
           judging_event).
  - reflexivity.
  - discriminate.
  - reflexivity.
  - left. apply list_elem_of_singleton. reflexivity.
Defined.

(** The criteria of [autoJudge], in the order in which it tests them. *)
Lemma expected_scores_criteria (m : Metadata) :
  fst <$> expected_scores m
  `sublist_of` ["Innovation"; "Technical Complexity"; "Completeness";
                "Documentation"; "Presentation"]%string.
Proof.
  unfold expected_scores, metric.
  destruct (truthy (md_innovation m));
    destruct (truthy (md_linesOfCode m));
    destruct (truthy (md_completeness m));
    destruct (truthy (md_documentation m));
    destruct (truthy (md_presentation m));
    cbn [app fmap list_fmap fst];
    repeat first [apply sublist_nil | apply sublist_skip | apply sublist_cons].
Qed.

(** The records that [autoJudge] stores name a selection of the five
    criteria in their fixed order, so at most five records and no
    criterion twice, and none of them names a judge. *)
Theorem autoJudge_criteria_fixed_order this metadata w :
  sub_metadata this = Some metadata ->
  exists w' this',
    autoJudge this w = (w', inr (AJ_saved this')) /\
    sc_criterion <$> sub_scores this'
    `sublist_of` ["Innovation"; "Technical Complexity"; "Completeness";
                  "Documentation"; "Presentation"]%string /\
    NoDup (sc_criterion <$> sub_scores this') /\
    (length (sub_scores this') <= 5)%nat /\
    Forall (fun r => sc_judge r = None) (sub_scores this').
Proof.
  intros Hm. eexists _, _. split; [by apply autoJudge_runs|].
  match goal with |- context [Submission_pre_save ?s] =>
    destruct (Submission_pre_save_keeps s) as (_ & _ & _ & _ & -> & _)
  end.
  cbn [set_judging_status set_scores sub_scores].
  assert (Hsub : sc_criterion <$>
      zip_with auto_record (expected_scores metadata)
        (w_clock w <$> seq (w_reads w) (length (expected_scores metadata)))
    `sublist_of` ["Innovation"; "Technical Complexity"; "Completeness";
                  "Documentation"; "Presentation"]%string).
  { replace (sc_criterion <$> _) with (fst <$> expected_scores metadata);
      [apply expected_scores_criteria|].
    rewrite <- (auto_records_table (expected_scores metadata)
                  (w_clock w <$> seq (w_reads w)
                     (length (expected_scores metadata)))) at 1
      by (by rewrite length_fmap, length_seq).
    by rewrite <- list_fmap_compose. }
  split; [exact Hsub|]. split; [|split].
  - eapply sublist_NoDup; [|exact Hsub].
    apply (bool_decide_unpack _). reflexivity.
  - apply sublist_length in Hsub. by rewrite length_fmap in Hsub.
  - apply auto_records_no_judge.
Qed.

Lemma autoJudge_criteria_witness :
  exists w' this',
    autoJudge scenario_submission scenario_world = (w', inr (AJ_saved this')) /\
    sc_criterion <$> sub_scores this'
    `sublist_of` ["Innovation"; "Technical Complexity"; "Completeness";
                  "Documentation"; "Presentation"]%string /\
    NoDup (sc_criterion <$> sub_scores this') /\
    (length (sub_scores this') <= 5)%nat /\
    Forall (fun r => sc_judge r = None) (sub_scores this').
Proof.
  apply (autoJudge_criteria_fixed_order
           scenario_submission scenario_metadata scenario_world).
  reflexivity.
Defined.

(** The delete route at work: the leader of team 20 deletes submission 10
    after a judge has scored it. *)
Lemma delete_submission_witness :
  exists w',
    delete_submission 10 30 judged_world
    = (w', inr (mkResponse 200 (Message "Submission deleted successfully"))) /\
    db_submissions (w_db w') = delete 10%positive (db_submissions (w_db judged_world)) /\
    10%positive ∉ le_submission <$> stored_leaderboard (w_db w') 1.
Proof.
  apply (delete_submission_unlists 10 30 judged_world judged_submission
           (mkTeam 20 30 (Some 10%positive)) judging_event).
  - reflexivity.
  - reflexivity.
  - reflexivity.
  - reflexivity.
  - left. reflexivity.
  - intros id s H. cbn in H. apply lookup_singleton_Some in H as [<- <-].
    reflexivity.
  - repeat constructor. intros _. by eexists.
Defined.

(* ===================================================================== *)
(** ** The phases of an event *)
(* ===================================================================== *)

Lemma phase_route_spec status message id user w w' r :
  phase_route status message id user w = (w', r) ->
  exists resp,
    r = inr resp /\
    (er_status resp <> 200%nat -> w' = w) /\
    (er_status resp = 200%nat ->
     exists event,
       db_events (w_db w) !! id = Some event /\
       ev_organizer event = user /\
       resp = mkEventResponse 200 message
                (Some (set_event_status status event)) /\
       w_db w'
       = mkDb (<[ev_id event := set_event_status status event]>
                 (db_events (w_db w)))
              (db_submissions (w_db w)) (db_teams (w_db w))).
Proof.
  unfold phase_route. run.
  destruct (db_events (w_db w) !! id) as [event|] eqn:He; cbv beta iota.
  2: { intros [= <- <-]. eexists. split; [reflexivity|]. by split. }
  destruct (bool_decide (ev_organizer event <> user)) eqn:Hg; cbv beta iota.
  { intros [= <- <-]. eexists. split; [reflexivity|]. by split. }
  apply bool_decide_eq_false_1 in Hg.
  intros [= <- <-]. eexists. split; [reflexivity|].
  split; [intros Hn; by exfalso; apply Hn|].
  intros _. exists event. split; [reflexivity|].
  split; [|by split]. by destruct (decide (ev_organizer event = user)).
Qed.

(** The three phase routes never throw.  Each writes only when the caller
    is the organizer of a stored event, and then it sets the status of
    that event, [active], [judging] or [completed], whatever status the
    event had, and changes nothing else; every other answer leaves the
    world as it was. *)
Theorem phase_routes_organizer_only id user w :
  forall route status message,
    (route, status, message)
    ∈ [(post_start, active, "Event started successfully"%string);
       (post_end, ev_judging, "Event moved to judging phase"%string);
       (post_complete, completed, "Event completed successfully"%string)] ->
    exists w' resp,
      route id user w = (w', inr resp) /\
      (er_status resp <> 200%nat -> w' = w) /\
      (er_status resp = 200%nat ->
       exists event,
         db_events (w_db w) !! id = Some event /\
         ev_organizer event = user /\
         er_event resp = Some (set_event_status status event) /\
         w_db w'
         = mkDb (<[ev_id event := set_event_status status event]>
                   (db_events (w_db w)))
                (db_submissions (w_db w)) (db_teams (w_db w))).
Proof.
  intros route status message Hin.
  assert (Hroute : route = phase_route status message).
  { repeat (apply elem_of_cons in Hin as [[= -> -> ->] | Hin]; [reflexivity|]).
    by apply elem_of_nil in Hin. }
  subst route.
  destruct (phase_route status message id user w) as [w' r] eqn:Hrun.
  destruct (phase_route_spec _ _ _ _ _ _ _ Hrun) as (resp & -> & Hno & Hyes).
  exists w', resp. split; [reflexivity|]. split; [exact Hno|].
  intros H200. destruct (Hyes H200) as (event & He & Horg & -> & Hdb).
  exists event. by repeat split.
Qed.

Lemma phase_routes_witness :
  exists w' resp,
    post_complete 1 100 judging_world = (w', inr resp) /\
    er_status resp = 200%nat /\
    (ev_status <$> db_events (w_db w') !! 1%positive) = Some completed.
Proof.
  destruct (phase_routes_organizer_only 1 100 judging_world
              post_complete completed "Event completed successfully")
    as (w' & resp & Hrun & _ & _).
  - apply elem_of_cons. right. apply elem_of_cons. right.
    apply elem_of_cons. left. reflexivity.
  - exists w', resp. split; [exact Hrun|].
    vm_compute in Hrun. injection Hrun as <- <-. split; reflexivity.
Defined.

(** Voting follows the phase.  Once the organizer has ended the event,
    a vote within 1..5 on one of its submissions is accepted; once the
    organizer has started it again, the same vote is refused with 400 and
    writes nothing. *)
Theorem voting_follows_the_phase id organizer sid voter score w event submission :
  db_events (w_db w) !! id = Some event ->
  ev_id event = id ->
  ev_organizer event = organizer ->
  db_submissions (w_db w) !! sid = Some submission ->
  sub_event submission = id ->
  1 <= score <= 5 ->
  exists w1 r1 w2 r2 w3 r3,
    post_end id organizer w = (w1, inr r1) /\ er_status r1 = 200%nat /\
    post_vote sid voter score w1 = (w2, inr r2) /\ res_status r2 = 200%nat /\
    post_start id organizer w1 = (w3, inr r3) /\ er_status r3 = 200%nat /\
    post_vote sid voter score w3
    = (w3, inr (mkResponse 400 (Message "Voting is not open for this event"))).
Proof.
  intros He Hid Horg Hs Hse Hscore.
  assert (Hgate : bool_decide (ev_organizer event <> organizer) = false)
    by (apply bool_decide_eq_false_2; intros Hn; by apply Hn).
  assert (Hend : post_end id organizer w
    = (mkWorld (mkDb (<[id := set_event_status ev_judging event]>
                        (db_events (w_db w)))
                     (db_submissions (w_db w)) (db_teams (w_db w)))
               (w_clock w) (w_reads w),
       inr (mkEventResponse 200 "Event moved to judging phase"
              (Some (set_event_status ev_judging event))))).
  { unfold post_end, phase_route. run. rewrite He; cbv beta iota.
    rewrite Hgate; cbv beta iota. cbn [ev_id set_event_status].
    by rewrite Hid. }
  set (w1 := mkWorld _ _ _) in Hend.
  assert (He1 : db_events (w_db w1) !! id
                = Some (set_event_status ev_judging event))
    by apply lookup_insert_eq.
  assert (Hstart : post_start id organizer w1
    = (mkWorld (mkDb (<[id := set_event_status active
                               (set_event_status ev_judging event)]>
                        (db_events (w_db w1)))
                     (db_submissions (w_db w1)) (db_teams (w_db w1)))
               (w_clock w1) (w_reads w1),
       inr (mkEventResponse 200 "Event started successfully"
              (Some (set_event_status active
                       (set_event_status ev_judging event)))))).
  { unfold post_start, phase_route. run. rewrite He1; cbv beta iota.
    cbn [ev_organizer set_event_status]. rewrite Hgate; cbv beta iota.
    cbn [ev_id set_event_status]. by rewrite Hid. }
  set (w3 := mkWorld _ _ _) in Hstart.
  destruct (post_vote_runs sid voter score w1 submission
              (set_event_status ev_judging event))
    as (w2 & Hvote & _); [exact Hs | by rewrite Hse | by left | exact Hscore |].
  assert (Hlo : Qltb score 1 = false) by (apply Qltb_ge; tauto).
  assert (Hhi : Qltb 5 score = false) by (apply Qltb_ge; tauto).
  eexists w1, _, w2, _, w3, _.
  split; [exact Hend|]. split; [reflexivity|].
  split; [exact Hvote|]. split; [reflexivity|].
  split; [exact Hstart|]. split; [reflexivity|].
  unfold post_vote. rewrite Hlo, Hhi. cbn [orb]. run.
  subst w3 w1. cbn [w_db db_submissions db_events].
  rewrite Hs; cbv beta iota. cbn [w_db db_events].
  rewrite Hse, lookup_insert_eq. reflexivity.
Qed.

Lemma voting_follows_the_phase_witness :
  exists w1 r1 w2 r2 w3 r3,
    post_end 1 100 judging_world = (w1, inr r1) /\ er_status r1 = 200%nat /\
    post_vote 10 7 4 w1 = (w2, inr r2) /\ res_status r2 = 200%nat /\
    post_start 1 100 w1 = (w3, inr r3) /\ er_status r3 = 200%nat /\
    post_vote 10 7 4 w3
    = (w3, inr (mkResponse 400 (Message "Voting is not open for this event"))).
Proof.
  apply (voting_follows_the_phase 1 100 10 7 4 judging_world
           judging_event fresh_submission).
  - reflexivity.
  - reflexivity.
  - reflexivity.
  - reflexivity.
  - reflexivity.
  - split; by vm_compute.
Defined.

(* ===================================================================== *)
(** ** Feedback and analytics *)
(* ===================================================================== *)

(** Feedback on a stored submission, from any user.  With a type of the
    schema's enum ([peer] when the request names none) the route appends
    one record, stamped with the user, the message, the type and the
    time, and answers with it; the score records, the votes and both
    statuses of the submission stay as they are, and no event, hence no
    leaderboard, is written.  With any other type the save is rejected:
    the answer is 500 and the store is left as it was. *)
Theorem post_feedback_appends_one id user message type w submission :
  db_submissions (w_db w) !! id = Some submission ->
  (feedback_type_valid (default "peer"%string type) = true ->
   exists w' s',
     let fb := mkFeedback user message (default "peer"%string type)
                          (w_clock w (w_reads w)) in
     post_feedback id user message type w
     = (w', inr (mkFeedbackResponse 200 "Feedback added successfully" (Some fb))) /\
     db_submissions (w_db w')
     = <[sub_id submission := s']> (db_submissions (w_db w)) /\
     sub_feedback s' = sub_feedback submission ++ [fb] /\
     sub_scores s' = sub_scores submission /\
     sub_votes s' = sub_votes submission /\
     sub_status s' = sub_status submission /\
     sub_judging_status s' = sub_judging_status submission /\
     db_events (w_db w') = db_events (w_db w) /\
     db_teams (w_db w') = db_teams (w_db w)) /\
  (feedback_type_valid (default "peer"%string type) = false ->
   exists w',
     post_feedback id user message type w
     = (w', inr (mkFeedbackResponse 500 "Server error" None)) /\
     w_db w' = w_db w).
Proof.
  intros Hs. split; intros Hv.
  - unfold post_feedback. run. rewrite Hs; cbv beta iota.
    rewrite Hv; cbv beta iota.
    cbn [w_db w_clock w_reads].
    match goal with |- context [Submission_pre_save ?s] =>
      destruct (Submission_pre_save_keeps s)
        as (Hk1 & _ & _ & _ & Hk5 & Hk6 & Hk7 & Hk8 & Hk9);
      exists (mkWorld
                (mkDb (db_events (w_db w))
                      (<[sub_id submission := Submission_pre_save s]>
                         (db_submissions (w_db w)))
                      (db_teams (w_db w)))
                (w_clock w) (S (w_reads w))), (Submission_pre_save s)
    end.
    cbv zeta. rewrite Hk1, Hk9. cbn [set_feedback sub_feedback sub_id].
    rewrite last_snoc. split; [reflexivity|].
    cbn [w_db db_events db_submissions db_teams].
    rewrite Hk5, Hk6, Hk7, Hk8. by repeat split.
  - unfold post_feedback. run. rewrite Hs; cbv beta iota.
    rewrite Hv; cbv beta iota. eexists. split; reflexivity.
Qed.

Lemma post_feedback_witness :
  (exists w' s',
     post_feedback 10 7 "nice" None judged_world
     = (w', inr (mkFeedbackResponse 200 "Feedback added successfully"
                   (Some (mkFeedback 7 "nice" "peer" 0)))) /\
     db_submissions (w_db w') !! 10%positive = Some s' /\
     sub_feedback s' = [mkFeedback 7 "nice" "peer" 0] /\
     sub_scores s' = sub_scores judged_submission) /\
  (exists w',
     post_feedback 10 7 "nice" (Some "praise"%string) judged_world
     = (w', inr (mkFeedbackResponse 500 "Server error" None)) /\
     w_db w' = w_db judged_world).
Proof.
  split.
  - destruct (post_feedback_appends_one 10 7 "nice" None judged_world
                judged_submission eq_refl)
      as [H _].
    destruct (H eq_refl) as (w' & s' & Hrun & Hdb & Hfb & Hsc & _).
    exists w', s'. split; [exact Hrun|].
    split; [by rewrite Hdb, lookup_insert_eq|]. by split.
  - destruct (post_feedback_appends_one 10 7 "nice" (Some "praise"%string)
                judged_world judged_submission eq_refl)
      as [_ H].
    exact (H eq_refl).
Defined.

Lemma vote_distribution_lookup votes i :
  (1 <= i <= 5)%Z ->
  vote_distribution votes !! i
  = Some (length (List.filter
                    (fun v => Qeq_bool (v_score v) (inject_Z i)) votes)).
Proof.
  intros Hi. unfold vote_distribution. cbn [fold_left].
  assert (Hcases : i = 1%Z \/ i = 2%Z \/ i = 3%Z \/ i = 4%Z \/ i = 5%Z) by lia.
  destruct Hcases as [-> | [-> | [-> | [-> | ->]]]];
    repeat first [rewrite lookup_insert_eq; reflexivity
                 | rewrite lookup_insert_ne by done].
Qed.

Lemma vote_distribution_outside votes i :
  ~ (1 <= i <= 5)%Z -> vote_distribution votes !! i = None.
Proof.
  intros Hi. unfold vote_distribution. cbn [fold_left].
  rewrite !lookup_insert_ne by lia. apply lookup_empty.
Qed.

Lemma Qeq_bool_inject_Z_distinct q i j :
  Qeq_bool q (inject_Z i) = true -> Qeq_bool q (inject_Z j) = true -> i = j.
Proof.
  intros Hi Hj. apply Qeq_bool_eq in Hi, Hj.
  apply inject_Z_injective. by rewrite <- Hi, <- Hj.
Qed.

(** The five tests of the distribution loop on one vote: at most one of
    them holds. *)
Lemma one_star_count (v : Vote) :
  (foldr (fun i n =>
            ((if Qeq_bool (v_score v) (inject_Z i) then 1 else 0) + n)%nat)
         0%nat [1; 2; 3; 4; 5]%Z <= 1)%nat /\
  ((exists i, (1 <= i <= 5)%Z /\ v_score v == inject_Z i) ->
   foldr (fun i n =>
            ((if Qeq_bool (v_score v) (inject_Z i) then 1 else 0) + n)%nat)
         0%nat [1; 2; 3; 4; 5]%Z = 1%nat).
Proof.
  cbn [foldr].
  destruct (Qeq_bool (v_score v) (inject_Z 1)) eqn:E1;
    destruct (Qeq_bool (v_score v) (inject_Z 2)) eqn:E2;
    destruct (Qeq_bool (v_score v) (inject_Z 3)) eqn:E3;
    destruct (Qeq_bool (v_score v) (inject_Z 4)) eqn:E4;
    destruct (Qeq_bool (v_score v) (inject_Z 5)) eqn:E5;
    repeat match goal with
           | H1 : Qeq_bool ?q (inject_Z ?i) = true,
             H2 : Qeq_bool ?q (inject_Z ?j) = true |- _ =>
               assert_fails (constr_eq i j);
               by pose proof (Qeq_bool_inject_Z_distinct _ _ _ H1 H2)
           end;
    (split; [simpl; lia|]).
  all: try (intros _; reflexivity).
  intros (i & Hi & Hq). exfalso.
  assert (Hcases : i = 1%Z \/ i = 2%Z \/ i = 3%Z \/ i = 4%Z \/ i = 5%Z) by lia.
  apply Qeq_bool_iff in Hq.
  destruct Hcases as [-> | [-> | [-> | [-> | ->]]]]; congruence.
Qed.

Lemma distribution_total_unfold votes :
  distribution_total votes
  = foldr (fun i n =>
             (length (List.filter
                        (fun v => Qeq_bool (v_score v) (inject_Z i)) votes)
              + n)%nat)
          0%nat [1; 2; 3; 4; 5]%Z.
Proof.
  unfold distribution_total. cbn [foldr].
  by rewrite !vote_distribution_lookup by lia.
Qed.

(** The vote distribution of the analytics has the keys 1 to 5, and under
    each key the number of votes with exactly that score.  Its counts add
    up to at most the number of votes, and to exactly that number when
    every vote is a whole number of stars; a vote such as 4.5, which the
    vote route accepts, is counted under no key. *)
Theorem vote_distribution_counts votes :
  (forall i, vote_distribution votes !! i
             = if bool_decide (1 <= i <= 5)%Z
               then Some (length (List.filter
                            (fun v => Qeq_bool (v_score v) (inject_Z i)) votes))
               else None) /\
  (distribution_total votes <= length votes)%nat /\
  (Forall (fun v => exists i, (1 <= i <= 5)%Z /\ v_score v == inject_Z i) votes ->
   distribution_total votes = length votes).
Proof.
  split.
  { intros i. case_bool_decide.
    - by apply vote_distribution_lookup.
    - by apply vote_distribution_outside. }
  rewrite distribution_total_unfold.
  assert (Hsum : foldr (fun i n =>
             (length (List.filter
                        (fun v => Qeq_bool (v_score v) (inject_Z i)) votes)
              + n)%nat) 0%nat [1; 2; 3; 4; 5]%Z
    = foldr (fun v n =>
               (foldr (fun i n =>
                  ((if Qeq_bool (v_score v) (inject_Z i) then 1 else 0) + n)%nat)
                  0%nat [1; 2; 3; 4; 5]%Z + n)%nat) 0%nat votes).
  { induction votes as [|v votes IH]; [reflexivity|].
    cbn [foldr List.filter] in *. rewrite <- IH.
    destruct (Qeq_bool (v_score v) (inject_Z 1));
      destruct (Qeq_bool (v_score v) (inject_Z 2));
      destruct (Qeq_bool (v_score v) (inject_Z 3));
      destruct (Qeq_bool (v_score v) (inject_Z 4));
      destruct (Qeq_bool (v_score v) (inject_Z 5));
      cbn [length]; lia. }
  rewrite Hsum. clear Hsum. split.
  - induction votes as [|v votes IH]; [reflexivity|].
    destruct (one_star_count v) as [Hle _].
    cbn [foldr length] in *. lia.
  - induction 1 as [|v votes Hv _ IH]; [reflexivity|].
    destruct (one_star_count v) as [_ Hone]. specialize (Hone Hv).
    cbn [foldr length] in *. lia.
Qed.

Lemma vote_distribution_witness :
  distribution_total [mkVote 7 4 0; mkVote 8 5 0] = 2%nat.
Proof.
  destruct (vote_distribution_counts [mkVote 7 4 0; mkVote 8 5 0])
    as (_ & _ & Hall).
  apply Hall. constructor; [|constructor; [|constructor]].
  - exists 4%Z. split; [lia | reflexivity].
  - exists 5%Z. split; [lia | reflexivity].
Defined.

Lemma criteria_step_lookup cb r c :
  criteria_step cb r !! c
  = if bool_decide (sc_criterion r = c) && negb (inherited c)
    then stats_step (cb !! c) r
    else cb !! c.
Proof.
  unfold criteria_step, stats_step. case_bool_decide as Hc.
  - subst c. destruct (inherited (sc_criterion r)); [reflexivity|].
    by rewrite lookup_insert_eq.
  - destruct (inherited (sc_criterion r)); [reflexivity|].
    by rewrite lookup_insert_ne.
Qed.

Lemma criteria_fold_lookup scores : forall cb c,
  fold_left criteria_step scores cb !! c
  = if inherited c then cb !! c
    else fold_left stats_step (with_criterion c scores) (cb !! c).
Proof.
  unfold with_criterion.
  induction scores as [|r scores IH]; intros cb c.
  - by destruct (inherited c).
  - cbn [fold_left List.filter]. rewrite IH, criteria_step_lookup.
    destruct (inherited c); [by rewrite andb_false_r|].
    rewrite andb_true_r. by destruct (bool_decide (sc_criterion r = c)).
Qed.

Lemma stats_fold (l : list ScoreRecord) : forall entry,
  l <> [] ->
  fold_left stats_step l entry
  = let e := default (mkCriterionStats 0 0 0) entry in
    let total := fold_left (fun sum r => sum + sc_score r) l (cs_total e) in
    let count := (cs_count e + length l)%nat in
    Some (mkCriterionStats total count (total / inject_Z (Z.of_nat count))).
Proof.
  induction l as [|r l IH]; intros entry Hne; [done|].
  cbn [fold_left]. destruct l as [|r' l].
  - cbn [fold_left length]. reflexivity.
  - rewrite IH by done. cbv zeta. unfold stats_step.
    destruct entry as [e|]; cbn [default from_option id cs_total cs_count];
      match goal with
      | |- Some (mkCriterionStats _ ?a _) = Some (mkCriterionStats _ ?b _) =>
          replace a with b by (cbn [length]; lia)
      end; reflexivity.
Qed.

(** The criteria breakdown of the analytics has an entry for exactly the
    criteria that occur among the score records and are not the name of a
    property every object inherits ([constructor], [toString], ...): such
    a criterion gets no entry, whatever was scored under it.  The entry
    holds the plain sum of the scores given under the criterion, the
    number of those records, and the sum divided by the number. *)
Theorem criteria_breakdown_per_criterion scores c :
  (inherited c = true -> criteria_breakdown scores !! c = None) /\
  (with_criterion c scores = [] -> criteria_breakdown scores !! c = None) /\
  (inherited c = false -> with_criterion c scores <> [] ->
   criteria_breakdown scores !! c
   = Some (mkCriterionStats
             (fold_left (fun sum r => sum + sc_score r)
                        (with_criterion c scores) 0)
             (length (with_criterion c scores))
             (fold_left (fun sum r => sum + sc_score r)
                        (with_criterion c scores) 0
              / array_length (with_criterion c scores)))).
Proof.
  unfold criteria_breakdown. rewrite criteria_fold_lookup, lookup_empty.
  split; [by intros ->|]. split.
  - intros ->. by destruct (inherited c).
  - intros -> Hne. by rewrite stats_fold.
Qed.

Lemma criteria_breakdown_witness :
  criteria_breakdown (sub_scores judged_submission) !! "Design"%string
  = Some (mkCriterionStats (0 + 80) 1 ((0 + 80) / 1)) /\
  criteria_breakdown [mkScore "constructor" 80 100 (Some 5%positive) None 0]
    !! "constructor"%string = None.
Proof.
  destruct (criteria_breakdown_per_criterion
              (sub_scores judged_submission) "Design") as (_ & _ & H).
  destruct (criteria_breakdown_per_criterion
              [mkScore "constructor" 80 100 (Some 5%positive) None 0]
              "constructor") as (H' & _).
  split; [rewrite H; [reflexivity | reflexivity | discriminate] | by apply H'].
Defined.

(* ===================================================================== *)
(** ** Creating and updating a submission *)
(* ===================================================================== *)

Lemma stored_for_Some d teamId eventId s :
  stored_for d teamId eventId = Some s ->
  sub_team s = teamId /\ sub_event s = eventId /\
  exists k, db_submissions d !! k = Some s.
Proof.
  unfold stored_for. intros H.
  apply fmap_Some in H as ([i [k s']] & Hf & ->).
  apply list_find_Some in Hf as (Hl & [Ht He] & _).
  cbn [snd] in *. split; [exact Ht|]. split; [exact He|].
  exists k. apply elem_of_map_to_list. by eapply list_elem_of_lookup_2.
Qed.

Lemma stored_for_None d teamId eventId k s :
  stored_for d teamId eventId = None ->
  db_submissions d !! k = Some s ->
  ~ (sub_team s = teamId /\ sub_event s = eventId).
Proof.
  unfold stored_for. intros H Hk.
  apply fmap_None in H. apply list_find_None in H.
  apply elem_of_map_to_list in Hk.
  eapply Forall_forall in H; [|exact Hk]. exact H.
Qed.

(** The run of [POST /] for an active member of a stored team. *)
Lemma post_submission_runs members fresh user body w team :
  db_teams (w_db w) !! rq_teamId body = Some team ->
  is_active_member user (default [] (members !! rq_teamId body)) = true ->
  schema_accepts body = true ->
  let s := drafted fresh body (w_db w) in
  let w1 := drafted_world fresh body team w in
  match db_events (w_db w) !! rq_eventId body with
  | None =>
      post_submission members fresh user body w
      = (w1, inr (mkSubmissionResponse 500 "Server error" None))
  | Some event =>
      let w2 := listed_world (sub_id s) event w1 in
      if auto_judged event body then
        exists w3 r w4 lb,
          autoJudge s w2 = (w3, inr r) /\
          updateEventLeaderboard (rq_eventId body) w3 = (w4, inr lb) /\
          post_submission members fresh user body w
          = (w4, inr (mkSubmissionResponse 200
                        "Submission updated successfully"
                        (Some (after_autoJudge s r))))
      else
        post_submission members fresh user body w
        = (w2, inr (mkSubmissionResponse 200
                      "Submission updated successfully" (Some s)))
  end.
Proof.
  intros Ht Hm Hv.
  cbv zeta.
  unfold post_submission, Submission_findOne. run.
  rewrite Ht. cbv beta iota. rewrite Hm. cbn [negb]. cbv beta iota.
  rewrite Hv. cbv beta iota.
  cbn [fst snd w_db w_clock w_reads].
  fold (drafted fresh body (w_db w)).
cbn [db_events db_submissions db_teams].
  change (tm_id (set_team_submission ?x team)) with (tm_id team).
  destruct (db_events (w_db w) !! rq_eventId body) as [event|] eqn:He;
    cbv beta iota; [|reflexivity].
  fold (auto_judged event body).
  unfold listed_world, drafted_world.
  cbn [w_db w_clock w_reads db_events db_submissions db_teams].
  change (ev_id (set_submissions ?x event)) with (ev_id event).
  destruct (bool_decide (sub_id (drafted fresh body (w_db w))
                         ∈ ev_submissions event));
    cbv beta iota;
    cbn [w_db w_clock w_reads db_events db_submissions db_teams];
    (destruct (auto_judged event body); cbv beta iota; [|reflexivity]).
  all: match goal with |- context [autoJudge ?s ?w0] =>
         destruct (autoJudge_frame s w0) as (w3 & r & Ha & _)
       end.
  all: destruct (updateEventLeaderboard_frame (rq_eventId body) w3)
         as (w4 & lb & Hu & _).
  all: exists w3, r, w4, lb.
  all: split; [exact Ha|]; split; [exact Hu|].
  all: rewrite Ha; cbv beta iota; rewrite Hu; reflexivity.
Qed.

(** The document saved first carries the team, the event, the metadata
    and the status of the request; an update keeps the id, the judging
    and the votes of the stored document. *)
Lemma drafted_spec fresh body d :
  let s := drafted fresh body d in
  sub_team s = rq_teamId body /\ sub_event s = rq_eventId body /\
  sub_metadata s = rq_metadata body /\
  sub_status s = default draft (rq_status body) /\
  match stored_for d (rq_teamId body) (rq_eventId body) with
  | Some s0 =>
      sub_id s = sub_id s0 /\ sub_scores s = sub_scores s0 /\
      sub_judging_status s = sub_judging_status s0 /\
      sub_votes s = sub_votes s0 /\ sub_feedback s = sub_feedback s0
  | None =>
      sub_id s = fresh /\ sub_scores s = [] /\
      sub_judging_status s = pending /\ sub_votes s = [] /\
      sub_feedback s = []
  end.
Proof.
  cbv zeta. unfold drafted.
  match goal with |- context [Submission_pre_save ?s] =>
    destruct (Submission_pre_save_keeps s)
      as (-> & -> & -> & -> & -> & -> & -> & -> & ->)
  end.
  destruct (stored_for d (rq_teamId body) (rq_eventId body)) as [s0|] eqn:Hs.
  - apply stored_for_Some in Hs as (Ht & He & _).
    cbn [set_status set_metadata sub_team sub_event sub_metadata sub_status
         sub_id sub_scores sub_judging_status sub_votes sub_feedback].
    by repeat split.
  - by repeat split.
Qed.

Lemma after_autoJudge_keeps_event this w w' r :
  autoJudge this w = (w', inr r) ->
  sub_event (after_autoJudge this r) = sub_event this.
Proof.
  rewrite (autoJudge_runs_any this w). intros [= <- <-].
  cbn [after_autoJudge].
  match goal with |- context [Submission_pre_save ?s] =>
    by destruct (Submission_pre_save_keeps s) as (_ & -> & _)
  end.
Qed.

(** A request that the schema rejects is answered 500 and writes
    nothing. *)
Lemma post_submission_rejected members fresh user body w team :
  db_teams (w_db w) !! rq_teamId body = Some team ->
  is_active_member user (default [] (members !! rq_teamId body)) = true ->
  schema_accepts body = false ->
  post_submission members fresh user body w
  = (w, inr (mkSubmissionResponse 500 "Server error" None)).
Proof.
  intros Ht Hm Hv.
  unfold post_submission, Submission_findOne. run.
  rewrite Ht. cbv beta iota. rewrite Hm. cbn [negb]. cbv beta iota.
  rewrite Hv. cbv beta iota. by destruct w.
Qed.

(** Whatever the answer, [POST /] leaves the stored submissions alone or
    writes one document, under the id of the drafted document and for
    its team and event. *)
Lemma post_submission_writes members fresh user body w w' r :
  post_submission members fresh user body w = (w', r) ->
  let s := drafted fresh body (w_db w) in
  db_submissions (w_db w') = db_submissions (w_db w) \/
  exists final,
    db_submissions (w_db w') = <[sub_id s := final]> (db_submissions (w_db w)) /\
    sub_id final = sub_id s /\ sub_team final = sub_team s /\
    sub_event final = sub_event s.
Proof.
  cbv zeta.
  destruct (db_teams (w_db w) !! rq_teamId body) as [team|] eqn:Ht.
  2:{ unfold post_submission. run. rewrite Ht. cbv beta iota.
      intros [= <- <-]. by left. }
  destruct (is_active_member user (default [] (members !! rq_teamId body)))
    eqn:Hm.
  2:{ unfold post_submission. run. rewrite Ht. cbv beta iota.
      rewrite Hm. cbn [negb]. cbv beta iota. intros [= <- <-]. by left. }
  destruct (schema_accepts body) eqn:Hv.
  2:{ rewrite (post_submission_rejected members fresh user body w team Ht Hm Hv).
      intros [= <- <-]. by left. }
  pose proof (post_submission_runs members fresh user body w team Ht Hm Hv)
    as Hr.
  cbv zeta in Hr.
  destruct (db_events (w_db w) !! rq_eventId body) as [event|].
  2:{ rewrite Hr. intros [= <- <-]. right.
      exists (drafted fresh body (w_db w)). by repeat split. }
  assert (Hl : db_submissions
                 (w_db (listed_world (sub_id (drafted fresh body (w_db w)))
                          event (drafted_world fresh body team w)))
               = <[sub_id (drafted fresh body (w_db w))
                   := drafted fresh body (w_db w)]> (db_submissions (w_db w))).
  { unfold listed_world. by destruct (bool_decide _). }
  destruct (auto_judged event body).
  - destruct Hr as (w3 & r3 & w4 & lb & Ha & Hu & ->). intros [= <- <-].
    destruct (updateEventLeaderboard_frame (rq_eventId body) w3)
      as (w4' & lb' & Hu' & Hsubs & _).
    rewrite Hu in Hu'. injection Hu' as <- <-.
    pose proof (after_autoJudge_keeps_team _ _ _ _ Ha) as Hteam.
    destruct (autoJudge_frame (drafted fresh body (w_db w))
                (listed_world (sub_id (drafted fresh body (w_db w)))
                   event (drafted_world fresh body team w)))
      as (w3' & r3' & Ha' & _ & _ & Hid & Hcase).
    rewrite Ha in Ha'. injection Ha' as <- <-.
    right. exists (after_autoJudge (drafted fresh body (w_db w)) r3).
split.
    { rewrite Hsubs. destruct Hcase as [[-> ->]|[-> _]]; rewrite Hl.
      - reflexivity.
      - by rewrite insert_insert_eq. }
    split; [exact Hid|]. split; [exact Hteam|].
    exact (after_autoJudge_keeps_event _ _ _ _ Ha).
  - rewrite Hr. intros [= <- <-]. right.
    exists (drafted fresh body (w_db w)). by rewrite Hl.
Qed.

(** What listing the submission in the event changes. *)
Lemma listed_world_spec id event w :
  db_events (w_db w) !! ev_id event = Some event ->
  let w2 := listed_world id event w in
  db_submissions (w_db w2) = db_submissions (w_db w) /\
  db_teams (w_db w2) = db_teams (w_db w) /\
  ev_leaderboard <$> db_events (w_db w2) = ev_leaderboard <$> db_events (w_db w) /\
  exists event2,
    db_events (w_db w2) !! ev_id event = Some event2 /\
    ev_id event2 = ev_id event /\
    ev_submissions event2
    = (if bool_decide (id ∈ ev_submissions event) then ev_submissions event
       else ev_submissions event ++ [id]).
Proof.
  intros He. cbv zeta. unfold listed_world.
  destruct (bool_decide (id ∈ ev_submissions event)).
  - repeat split. by exists event.
  - cbn [w_db db_events db_submissions db_teams]. repeat split.
    + rewrite fmap_insert. apply insert_id.
      rewrite lookup_fmap, He. reflexivity.
    + eexists. rewrite lookup_insert_eq. by repeat split.
Qed.

(** [POST /] never throws.  The answers 404 (unknown team) and 403 (the
    caller is no active member of the team) leave the world as it was.
    The answer 500 has two causes.  Either the schema rejects the
    request, and nothing is written; or the event of the request is not
    stored, and the answer comes after two writes: the submission is
    stored for the team and the event of the request, and the team
    points at it. *)
Theorem post_submission_failures members fresh user body w w' r :
  post_submission members fresh user body w = (w', r) ->
  exists resp, r = inr resp /\
    (sr_status resp = 404%nat \/ sr_status resp = 403%nat -> w' = w) /\
    (sr_status resp = 500%nat ->
     schema_accepts body = false /\ w' = w \/
     schema_accepts body = true /\
     db_events (w_db w) !! rq_eventId body = None /\
     exists team s,
       db_teams (w_db w) !! rq_teamId body = Some team /\
       db_submissions (w_db w') !! sub_id s = Some s /\
       sub_team s = rq_teamId body /\ sub_event s = rq_eventId body /\
       db_teams (w_db w') !! tm_id team
       = Some (set_team_submission (Some (sub_id s)) team)).
Proof.
  destruct (db_teams (w_db w) !! rq_teamId body) as [team|] eqn:Ht.
  2:{ unfold post_submission. run. rewrite Ht. cbv beta iota.
      intros [= <- <-]. eexists. split; [reflexivity|].
      split; [done|]. cbn [sr_status]. discriminate. }
  destruct (is_active_member user (default [] (members !! rq_teamId body)))
    eqn:Hm.
  2:{ unfold post_submission. run. rewrite Ht. cbv beta iota.
      rewrite Hm. cbn [negb]. cbv beta iota. intros [= <- <-].
      eexists. split; [reflexivity|].
      split; [done|]. cbn [sr_status]. discriminate. }
  destruct (schema_accepts body) eqn:Hv.
  2:{ rewrite (post_submission_rejected members fresh user body w team Ht Hm Hv).
      intros [= <- <-]. eexists. split; [reflexivity|].
      cbn [sr_status]. split; [intros [|]; discriminate | intros _].
      left. by split. }
  pose proof (post_submission_runs members fresh user body w team Ht Hm Hv)
    as Hr.
  cbv zeta in Hr.
  destruct (db_events (w_db w) !! rq_eventId body) as [event|].
  - assert (exists w2 final,
               post_submission members fresh user body w
               = (w2, inr (mkSubmissionResponse 200
                             "Submission updated successfully" (Some final))))
      as (w2 & final & Hrun).
    { destruct (auto_judged event body).
      - destruct Hr as (w3 & r3 & w4 & lb & _ & _ & Hr). eauto.
      - eauto. }
    rewrite Hrun. intros [= <- <-]. eexists. split; [reflexivity|].
    cbn [sr_status]. split; [intros [|]; discriminate | discriminate].
  - rewrite Hr. intros [= <- <-]. eexists. split; [reflexivity|].
    cbn [sr_status]. split; [intros [|]; discriminate | intros _].
    right. split; [reflexivity|]. split; [reflexivity|].
    exists team, (drafted fresh body (w_db w)).
    destruct (drafted_spec fresh body (w_db w)) as (Hteam & Hevent & _).
    unfold drafted_world. cbn [w_db db_submissions db_teams].
    rewrite !lookup_insert_eq. by repeat split.
Qed.

Lemma post_submission_failure_witness :
  let body := mkSubmissionRequest 99 20 None None true in
  exists resp,
    snd (post_submission scenario_members 11 30 body judging_world)
    = inr resp /\
    (sr_status resp = 404%nat \/ sr_status resp = 403%nat ->
     fst (post_submission scenario_members 11 30 body judging_world)
     = judging_world) /\
    (sr_status resp = 500%nat ->
     schema_accepts body = false /\
     fst (post_submission scenario_members 11 30 body judging_world)
     = judging_world \/
     schema_accepts body = true /\
     db_events (w_db judging_world) !! 99%positive = None /\
     exists team s,
       db_teams (w_db judging_world) !! 20%positive = Some team /\
       db_submissions
         (w_db (fst (post_submission scenario_members 11 30 body
                       judging_world)))
         !! sub_id s = Some s /\
       sub_team s = 20%positive /\ sub_event s = 99%positive /\
       db_teams
         (w_db (fst (post_submission scenario_members 11 30 body
                       judging_world)))
         !! tm_id team
       = Some (set_team_submission (Some (sub_id s)) team)).
Proof.
  cbv zeta.
  apply (post_submission_failures scenario_members 11 30
           (mkSubmissionRequest 99 20 None None true) judging_world).
  apply surjective_pairing.
Defined.

(** [POST /] keeps the store at one submission per team and event, each
    under its own id, whatever it answers.  When the team already has a
    submission for the event the request creates no document; when it has
    none, no stored document is changed. *)
Theorem post_submission_keeps_one_per_team members fresh user body w w' r :
  ids_match (w_db w) -> one_per_team_event (w_db w) ->
  db_submissions (w_db w) !! fresh = None ->
  post_submission members fresh user body w = (w', r) ->
  ids_match (w_db w') /\ one_per_team_event (w_db w') /\
  (is_Some (stored_for (w_db w) (rq_teamId body) (rq_eventId body)) ->
   forall k, is_Some (db_submissions (w_db w') !! k)
             <-> is_Some (db_submissions (w_db w) !! k)) /\
  (stored_for (w_db w) (rq_teamId body) (rq_eventId body) = None ->
   forall k s, db_submissions (w_db w) !! k = Some s ->
               db_submissions (w_db w') !! k = Some s).
Proof.
  intros Hids Hone Hfresh Hrun.
  apply post_submission_writes in Hrun. cbv zeta in Hrun.
  destruct Hrun as [Heq | (final & Heq & Hid & Hteam & Hevent)].
  { unfold ids_match, one_per_team_event. rewrite Heq.
    split; [exact Hids|]. split; [exact Hone|]. split; [done|auto]. }
  destruct (drafted_spec fresh body (w_db w)) as (Ht & He & _ & _ & Hcase).
  rewrite Ht in Hteam. rewrite He in Hevent.
  set (id := sub_id (drafted fresh body (w_db w))) in *.
  assert (Hclash : forall k s2, k <> id ->
            db_submissions (w_db w) !! k = Some s2 ->
            ~ (sub_team s2 = rq_teamId body /\ sub_event s2 = rq_eventId body)).
  { destruct (stored_for (w_db w) (rq_teamId body) (rq_eventId body))
      as [s0|] eqn:Hs.
    - destruct Hcase as (Hid0 & _).
      apply stored_for_Some in Hs as (Ht0 & He0 & k0 & Hk0).
      intros k s2 Hne Hk [Ht2 He2]. apply Hne.
      pose proof (Hids _ _ Hk0) as Hk0id.
      rewrite (Hone k k0 s2 s0 Hk Hk0) by congruence. congruence.
    - intros k s2 _ Hk. by eapply stored_for_None. }
  split.
  { intros k s. rewrite Heq.
    intros [[<- <-]|[Hne Hk]]%lookup_insert_Some;
      [exact Hid | by apply Hids]. }
  split.
  { intros k1 k2 s1 s2. rewrite Heq.
    intros H1%lookup_insert_Some H2%lookup_insert_Some Hteq Heeq.
    destruct H1 as [[<- <-]|[Hne1 H1]], H2 as [[<- <-]|[Hne2 H2]].
    - reflexivity.
    - exfalso. apply (Hclash k2 s2); [done|done|]. split; congruence.
    - exfalso. apply (Hclash k1 s1); [done|done|]. split; congruence.
    - by eapply Hone. }
  split.
  { intros [s0 Hs] k. rewrite Hs in Hcase. destruct Hcase as (Hid0 & _).
    apply stored_for_Some in Hs as (_ & _ & k0 & Hk0).
    pose proof (Hids _ _ Hk0) as Hk.
    rewrite Heq. destruct (decide (id = k)) as [<-|Hne].
    - rewrite lookup_insert_eq. split; [intros _|by eauto].
      exists s0. rewrite Hid0, Hk. exact Hk0.
    - by rewrite lookup_insert_ne. }
  { intros Hnone k s0 Hk. rewrite Hnone in Hcase.
    destruct Hcase as (Hidf & _). rewrite Heq.
    rewrite lookup_insert_ne; [done|]. rewrite Hidf. intros <-. congruence. }
Qed.

Lemma judging_world_ids_match : ids_match (w_db judging_world).
Proof.
  intros id s. cbn [judging_world w_db db_submissions].
  by intros [<- <-]%lookup_singleton_Some.
Defined.

Lemma judging_world_one_per_team : one_per_team_event (w_db judging_world).
Proof.
  intros k1 k2 s1 s2. cbn [judging_world w_db db_submissions].
  intros [<- _]%lookup_singleton_Some [<- _]%lookup_singleton_Some _ _.
  reflexivity.
Defined.

Lemma post_submission_one_per_team_witness :
  let body := mkSubmissionRequest 1 20 (Some scenario_metadata) (Some submitted) true in
  let w' := fst (post_submission scenario_members 11 30 body judging_world) in
  ids_match (w_db w') /\ one_per_team_event (w_db w') /\
  (is_Some (stored_for (w_db judging_world) 20 1) ->
   forall k, is_Some (db_submissions (w_db w') !! k)
             <-> is_Some (db_submissions (w_db judging_world) !! k)) /\
  (stored_for (w_db judging_world) 20 1 = None ->
   forall k s, db_submissions (w_db judging_world) !! k = Some s ->
               db_submissions (w_db w') !! k = Some s).
Proof.
  cbv zeta.
  apply (post_submission_keeps_one_per_team scenario_members 11 30
           (mkSubmissionRequest 1 20 (Some scenario_metadata) (Some submitted) true)
           judging_world
           (fst (post_submission scenario_members 11 30
                   (mkSubmissionRequest 1 20 (Some scenario_metadata)
                      (Some submitted) true) judging_world))
           (snd (post_submission scenario_members 11 30
                   (mkSubmissionRequest 1 20 (Some scenario_metadata)
                      (Some submitted) true) judging_world))).
  - exact judging_world_ids_match.
  - exact judging_world_one_per_team.
  - reflexivity.
  - apply surjective_pairing.
Defined.

(** With metadata, what [autoJudge] leaves behind: the document is
    stored under its id, judged, with the table of the metadata as its
    score list and no judge on any record. *)
Lemma autoJudge_table this m w w' r :
  sub_metadata this = Some m ->
  autoJudge this w = (w', inr r) ->
  db_submissions (w_db w') !! sub_id this = Some (after_autoJudge this r) /\
  sub_id (after_autoJudge this r) = sub_id this /\
  sub_judging_status (after_autoJudge this r) = judged /\
  (fun r => (sc_criterion r, sc_score r)) <$> sub_scores (after_autoJudge this r)
  = expected_scores m /\
  Forall (fun r => sc_judge r = None) (sub_scores (after_autoJudge this r)).
Proof.
  intros Hm. rewrite (autoJudge_runs this m w Hm). intros [= <- <-].
  cbn [after_autoJudge w_db db_submissions].
  split; [by rewrite lookup_insert_eq|].
  match goal with |- context [Submission_pre_save ?s] =>
    destruct (Submission_pre_save_keeps s)
      as (-> & _ & _ & _ & -> & -> & _)
  end.
  cbn [set_judging_status set_scores sub_id sub_scores sub_judging_status].
  split; [reflexivity|]. split; [reflexivity|].
  split; [|apply auto_records_no_judge].
  apply auto_records_table. by rewrite length_fmap, length_seq.
Qed.

(** A [POST /] by an active member, for a stored event, with a request
    the schema accepts: the answer is 200 with the saved submission.
    When the event judges automatically, the request sets the status
    [submitted] and carries metadata, the saved submission is judged,
    none of its score records has a judge, so whatever the judges had
    scored is gone, and for metadata that names its technologies the
    score list is the table of [autoJudge] on the metadata of the
    request.  Otherwise the saved submission is the drafted one, with the
    score list, the judging status and the votes it had, and no
    leaderboard of any event is touched. *)
Theorem post_submission_judging members fresh user body w team event :
  db_teams (w_db w) !! rq_teamId body = Some team ->
  is_active_member user (default [] (members !! rq_teamId body)) = true ->
  schema_accepts body = true ->
  db_events (w_db w) !! rq_eventId body = Some event ->
  ev_id event = rq_eventId body ->
  exists w' final,
    post_submission members fresh user body w
    = (w', inr (mkSubmissionResponse 200 "Submission updated successfully"
                  (Some final))) /\
    db_submissions (w_db w') !! sub_id final = Some final /\
    (auto_judged event body = true ->
     exists m,
       rq_metadata body = Some m /\
       sub_judging_status final = judged /\
       Forall (fun r => sc_judge r = None) (sub_scores final) /\
       (is_Some (md_technologies m) ->
        (fun r => (sc_criterion r, sc_score r)) <$> sub_scores final
        = expected_scores m)) /\
    (auto_judged event body = false ->
     final = drafted fresh body (w_db w) /\
     (forall s0,
        stored_for (w_db w) (rq_teamId body) (rq_eventId body) = Some s0 ->
        sub_scores final = sub_scores s0 /\
        sub_judging_status final = sub_judging_status s0 /\
        sub_votes final = sub_votes s0) /\
     ev_leaderboard <$> db_events (w_db w')
     = ev_leaderboard <$> db_events (w_db w)).
Proof.
  intros Ht Hm Hv He Hid.
  pose proof (post_submission_runs members fresh user body w team Ht Hm Hv)
    as Hr.
  cbv zeta in Hr. rewrite He in Hr.
  assert (Hev : db_events (w_db (drafted_world fresh body team w)) !! ev_id event
                = Some event) by (by rewrite Hid).
  destruct (listed_world_spec (sub_id (drafted fresh body (w_db w))) event
              (drafted_world fresh body team w) Hev)
    as (Hsubs & _ & Hlb & _).
  destruct (drafted_spec fresh body (w_db w)) as (_ & _ & Hmeta & _ & Hcase).
  destruct (auto_judged event body) eqn:Hauto.
  - destruct Hr as (w3 & r3 & w4 & lb & Ha & Hu & Hr).
    unfold auto_judged in Hauto.
    destruct (rq_metadata body) as [m|] eqn:Hbody;
      [|by rewrite andb_false_r in Hauto].
    destruct (autoJudge_table _ m _ _ _ Hmeta Ha)
      as (Hstored & Hsid & Hjudged & Htable & Hnone).
    destruct (updateEventLeaderboard_frame (rq_eventId body) w3)
      as (w4' & lb' & Hu' & Hsubs4 & _).
    rewrite Hu in Hu'. injection Hu' as <- <-.
    eexists _, _. split; [exact Hr|].
    split; [by rewrite Hsubs4, Hsid|].
    split; [|discriminate].
    intros _. exists m. by repeat split.
  - eexists _, _. split; [exact Hr|]. split.
    { rewrite Hsubs. unfold drafted_world. cbn [w_db db_submissions].
      by rewrite lookup_insert_eq. }
    split; [discriminate|]. intros _. split; [reflexivity|]. split.
    + intros s0 Hs0. rewrite Hs0 in Hcase.
      by destruct Hcase as (_ & -> & -> & -> & _).
    + exact Hlb.
Qed.

Lemma post_submission_judging_witness :
  let body := mkSubmissionRequest 1 20 (Some scenario_metadata) (Some submitted) true in
  exists w' final,
    post_submission scenario_members 11 30 body judging_world
    = (w', inr (mkSubmissionResponse 200 "Submission updated successfully"
                  (Some final))) /\
    db_submissions (w_db w') !! sub_id final = Some final /\
    (auto_judged judging_event body = true ->
     exists m,
       rq_metadata body = Some m /\
       sub_judging_status final = judged /\
       Forall (fun r => sc_judge r = None) (sub_scores final) /\
       (is_Some (md_technologies m) ->
        (fun r => (sc_criterion r, sc_score r)) <$> sub_scores final
        = expected_scores m)) /\
    (auto_judged judging_event body = false ->
     final = drafted 11 body (w_db judging_world) /\
     (forall s0,
        stored_for (w_db judging_world) (rq_teamId body) (rq_eventId body)
        = Some s0 ->
        sub_scores final = sub_scores s0 /\
        sub_judging_status final = sub_judging_status s0 /\
        sub_votes final = sub_votes s0) /\
     ev_leaderboard <$> db_events (w_db w')
     = ev_leaderboard <$> db_events (w_db judging_world)).
Proof.
  cbv zeta.
  apply (post_submission_judging scenario_members 11 30
           (mkSubmissionRequest 1 20 (Some scenario_metadata) (Some submitted) true)
           judging_world (mkTeam 20 30 (Some 10%positive)) judging_event);
    reflexivity.
Defined.

(** After a [POST /] that goes through the event lists the submission: its id is
    appended to [event.submissions] unless it is there already, so a list
    without duplicates stays without duplicates, and the team document
    points at the submission. *)
Theorem post_submission_links members fresh user body w team event :
  db_teams (w_db w) !! rq_teamId body = Some team ->
  is_active_member user (default [] (members !! rq_teamId body)) = true ->
  schema_accepts body = true ->
  db_events (w_db w) !! rq_eventId body = Some event ->
  ev_id event = rq_eventId body ->
  exists w' final event',
    post_submission members fresh user body w
    = (w', inr (mkSubmissionResponse 200 "Submission updated successfully"
                  (Some final))) /\
    db_events (w_db w') !! rq_eventId body = Some event' /\
    ev_submissions event'
    = (if bool_decide (sub_id final ∈ ev_submissions event)
       then ev_submissions event
       else ev_submissions event ++ [sub_id final]) /\
    sub_id final ∈ ev_submissions event' /\
    (NoDup (ev_submissions event) -> NoDup (ev_submissions event')) /\
    db_teams (w_db w') !! tm_id team
    = Some (set_team_submission (Some (sub_id final)) team).
Proof.
  intros Ht Hm Hv He Hid.
  pose proof (post_submission_runs members fresh user body w team Ht Hm Hv)
    as Hr.
  cbv zeta in Hr. rewrite He in Hr.
  assert (Hev : db_events (w_db (drafted_world fresh body team w)) !! ev_id event
                = Some event) by (by rewrite Hid).
  destruct (listed_world_spec (sub_id (drafted fresh body (w_db w))) event
              (drafted_world fresh body team w) Hev)
    as (_ & Hteams & _ & event2 & He2 & Hid2 & Hsubs2).
  rewrite Hid in He2.
  assert (Hteam2 :
    db_teams (w_db (listed_world (sub_id (drafted fresh body (w_db w))) event
                      (drafted_world fresh body team w))) !! tm_id team
    = Some (set_team_submission
              (Some (sub_id (drafted fresh body (w_db w)))) team)).
  { rewrite Hteams. unfold drafted_world. cbn [w_db db_teams].
    by rewrite lookup_insert_eq. }
  assert (Hshape : forall l : list ObjectId,
    let l' := if bool_decide (sub_id (drafted fresh body (w_db w)) ∈ l)
              then l else l ++ [sub_id (drafted fresh body (w_db w))] in
    sub_id (drafted fresh body (w_db w)) ∈ l' /\ (NoDup l -> NoDup l')).
  { intros l. cbv zeta.
    destruct (bool_decide_reflect (sub_id (drafted fresh body (w_db w)) ∈ l))
      as [Hin|Hin].
    - by split.
    - split; [set_solver|]. intros Hnd. apply NoDup_app.
      split; [exact Hnd|]. split; [|apply NoDup_singleton].
      intros x Hx ->%list_elem_of_singleton. by apply Hin. }
  destruct (auto_judged event body).
  - destruct Hr as (w3 & r3 & w4 & lb & Ha & Hu & Hr).
    destruct (autoJudge_frame (drafted fresh body (w_db w))
                (listed_world (sub_id (drafted fresh body (w_db w)))
                   event (drafted_world fresh body team w)))
      as (w3' & r3' & Ha' & Hev3 & Hteams3 & Hsid & _).
    rewrite Ha in Ha'. injection Ha' as <- <-.
    destruct (updateEventLeaderboard_frame (rq_eventId body) w3)
      as (w4' & lb' & Hu' & _ & Hteams4 & _ & Hev4).
    rewrite Hu in Hu'. injection Hu' as <- <-.
    rewrite Hev3 in Hev4.
    assert (exists event',
              db_events (w_db w4) !! rq_eventId body = Some event' /\
              ev_submissions event' = ev_submissions event2)
      as (event' & He' & Hsubs').
    { destruct Hev4 as [-> | (e3 & He3 & ->)].
      - by exists event2.
      - rewrite He2 in He3. injection He3 as <-.
        rewrite Hid2, Hid, lookup_insert_eq. by eexists. }
    exists w4, (after_autoJudge (drafted fresh body (w_db w)) r3), event'.
    rewrite Hsid, Hsubs', Hsubs2.
    split; [exact Hr|]. split; [exact He'|]. split; [reflexivity|].
    split; [apply Hshape|]. split; [apply Hshape|].
    by rewrite Hteams4, Hteams3.
  - eexists _, _, event2. split; [exact Hr|]. split; [exact He2|].
    rewrite Hsubs2. split; [reflexivity|].
    split; [apply Hshape|]. split; [apply Hshape|]. exact Hteam2.
Qed.

Lemma post_submission_links_witness :
  let body := mkSubmissionRequest 1 20 (Some scenario_metadata) (Some submitted) true in
  exists w' final event',
    post_submission scenario_members 11 30 body judging_world
    = (w', inr (mkSubmissionResponse 200 "Submission updated successfully"
                  (Some final))) /\
    db_events (w_db w') !! 1%positive = Some event' /\
    ev_submissions event'
    = (if bool_decide (sub_id final ∈ ev_submissions judging_event)
       then ev_submissions judging_event
       else ev_submissions judging_event ++ [sub_id final]) /\
    sub_id final ∈ ev_submissions event' /\
    (NoDup (ev_submissions judging_event) -> NoDup (ev_submissions event')) /\
    db_teams (w_db w') !! 20%positive
    = Some (set_team_submission (Some (sub_id final))
              (mkTeam 20 30 (Some 10%positive))).
Proof.
  cbv zeta.
  apply (post_submission_links scenario_members 11 30
           (mkSubmissionRequest 1 20 (Some scenario_metadata) (Some submitted) true)
           judging_world (mkTeam 20 30 (Some 10%positive)) judging_event);
    reflexivity.
Defined.

(* ===================================================================== *)
(** ** Team tasks *)
(* ===================================================================== *)

Lemma Math_round_bounds (x : Q) (a b : Z) :
  inject_Z a <= x -> x <= inject_Z b -> (a <= Math_round x <= b)%Z.
Proof.
  intros Ha Hb. unfold Math_round. split.
  - rewrite <- (Qfloor_Z a). apply Qfloor_resp_le. lra.
  - pose proof (Qfloor_le (x + (1 # 2))) as Hf.
    assert (Hlt : inject_Z (Qfloor (x + (1 # 2))) < inject_Z (b + 1)).
    { rewrite inject_Z_plus. change (inject_Z 1) with 1. lra. }
    rewrite <- Zlt_Qlt in Hlt. lia.
Qed.

Lemma completed_count_le (tasks : list Task) :
  (completed_count tasks <= length tasks)%nat.
Proof.
  unfold completed_count.
  induction tasks as [|t tasks IH]; cbn [List.filter length]; [lia|].
  destruct (is_completed t); cbn [length]; lia.
Qed.

(** The share of completed tasks, as a number between 0 and 1. *)
Lemma completed_share (c t : nat) :
  (c <= t)%nat -> (0 < t)%nat ->
  0 <= inject_Z (Z.of_nat c) / inject_Z (Z.of_nat t) * 100 <= 100.
Proof.
  intros Hc Ht.
  assert (Htq : 0 < inject_Z (Z.of_nat t)).
  { change 0 with (inject_Z 0). rewrite <- Zlt_Qlt. lia. }
  assert (Hcq : 0 <= inject_Z (Z.of_nat c)).
  { change 0 with (inject_Z 0). rewrite <- Zle_Qle. lia. }
  assert (Hle : inject_Z (Z.of_nat c) <= inject_Z (Z.of_nat t)).
  { rewrite <- Zle_Qle. lia. }
  split.
  - apply Qmult_le_0_compat; [|lra].
    apply Qle_shift_div_l; [exact Htq|]. lra.
  - assert (inject_Z (Z.of_nat c) / inject_Z (Z.of_nat t) <= 1).
    { apply Qle_shift_div_r; [exact Htq|]. lra. }
    lra.
Qed.

(** The hook of the Team schema leaves the tasks alone and recounts
    them: [totalTasks] is their number, [completedTasks] the number of
    those with the status [completed], never more than [totalTasks], and
    [progressPercentage] is a whole number from 0 to 100, 0 for a team
    without tasks or without a completed one and 100 when every task is
    completed.  What the stored stats said before is of no account. *)
Theorem Team_pre_save_stats this :
  let s := td_stats (Team_pre_save this) in
  td_tasks (Team_pre_save this) = td_tasks this /\
  st_totalTasks s = length (td_tasks this) /\
  st_completedTasks s = completed_count (td_tasks this) /\
  (st_completedTasks s <= st_totalTasks s)%nat /\
  (0 <= st_progressPercentage s <= 100)%Z /\
  (completed_count (td_tasks this) = 0%nat -> st_progressPercentage s = 0%Z) /\
  (td_tasks this <> [] ->
   completed_count (td_tasks this) = length (td_tasks this) ->
   st_progressPercentage s = 100%Z).
Proof.
  cbv zeta. unfold Team_pre_save.
  cbn [td_tasks td_stats st_totalTasks st_completedTasks st_progressPercentage].
  fold (completed_count (td_tasks this)).
  pose proof (completed_count_le (td_tasks this)) as Hle.
  split; [reflexivity|]. split; [reflexivity|]. split; [reflexivity|].
  split; [exact Hle|].
  destruct (0 <? length (td_tasks this))%nat eqn:Hpos.
  - apply Nat.ltb_lt in Hpos.
    pose proof (completed_share _ _ Hle Hpos) as [H0 H100].
    split; [by apply Math_round_bounds|]. split.
    + intros ->. unfold Math_round.
      assert (Hq : inject_Z (Z.of_nat 0)
                   / inject_Z (Z.of_nat (length (td_tasks this))) * 100
                   + (1 # 2) == 1 # 2).
      { change (inject_Z (Z.of_nat 0)) with 0. unfold Qdiv. ring. }
      by rewrite Hq.
    + intros _ ->. unfold Math_round.
      assert (Hq : inject_Z (Z.of_nat (length (td_tasks this)))
                   / inject_Z (Z.of_nat (length (td_tasks this))) * 100
                   + (1 # 2) == 201 # 2).
      { assert (Hne : ~ inject_Z (Z.of_nat (length (td_tasks this))) == 0).
        { change 0 with (inject_Z 0). rewrite inject_Z_injective. lia. }
        field. exact Hne. }
      by rewrite Hq.
  - apply Nat.ltb_ge in Hpos.
    split; [lia|]. split; [done|].
    intros Hne. destruct (td_tasks this); [done|cbn [length] in Hpos; lia].
Qed.

(** The assignments of the update route reach neither the id nor the two
    time stamps of the task: the test for [completedAt] reads the status
    that the first assignment has just set. *)
Lemma update_task_stamps now body task :
  task_stamps (update_task now body task) = task_stamps task.
Proof.
  unfold update_task.
  destruct (tq_status body) as [status|] eqn:Hst; cbn [truthy_string].
  - case_bool_decide as Hc.
    + injection Hc as ->. cbn [String.eqb Ascii.eqb Bool.eqb negb default
                                from_option andb].
      cbn -[task_stamps].
      destruct (truthy_string (tq_title body)),
               (truthy_string (tq_description body)),
               (truthy_string (tq_priority body)),
               (tq_assignedTo body); reflexivity.
    + cbn [andb].
      destruct (negb (String.eqb status "")),
               (truthy_string (tq_title body)),
               (truthy_string (tq_description body)),
               (truthy_string (tq_priority body)),
               (tq_assignedTo body); reflexivity.
  - rewrite bool_decide_eq_false_2 by discriminate. cbn [andb].
    destruct (truthy_string (tq_title body)),
             (truthy_string (tq_description body)),
             (truthy_string (tq_priority body)),
             (tq_assignedTo body); reflexivity.
Qed.

(** The status of the updated task: the one the request names, when it
    names one. *)
Lemma update_task_status now body task :
  tk_status (update_task now body task)
  = if truthy_string (tq_status body)
    then default ""%string (tq_status body) else tk_status task.
Proof.
  unfold update_task.
  destruct (bool_decide (tq_status body = Some "completed"%string) && _),
           (truthy_string (tq_status body)),
           (truthy_string (tq_title body)),
           (truthy_string (tq_description body)),
           (truthy_string (tq_priority body)),
           (tq_assignedTo body); reflexivity.
Qed.

(** The run of the update route for an active member and a stored
    task. *)
Lemma put_task_runs now id taskId user body teams team i task :
  teams !! id = Some team ->
  is_active_member user (td_members team) = true ->
  list_find (fun t => tk_id t = taskId) (td_tasks team) = Some (i, task) ->
  put_task now id taskId user body teams
  = if task_update_valid body
    then (<[id := Team_pre_save
                     (set_tasks (<[i := update_task now body task]>
                                   (td_tasks team)) team)]> teams,
          mkTaskResponse 200 "Task updated successfully"
            (Some (update_task now body task)))
    else (teams, mkTaskResponse 500 "Server error" None).
Proof.
  intros Ht Hm Hf. unfold put_task. rewrite Ht, Hm. cbn [negb].
  by rewrite Hf.
Qed.

(** [PUT /:id/tasks/:taskId] never writes [completedAt].  Whatever the
    request and the answer, every team is stored with the members it had
    and every task with the id, the creation time and the completion
    time it had; an answer other than 200 leaves the store as it was.  A
    request that goes through with the status [completed] stores the
    task as completed and counts it in [stats.completedTasks], and still
    leaves its completion time as it was. *)
Theorem put_task_never_stamps_completion now id taskId user body teams teams' resp :
  put_task now id taskId user body teams = (teams', resp) ->
  (tr_status resp <> 200%nat -> teams' = teams) /\
  (forall k team',
     teams' !! k = Some team' ->
     exists team,
       teams !! k = Some team /\
       td_members team' = td_members team /\
       task_stamps <$> td_tasks team' = task_stamps <$> td_tasks team) /\
  (tr_status resp = 200%nat ->
   tq_status body = Some "completed"%string ->
   exists team team' i task task',
     teams !! id = Some team /\ td_tasks team !! i = Some task /\
     tk_id task = taskId /\
     teams' !! id = Some team' /\
     td_tasks team' = <[i := task']> (td_tasks team) /\
     tr_task resp = Some task' /\
     tk_status task' = "completed"%string /\
     tk_completedAt task' = tk_completedAt task /\
     st_completedTasks (td_stats team') = completed_count (td_tasks team')).
Proof.
  destruct (teams !! id) as [team|] eqn:Ht.
  2:{ unfold put_task. rewrite Ht. intros [= <- <-].
      split; [done|]. split; [|discriminate].
      intros k team' Hk. by exists team'. }
  destruct (is_active_member user (td_members team)) eqn:Hm.
  2:{ unfold put_task. rewrite Ht, Hm. cbn [negb]. intros [= <- <-].
      split; [done|]. split; [|discriminate].
      intros k team' Hk. by exists team'. }
  destruct (list_find (fun t => tk_id t = taskId) (td_tasks team))
    as [[i task]|] eqn:Hf.
  2:{ unfold put_task. rewrite Ht, Hm. cbn [negb]. rewrite Hf.
      intros [= <- <-].
      split; [done|]. split; [|discriminate].
      intros k team' Hk. by exists team'. }
  rewrite (put_task_runs now id taskId user body teams team i task Ht Hm Hf).
  apply list_find_Some in Hf as (Hi & Hid & _).
  destruct (task_update_valid body).
  2:{ intros [= <- <-].
      split; [done|]. split; [|discriminate].
      intros k team' Hk. by exists team'. }
  intros [= <- <-]. split; [done|]. split.
  - intros k team'. rewrite lookup_insert_Some.
    intros [[<- <-]|[_ Hk]]; [|by exists team'].
    exists team. split; [exact Ht|]. split; [reflexivity|].
    cbn [Team_pre_save set_tasks td_tasks].
    rewrite list_fmap_insert, update_task_stamps.
    apply list_insert_id. by rewrite list_lookup_fmap, Hi.
  - intros _ Hst.
    exists team, (Team_pre_save
                    (set_tasks (<[i := update_task now body task]>
                                  (td_tasks team)) team)),
           i, task, (update_task now body task).
    split; [reflexivity|]. split; [exact Hi|]. split; [exact Hid|].
    split; [by rewrite lookup_insert_eq|].
    split; [reflexivity|]. split; [reflexivity|].
    split; [by rewrite update_task_status, Hst|].
    split; [|reflexivity].
    pose proof (update_task_stamps now body task) as Hs.
    unfold task_stamps in Hs. by injection Hs.
Qed.

Lemma put_task_completion_witness :
  let body := mkTaskRequest (Some "completed"%string) None None None None in
  let teams' := fst (put_task 77 20 1 30 body scenario_teams) in
  let resp := snd (put_task 77 20 1 30 body scenario_teams) in
  (tr_status resp <> 200%nat -> teams' = scenario_teams) /\
  (forall k team',
     teams' !! k = Some team' ->
     exists team,
       scenario_teams !! k = Some team /\
       td_members team' = td_members team /\
       task_stamps <$> td_tasks team' = task_stamps <$> td_tasks team) /\
  (tr_status resp = 200%nat ->
   tq_status body = Some "completed"%string ->
   exists team team' i task task',
     scenario_teams !! 20%positive = Some team /\
     td_tasks team !! i = Some task /\
     tk_id task = 1%positive /\
     teams' !! 20%positive = Some team' /\
     td_tasks team' = <[i := task']> (td_tasks team) /\
     tr_task resp = Some task' /\
     tk_status task' = "completed"%string /\
     tk_completedAt task' = tk_completedAt task /\
     st_completedTasks (td_stats team') = completed_count (td_tasks team')).
Proof.
  cbv zeta.
  apply (put_task_never_stamps_completion 77 20 1 30
           (mkTaskRequest (Some "completed"%string) None None None None)
           scenario_teams).
  apply surjective_pairing.
Defined.

Lemma completed_count_app (l1 l2 : list Task) :
  completed_count (l1 ++ l2) = (completed_count l1 + completed_count l2)%nat.
Proof.
  unfold completed_count. by rewrite List.filter_app, length_app.
Qed.

(** [POST /:id/tasks]: an answer other than 200 (unknown team, caller no
    active member, a priority outside the enum) leaves the store as it
    was.  With the answer 200 the team has one task more, at the end of
    its list: open ([todo]), without completion time, stamped with the
    time of the request, assigned to the caller unless the request names
    somebody, and with a priority of the enum ([medium] unless the
    request names one).  The stats count one task more and as many
    completed ones as before. *)
Theorem post_task_appends now fresh id user body teams teams' resp :
  post_task now fresh id user body teams = (teams', resp) ->
  (tr_status resp <> 200%nat -> teams' = teams) /\
  (tr_status resp = 200%nat ->
   exists team team' task,
     teams !! id = Some team /\
     is_active_member user (td_members team) = true /\
     teams' = <[id := team']> teams /\
     tr_task resp = Some task /\
     td_members team' = td_members team /\
     td_tasks team' = td_tasks team ++ [task] /\
     tk_id task = fresh /\ tk_status task = "todo"%string /\
     tk_assignedTo task = default user (tq_assignedTo body) /\
     tk_createdAt task = now /\ tk_completedAt task = None /\
     task_priority_valid (tk_priority task) = true /\
     (truthy_string (tq_priority body) = false ->
      tk_priority task = "medium"%string) /\
     st_totalTasks (td_stats team') = S (length (td_tasks team)) /\
     st_completedTasks (td_stats team') = completed_count (td_tasks team)).
Proof.
  unfold post_task.
  destruct (teams !! id) as [team|] eqn:Ht;
    [|intros [= <- <-]; split; [done|discriminate]].
  destruct (is_active_member user (td_members team)) eqn:Hm; cbn [negb];
    [|intros [= <- <-]; split; [done|discriminate]].
  cbv zeta. cbn [tk_priority].
  destruct (task_priority_valid _) eqn:Hp;
    [|intros [= <- <-]; split; [done|discriminate]].
  intros [= <- <-]. split; [done|]. intros _.
  eexists team, _, _.
  split; [reflexivity|]. split; [exact Hm|].
  split; [reflexivity|].
  cbn [tr_task Team_pre_save set_tasks td_tasks td_members td_stats
       st_totalTasks st_completedTasks].
  split; [by rewrite last_snoc|].
  split; [reflexivity|]. split; [reflexivity|].
  split; [reflexivity|]. split; [reflexivity|].
  split; [reflexivity|]. split; [reflexivity|].
  split; [reflexivity|]. split; [exact Hp|].
  split; [by intros ->|].
  split; [rewrite length_app; cbn [length]; lia|].
  fold (completed_count
          (td_tasks team
           ++ [mkTask fresh (tq_title body) (tq_description body)
                 (default user (tq_assignedTo body)) "todo"
                 (if truthy_string (tq_priority body)
                  then default ""%string (tq_priority body) else "medium")
                 now None])).
  rewrite completed_count_app.
  unfold completed_count at 2. cbn. lia.
Qed.

Lemma post_task_witness :
  let body := mkTaskRequest None (Some "Write tests"%string) None None None in
  let teams' := fst (post_task 77 2 20 30 body scenario_teams) in
  let resp := snd (post_task 77 2 20 30 body scenario_teams) in
  (tr_status resp <> 200%nat -> teams' = scenario_teams) /\
  (tr_status resp = 200%nat ->
   exists team team' task,
     scenario_teams !! 20%positive = Some team /\
     is_active_member 30 (td_members team) = true /\
     teams' = <[20%positive := team']> scenario_teams /\
     tr_task resp = Some task /\
     td_members team' = td_members team /\
     td_tasks team' = td_tasks team ++ [task] /\
     tk_id task = 2%positive /\ tk_status task = "todo"%string /\
     tk_assignedTo task = default 30%positive (tq_assignedTo body) /\
     tk_createdAt task = 77%Z /\ tk_completedAt task = None /\
     task_priority_valid (tk_priority task) = true /\
     (truthy_string (tq_priority body) = false ->
      tk_priority task = "medium"%string) /\
     st_totalTasks (td_stats team') = S (length (td_tasks team)) /\
     st_completedTasks (td_stats team') = completed_count (td_tasks team)).
Proof.
  cbv zeta.
  apply (post_task_appends 77 2 20 30
           (mkTaskRequest None (Some "Write tests"%string) None None None)
           scenario_teams).
  apply surjective_pairing.
Defined.
